(** * Price snapshot extraction and multi-hotel orchestration

    A shallow embedding of [src/scrapers/price_scraper.py] (with the helpers
    of [src/scrapers/stealth_config.py] and [hotel_info_scraper.py] it calls)
    and the properties the specification states about it.

    Conventions of the embedding.
    - A Python [str] is the list of its code points ([pystr]); literals are
      written [py "..."], the UTF-8 decoding of a Rocq string.
    - A [datetime.date] is its proleptic Gregorian ordinal ([date], an
      integer); [d + timedelta(days=i)] is [d + i] and dates compare as their
      ordinals. [date.today()] is an input, [today]. The [OverflowError] of
      an addition that leaves the years 1 to 9999 is not modelled: the
      embedding covers the runs in which every date computed is a [date]
      value, and a theorem that states what such a computation returns
      carries that condition ([offsets_in_range], [default_in_range],
      [window_in_range]).
    - [strftime] belongs to the [datetime] library and is a parameter of the
      scraper; [iso_strftime] is the ISO formatter, built on [_ord2ymd]. It
      is what [strftime] gives for the dates of the years 1000 to 9999; for
      earlier years the platform decides how [%Y] is padded.
    - A Python [float] or a JavaScript number is the rational it denotes ([Q]).
      The normalizer only compares decimals of at most two places with 10 and
      10000, which rounding to the nearest double does not change.
    - A call that may raise returns a [Result]; [Raise msg] carries [str(e)].
    - The browser is an oracle: a [Page] records the outcome of every call the
      scraper makes on it, an [Env] the outcome of every session request.
    - The order in which the futures of the worker pool complete is an input
      of strategy 3. *)

From Stdlib Require Import ZArith NArith QArith Qreduction List Permutation Sorted Lia.
From Stdlib Require Import String Ascii.
From stdpp Require Import gmap list fin_maps sorting.

Open Scope Z_scope.

(* ===================================================================== *)
(** ** Python values *)
(* ===================================================================== *)

(** A Python string: its sequence of Unicode code points. *)
Abbreviation pystr := (list N).

Fixpoint utf8_decode (bs : list N) : pystr :=
  match bs with
  | [] => []
  | b :: rest =>
      if (b <? 128)%N then b :: utf8_decode rest
      else if (b <? 224)%N then
        match rest with
        | c1 :: rest' => ((b - 192) * 64 + (c1 - 128))%N :: utf8_decode rest'
        | _ => []
        end
      else if (b <? 240)%N then
        match rest with
        | c1 :: c2 :: rest' =>
            ((b - 224) * 4096 + (c1 - 128) * 64 + (c2 - 128))%N :: utf8_decode rest'
        | _ => []
        end
      else
        match rest with
        | c1 :: c2 :: c3 :: rest' =>
            ((b - 240) * 262144 + (c1 - 128) * 4096 + (c2 - 128) * 64 + (c3 - 128))%N
              :: utf8_decode rest'
        | _ => []
        end
  end.

(** [py "..."] is the Python string written between the quotes. *)
Definition py (s : string) : pystr :=
  utf8_decode (map N_of_ascii (list_ascii_of_string s)).

(** The outcome of a call that may raise. *)
Inductive Result (A : Type) : Type :=
| Ok (a : A)
| Raise (msg : pystr).
Arguments Ok {A} a.
Arguments Raise {A} msg.

Definition is_ok {A} (r : Result A) : bool :=
  match r with Ok _ => true | Raise _ => false end.

(** [str.isspace] for one code point; it is also the class [\s] of [re] on
    [str] patterns and the set [str.strip()] trims. *)
Definition is_space (c : N) : bool :=
  ((9 <=? c) && (c <=? 13) || (28 <=? c) && (c <=? 32) || (c =? 133) || (c =? 160)
   || (c =? 5760) || (8192 <=? c) && (c <=? 8202) || (c =? 8232) || (c =? 8233)
   || (c =? 8239) || (c =? 8287) || (c =? 12288))%N.

(** The digits 0 to 9. For JavaScript this is the class [\d]. For Python,
    [\d] on [str] patterns and [float()] also accept the decimal digits of
    other scripts (U+0660 and above), which are not modelled: the normalizer
    is embedded for the texts whose only decimal digits are these ten, and a
    theorem that depends on a text holding no digit says so of the text
    ([plain_text]). *)
Definition is_digit (c : N) : bool := ((48 <=? c) && (c <=? 57))%N.

Definition digit_value (c : N) : Z := Z.of_N c - 48.

Definition EURO : N := 8364.
Definition NBSP : N := 160.
Definition SPACE : N := 32.
Definition COMMA : N := 44.
Definition DOT : N := 46.
Definition ZERO : N := 48.

(** [s.replace(old, new)] for one-character [old] and [new]. *)
Definition replace_char (old new : N) (s : pystr) : pystr :=
  map (fun c => if (c =? old)%N then new else c) s.

(** [s.replace(old, "")] for a one-character [old]. *)
Definition remove_char (old : N) (s : pystr) : pystr :=
  List.filter (fun c => negb (c =? old)%N) s.

Fixpoint lstrip (s : pystr) : pystr :=
  match s with
  | c :: rest => if is_space c then lstrip rest else s
  | [] => []
  end.

Definition rstrip (s : pystr) : pystr := rev (lstrip (rev s)).

(** [s.strip()] *)
Definition strip (s : pystr) : pystr := rstrip (lstrip s).

(** [c in s] for a one-character [c]. *)
Definition contains (c : N) (s : pystr) : bool := existsb (fun x => (x =? c)%N) s.

Fixpoint take_while (p : N -> bool) (s : pystr) : pystr :=
  match s with
  | c :: rest => if p c then c :: take_while p rest else []
  | [] => []
  end.

Fixpoint drop_while (p : N -> bool) (s : pystr) : pystr :=
  match s with
  | c :: rest => if p c then drop_while p rest else s
  | [] => []
  end.

(* ===================================================================== *)
(** ** Price text normalizer: [_parse_avg_price] *)
(* ===================================================================== *)

(** The group [(\d[\d\s]*(?:[.,]\d{2})?)] matched at the head of [s]: a digit,
    the longest run of digits and white space, then a separator and two
    digits when they follow. The optional part can match empty, so the
    greedy run is never shortened. *)
Definition amount_at (s : pystr) : option pystr :=
  match s with
  | c :: rest =>
      if is_digit c then
        let run := take_while (fun x => is_digit x || is_space x) rest in
        let after := drop_while (fun x => is_digit x || is_space x) rest in
        let dec :=
          match after with
          | p :: a :: b :: _ =>
              if ((p =? DOT) || (p =? COMMA))%N && is_digit a && is_digit b
              then [p; a; b] else []
          | _ => []
          end in
        Some (c :: run ++ dec)
      else None
  | [] => None
  end.

(** [re.search(r"€\s*(\d[\d\s]*(?:[.,]\d{2})?)", text)], group 1. *)
Fixpoint search_euro_amount (text : pystr) : option pystr :=
  match text with
  | [] => None
  | c :: rest =>
      if (c =? EURO)%N then
        match amount_at (drop_while is_space rest) with
        | Some g => Some g
        | None => search_euro_amount rest
        end
      else search_euro_amount rest
  end.

(** [re.search(r"(\d[\d\s]*(?:[.,]\d{2})?)", text)], group 1. *)
Fixpoint search_amount (text : pystr) : option pystr :=
  match text with
  | [] => None
  | c :: rest =>
      match amount_at text with
      | Some g => Some g
      | None => search_amount rest
      end
  end.

Definition digits_value (ds : pystr) : Z :=
  fold_left (fun acc c => 10 * acc + digit_value c) ds 0.

(** The characters [float()] trims at both ends: white space, except the
    separators U+001C to U+001F, which it rejects. *)
Definition is_float_space (c : N) : bool :=
  is_space c && negb ((28 <=? c) && (c <=? 31))%N.

Definition float_strip (s : pystr) : pystr :=
  rev (drop_while is_float_space (rev (drop_while is_float_space s))).

(** [float(s)] on unsigned decimal text: white space is trimmed at both ends,
    then the text must be digits, optionally followed by a point and digits;
    anything else raises [ValueError] ([None]). The strings the normalizer
    passes are a digit, digits and white space, and at most one final
    [.dd], so no other form of float literal reaches the call. *)
Definition float (s : pystr) : option Q :=
  let t := float_strip s in
  let ip := take_while is_digit t in
  let rest := drop_while is_digit t in
  match ip, rest with
  | [], _ => None
  | _, [] => Some (inject_Z (digits_value ip))
  | _, p :: fp =>
      if (p =? DOT)%N && forallb is_digit fp then
        Some (Qred (Qmake (digits_value (ip ++ fp))
                          (Z.to_pos (10 ^ Z.of_nat (length fp)))))
      else None
  end.

Definition _parse_avg_price (formatted : option pystr) : option Q :=
  match formatted with
  | None => None
  | Some [] => None
  | Some f =>
      let text := strip (replace_char NBSP SPACE f) in
      let m := match search_euro_amount text with
               | Some g => Some g
               | None => search_amount text
               end in
      match m with
      | None => None
      | Some g =>
          let s := replace_char COMMA DOT (remove_char SPACE g) in
          match s with
          | [] => None
          | _ =>
              match float s with
              | Some p => if Qle_bool 10 p && negb (Qle_bool 10000 p) then Some p else None
              | None => None
              end
          end
      end
  end.

(* ===================================================================== *)
(** ** Dates, windows and the built-in [sorted] *)
(* ===================================================================== *)

(** A [datetime.date], as its proleptic Gregorian ordinal. *)
Abbreviation date := Z.

Definition DATE_FMT : pystr := py "%Y-%m-%d".

(** [sorted(l, key=...)]: a stable sort; [leb] compares two elements by
    their keys. The element being inserted goes before the first element it
    is not greater than, so equal keys keep their order. *)
Fixpoint insert_by {A} (leb : A -> A -> bool) (x : A) (l : list A) : list A :=
  match l with
  | [] => [x]
  | y :: l' => if leb x y then x :: l else y :: insert_by leb x l'
  end.

Definition sorted {A} (leb : A -> A -> bool) (l : list A) : list A :=
  foldr (insert_by leb) [] l.

(** [range(a, b)] *)
Definition range (a b : Z) : list Z :=
  map (fun k => a + Z.of_nat k) (seq 0 (Z.to_nat (b - a))).

(** [enumerate(l, 1)] *)
Definition enumerate1 {A} (l : list A) : list (nat * A) :=
  combine (seq 1 (length l)) l.

(** The two window builders; the dates they add up are taken to be in range
    (see [default_in_range], [offsets_in_range]). *)
Definition get_next_30_days (today : date) (max_dates : option Z) : list date :=
  let days := map (fun i => today + i) (range 1 31) in
  match max_dates with
  | Some n => if 0 <? n then take (Z.to_nat n) days else days
  | None => days
  end.

Definition get_dates_from_offsets (today : date) (offsets : list Z) : list date :=
  map (fun offset => today + offset) (sorted Z.leb offsets).

(** The order of [str]: lexicographic on code points. *)
Fixpoint pystr_leb (a b : pystr) : bool :=
  match a, b with
  | [], _ => true
  | _ :: _, [] => false
  | x :: a', y :: b' =>
      if (x <? y)%N then true else if (y <? x)%N then false else pystr_leb a' b'
  end.

(** *** A concrete [strftime] for ["%Y-%m-%d"]

    [_ord2ymd] of the [datetime] module, then the zero-padded fields. *)
Definition _DAYS_IN_MONTH (month : Z) : Z :=
  match month with
  | 1 => 31 | 2 => 28 | 3 => 31 | 4 => 30 | 5 => 31 | 6 => 30
  | 7 => 31 | 8 => 31 | 9 => 30 | 10 => 31 | 11 => 30 | 12 => 31
  | _ => -1
  end.

Definition _DAYS_BEFORE_MONTH (month : Z) : Z :=
  match month with
  | 1 => 0 | 2 => 31 | 3 => 59 | 4 => 90 | 5 => 120 | 6 => 151
  | 7 => 181 | 8 => 212 | 9 => 243 | 10 => 273 | 11 => 304 | 12 => 334
  | _ => -1
  end.

Definition _ord2ymd (ordinal : Z) : Z * Z * Z :=
  let n := ordinal - 1 in
  let n400 := n / 146097 in
  let n := n mod 146097 in
  let year := n400 * 400 + 1 in
  let n100 := n / 36524 in
  let n := n mod 36524 in
  let n4 := n / 1461 in
  let n := n mod 1461 in
  let n1 := n / 365 in
  let n := n mod 365 in
  let year := year + n100 * 100 + n4 * 4 + n1 in
  if (n1 =? 4) || (n100 =? 4) then (year - 1, 12, 31)
  else
    let leapyear := (n1 =? 3) && (negb (n4 =? 24) || (n100 =? 3)) in
    let month := Z.shiftr (n + 50) 5 in
    let preceding :=
      _DAYS_BEFORE_MONTH month + (if (2 <? month) && leapyear then 1 else 0) in
    if n <? preceding then
      let month' := month - 1 in
      let preceding' :=
        preceding - (_DAYS_IN_MONTH month'
                     + (if (month' =? 2) && leapyear then 1 else 0)) in
      (year, month', n - preceding' + 1)
    else (year, month, n - preceding + 1).

Definition digit_char (d : Z) : N := Z.to_N (48 + d mod 10).

Definition pad2 (v : Z) : pystr := [digit_char (v / 10); digit_char v].

Definition pad4 (v : Z) : pystr :=
  [digit_char (v / 1000); digit_char (v / 100); digit_char (v / 10); digit_char v].

Definition iso_strftime (d : date) (fmt : pystr) : pystr :=
  let '(y, m, dd) := _ord2ymd d in
  pad4 y ++ py "-" ++ pad2 m ++ py "-" ++ pad2 dd.

(** *** Vocabulary of the calendar proofs *)

(** [_days_before_year] of the [datetime] module. *)
Definition _days_before_year (year : Z) : Z :=
  let y := year - 1 in y * 365 + y / 4 - y / 100 + y / 400.

(** The month and day [_ord2ymd] derives from the day of the year. *)
Definition month_day (leapyear : bool) (n : Z) : Z * Z :=
  let month := Z.shiftr (n + 50) 5 in
  let preceding :=
    _DAYS_BEFORE_MONTH month + (if (2 <? month) && leapyear then 1 else 0) in
  if n <? preceding then
    let month' := month - 1 in
    let preceding' :=
      preceding - (_DAYS_IN_MONTH month'
                   + (if (month' =? 2) && leapyear then 1 else 0)) in
    (month', n - preceding' + 1)
  else (month, n - preceding + 1).

(** The extra day of a leap year. *)
Definition leap_days (leap : bool) : Z := if leap then 1 else 0.

(** A month and day, and a full date, as one number each. *)
Definition md_code (p : Z * Z) : Z := p.1 * 100 + p.2.

Definition ymd_code (t : Z * Z * Z) : Z :=
  let '(y, m, d) := t in y * 10000 + m * 100 + d.

(** The check run on every day of a year. *)
Definition month_day_ok (leap : bool) (k : nat) : bool :=
  let doy := Z.of_nat k in
  let '(m, d) := month_day leap doy in
  (1 <=? m) && (m <=? 12) && (1 <=? d) && (d <=? 31)
  && ((365 + leap_days leap <=? doy + 1)
      || (md_code (m, d) <? md_code (month_day leap (doy + 1)))).

(** 1000-01-01 and 9999-12-31: the dates whose year has four digits. *)
Definition FIRST_4DIGIT_DAY : Z := 364878.
Definition LAST_4DIGIT_DAY : Z := 3652059.

Definition four_digit_year (d : date) : Prop :=
  FIRST_4DIGIT_DAY <= d <= LAST_4DIGIT_DAY.

(** *** The range of [date]

    [date.min] and [date.max] are 0001-01-01 and 9999-12-31. An addition
    [d + timedelta(days=i)] whose result is not between them raises
    [OverflowError]; the predicates below say that the additions of a
    computation all give dates. *)

Definition MIN_ORDINAL : Z := 1.
Definition MAX_ORDINAL : Z := 3652059.

(** The ordinal of a [date] value. *)
Definition is_date (d : Z) : Prop := MIN_ORDINAL <= d <= MAX_ORDINAL.

(** [get_dates_from_offsets] computes every date it is asked for. *)
Definition offsets_in_range (today : date) (offsets : list Z) : Prop :=
  is_date today /\ Forall (fun offset => is_date (today + offset)) offsets.

(** [get_next_30_days] computes its thirty dates; all are computed before
    the list is cut to [max_dates]. *)
Definition default_in_range (today : date) : Prop :=
  is_date today /\ is_date (today + 30).

(** A window [scrape_hotel_with_page] builds its URL for: a list of dates
    whose last one has a next day (the check-out date of the URL). *)
Definition window_in_range (dates : list date) : Prop :=
  Forall is_date dates
  /\ match last dates with
     | Some d => is_date (d + 1)
     | None => True
     end.

(* ===================================================================== *)
(** ** Observations, snapshots and the rendered calendar *)
(* ===================================================================== *)

(** One entry of the date -> observation dictionary:
    [{"price": ..., "available": ...}]. *)
Record Observation : Type := {
  obs_price : option Q;
  obs_available : bool
}.

(** The dictionary [calendar_days]: check-in string -> observation. *)
Abbreviation calendar := (gmap pystr Observation).

Record Hotel : Type := {
  id : pystr;
  name : pystr;
  url : pystr
}.

Record Snapshot : Type := {
  hotelId : pystr;
  dateCheckin : pystr;
  price : option Q;
  currency : pystr;
  available : bool
}.

(** What the calendar script reads from one candidate cell. The three
    [data-date] look-ups are kept apart; [cell_price] is the value of
    [m ? parseFloat(...) : null] and [cell_disabled] the value of
    [disabled], both computed by the browser from the cell's markup. *)
Record Cell : Type := {
  attr_data_date : option pystr;
  inner_data_date : option pystr;
  closest_data_date : option pystr;
  cell_price : option Q;
  cell_disabled : bool
}.

(** The rendered surface: the cells each of the three selectors returns. *)
Record Surface : Type := {
  main_table_cells : list Cell;
  data_date_cells : list Cell;
  table_cells : list Cell
}.

(** JavaScript [a || b] on values that are a string, [null] or [undefined]. *)
Definition js_or (a b : option pystr) : option pystr :=
  match a with
  | Some (_ :: _) => a
  | _ => b
  end.

Definition HYPHEN : N := 45.

(** [dateStr.match(/^(\d{4})-(\d{2})-(\d{2})/)], element 0 of the match. *)
Definition iso_match (dateStr : pystr) : option pystr :=
  match dateStr with
  | y1 :: y2 :: y3 :: y4 :: h1 :: m1 :: m2 :: h2 :: d1 :: d2 :: _ =>
      if forallb is_digit [y1; y2; y3; y4; m1; m2; d1; d2]
         && (h1 =? HYPHEN)%N && (h2 =? HYPHEN)%N
      then Some [y1; y2; y3; y4; h1; m1; m2; h2; d1; d2]
      else None
  | _ => None
  end.

(** The check-in key derived from a [data-date] value; [[]] when none is. *)
Definition checkin_of_dateStr (dateStr : pystr) : pystr :=
  match iso_match dateStr with
  | Some iso => iso
  | None =>
      let digits := List.filter is_digit dateStr in
      if (8 <=? length digits)%nat
      then take 4 digits ++ [HYPHEN] ++ take 2 (drop 4 digits)
             ++ [HYPHEN] ++ take 2 (drop 6 digits)
      else []
  end.

(** [!disabled && price !== null && price >= 10] *)
Definition cell_available (cell : Cell) : bool :=
  negb (cell_disabled cell)
  && match cell_price cell with
     | Some p => Qle_bool 10 p
     | None => false
     end.

(** The body of [for (const cell of cells)]. *)
Definition scan_cell (out : calendar) (cell : Cell) : calendar :=
  let dateStr :=
    js_or (js_or (js_or (attr_data_date cell) (inner_data_date cell))
                 (closest_data_date cell)) (Some []) in
  match dateStr with
  | Some (c :: s) =>
      match checkin_of_dateStr (c :: s) with
      | [] => out
      | checkin =>
          let available := cell_available cell in
          if negb (bool_decide (is_Some (out !! checkin))) || available then
            <[checkin := {| obs_price := if available then cell_price cell else None;
                            obs_available := available |}]> out
          else out
      end
  | _ => out
  end.

(** The selector chain: the first family with at least five cells. *)
Definition select_cells (surface : Surface) : list Cell :=
  let cells := main_table_cells surface in
  let cells := if (length cells <? 5)%nat then data_date_cells surface else cells in
  let cells := if (length cells <? 5)%nat then table_cells surface else cells in
  cells.

(** The script run by [page.evaluate] in [_extract_calendar_from_dom]. *)
Definition calendar_script (surface : Surface) : calendar :=
  fold_left scan_cell (select_cells surface) ∅.

(** A Playwright page, by the outcome of each call the scraper makes on it.
    [evaluate_calendar k] is what the [k]-th run of the calendar script
    sees (the surface changes while prices load). The locator of the date
    button is created lazily and cannot raise; only its methods are here. *)
Record Page : Type := {
  goto : pystr -> Result unit;
  evaluate_scroll : Result unit;
  date_btn_wait_for : Result unit;
  date_btn_scroll_into_view_if_needed : Result unit;
  date_btn_evaluate_click : Result unit;
  calendar_wait_for : Result unit;
  evaluate_calendar : nat -> Result Surface
}.

(** Exceptions propagate: the sequencing of calls that may raise. *)
#[global] Instance Result_bind : MBind Result := fun A B k r =>
  match r with
  | Ok a => k a
  | Raise msg => Raise msg
  end.

#[global] Instance Result_ret : MRet Result := fun A a => Ok a.

(** [_extract_calendar_from_dom(page)], at its [k]-th call; [result or {}]
    is [result] itself, the script always returning an object. *)
Definition _extract_calendar_from_dom (page : Page) (k : nat) : Result calendar :=
  surface ← evaluate_calendar page k;
  Ok (calendar_script surface).

(** [for checkin, info in dom_data.items(): calendar_days[checkin] = info] *)
Definition update_all (calendar_days dom_data : calendar) : calendar :=
  fold_left (fun acc kv => <[kv.1 := kv.2]> acc) (map_to_list dom_data) calendar_days.

(** The retry loop [for attempt in range(3)]. An exception leaves the loop
    with [calendar_days] as it then is. *)
Fixpoint retry_extraction (page : Page) (total : nat) (attempts : list nat)
    (calendar_days : calendar) : calendar :=
  match attempts with
  | [] => calendar_days
  | attempt :: rest =>
      match _extract_calendar_from_dom page attempt with
      | Raise _ => calendar_days
      | Ok dom_data =>
          if bool_decide (dom_data = ∅) then
            retry_extraction page total rest calendar_days
          else
            let calendar_days := update_all calendar_days dom_data in
            if (Nat.min 3 total <=? size calendar_days)%nat then calendar_days
            else retry_extraction page total rest calendar_days
      end
  end.

(** Steps 1 to 5 up to the click. [_accept_cookies_if_present] and
    [random_delay] cannot raise; a failed wait for the calendar is ignored. *)
Definition open_calendar (page : Page) (url : pystr) : Result unit :=
  goto page url ;;
  evaluate_scroll page ;;
  date_btn_wait_for page ;;
  date_btn_scroll_into_view_if_needed page ;;
  date_btn_evaluate_click page ;;
  Ok tt.

(** The [try] block of [scrape_hotel_with_page]: the dictionary it leaves. *)
Definition collect_calendar_days (page : Page) (url : pystr) (total : nat) : calendar :=
  match open_calendar page url with
  | Raise _ => ∅
  | Ok _ => retry_extraction page total (seq 0 3) ∅
  end.

(** No run of the calendar script yields an observation: each one raises or
    returns an empty object. *)
Definition nothing_extracted (page : Page) : Prop :=
  forall k, match _extract_calendar_from_dom page k with
            | Ok dom_data => dom_data = ∅
            | Raise _ => True
            end.

(* ===================================================================== *)
(** ** Single-hotel procedure and the three strategies *)
(* ===================================================================== *)

(** The run statistics dictionary [stats]. *)
Record Stats : Type := {
  total_hotels : nat;
  total_snapshots : nat;
  successful_hotels : nat;
  failed_hotels : nat;
  errors : list pystr
}.

(** What [create_stealth_browser_full()] returns, as far as the strategies
    use it: the first page and [context.new_page()], whose outcome is given
    for the rank of the hotel it is opened for. *)
Record Browser : Type := {
  page : Page;
  context_new_page : nat -> Result Page
}.

(** The session factory. [create_stealth_browser_full i] is the outcome of
    the call made for the hotel of rank [i] (strategies 1 and 3, one call per
    hotel); [create_shared_browser] the outcome of the single call of
    strategy 2. [close_browser_full] catches every exception itself, and
    so returns normally in all cases. *)
Record Env : Type := {
  create_stealth_browser_full : nat -> Result Browser;
  create_shared_browser : Result Browser
}.

Definition QUESTION : N := 63.

Definition init_stats (hotels : list Hotel) : Stats :=
  {| total_hotels := length hotels; total_snapshots := 0; successful_hotels := 0;
     failed_hotels := 0; errors := [] |}.

(** The success branch: [all_snapshots.extend(snapshots)] and the counters. *)
Definition record_success (acc : Stats * list Snapshot) (snapshots : list Snapshot)
  : Stats * list Snapshot :=
  let '(stats, all_snapshots) := acc in
  ({| total_hotels := total_hotels stats;
      total_snapshots := total_snapshots stats + length snapshots;
      successful_hotels := successful_hotels stats + 1;
      failed_hotels := failed_hotels stats;
      errors := errors stats |},
   all_snapshots ++ snapshots).

(** The failure branch: the counter and [f"{hotel['name']}: {e}"]. *)
Definition record_failure (acc : Stats * list Snapshot) (hotel : Hotel) (e : pystr)
  : Stats * list Snapshot :=
  let '(stats, all_snapshots) := acc in
  ({| total_hotels := total_hotels stats;
      total_snapshots := total_snapshots stats;
      successful_hotels := successful_hotels stats;
      failed_hotels := failed_hotels stats + 1;
      errors := errors stats ++ [name hotel ++ py ": " ++ e] |},
   all_snapshots).

Section Scraper.

(** [d.strftime(fmt)], of the [datetime] library. *)
Variable strftime : date -> pystr -> pystr.

(** Step 6, one date: the snapshot built from [calendar_days]. A missing
    key reads as the empty dictionary, for which both fields default. *)
Definition make_snapshot (hotel : Hotel) (calendar_days : calendar)
    (checkin_date : date) : Snapshot :=
  let checkin_str := strftime checkin_date DATE_FMT in
  let info := calendar_days !! checkin_str in
  let price := match info with Some i => obs_price i | None => None end in
  let available :=
    match info with
    | None => false
    | Some _ => match price with Some _ => true | None => false end
    end in
  {| hotelId := id hotel;
     dateCheckin := checkin_str;
     price := price;
     currency := py "EUR";
     available := available |}.

Definition by_dateCheckin (s1 s2 : Snapshot) : bool :=
  pystr_leb (dateCheckin s1) (dateCheckin s2).

(** [dates[0]] and [dates[-1]] are read before the [try]: an empty window
    raises [IndexError]. The day after [dates[-1]] is taken to exist (see
    [window_in_range]): for a window that ends on 9999-12-31 the code raises
    [OverflowError] there, which is not modelled. *)
Definition scrape_hotel_with_page (page : Page) (hotel : Hotel) (dates : list date)
  : Result (list Snapshot) :=
  let total := length dates in
  match head dates, last dates with
  | Some first, Some last =>
      let first_str := strftime first DATE_FMT in
      let last_str := strftime (last + 1) DATE_FMT in
      let sep := if contains QUESTION (url hotel) then py "&" else py "?" in
      let url := url hotel ++ sep ++ py "checkin=" ++ first_str
                   ++ py "&checkout=" ++ last_str in
      let calendar_days := collect_calendar_days page url total in
      let snapshots := map (make_snapshot hotel calendar_days) dates in
      Ok (sorted by_dateCheckin snapshots)
  | _, _ => Raise (py "list index out of range")
  end.

(** *** Strategy 1: one browser per hotel *)

Definition isolated_step (env : Env) (dates : list date)
    (acc : Stats * list Snapshot) (ih : nat * Hotel) : Stats * list Snapshot :=
  let '(i, hotel) := ih in
  match (browser ← create_stealth_browser_full env i;
         scrape_hotel_with_page (page browser) hotel dates) with
  | Ok snapshots => record_success acc snapshots
  | Raise e => record_failure acc hotel e
  end.

Definition _strategy_1_isolated (env : Env) (hotels : list Hotel) (dates : list date)
    (fast_mode : bool) : Stats * list Snapshot :=
  fold_left (isolated_step env dates) (enumerate1 hotels) (init_stats hotels, []).

(** *** Strategy 2: one browser, one tab per hotel *)

Definition shared_step (browser : Browser) (dates : list date)
    (acc : Stats * list Snapshot) (ih : nat * Hotel) : Stats * list Snapshot :=
  let '(i, hotel) := ih in
  match (page ← (if (1 <? i)%nat then context_new_page browser i else Ok (page browser));
         scrape_hotel_with_page page hotel dates) with
  | Ok snapshots => record_success acc snapshots
  | Raise e => record_failure acc hotel e
  end.

(** The browser is created outside every [try ... except]: when that call
    raises, so does the strategy. *)
Definition _strategy_2_shared_browser (env : Env) (hotels : list Hotel)
    (dates : list date) (fast_mode : bool) : Result (Stats * list Snapshot) :=
  browser ← create_shared_browser env;
  Ok (fold_left (shared_step browser dates) (enumerate1 hotels) (init_stats hotels, [])).

(** *** Strategy 3: bounded worker pool *)

(** [scrape_one(hotel, idx)]: [Ok] stands for [{"ok": True, ...}] and
    [Raise] for [{"ok": False, "error": str(e)}]. *)
Definition scrape_one (env : Env) (dates : list date) (hotel : Hotel) (idx : nat)
  : Result (list Snapshot) :=
  browser ← create_stealth_browser_full env idx;
  scrape_hotel_with_page (page browser) hotel dates.

(** The futures in submission order, each with its hotel and its result. *)
Definition submit_all (env : Env) (dates : list date) (hotels : list Hotel)
  : list (Hotel * Result (list Snapshot)) :=
  map (fun ih => (ih.2, scrape_one env dates ih.2 ih.1)) (enumerate1 hotels).

(** The body of [for future in as_completed(futures)]; [k] is the position
    of the completed future among the submitted ones. *)
Definition completed_step (futures : list (Hotel * Result (list Snapshot)))
    (acc : Stats * list Snapshot) (k : nat) : Stats * list Snapshot :=
  match futures !! k with
  | Some (hotel, Ok snapshots) => record_success acc snapshots
  | Some (hotel, Raise e) => record_failure acc hotel e
  | None => acc
  end.

(** [as_completed] yields every future once, in the order the workers
    finish: [completion] is that order, chosen by the scheduler. *)
Definition _strategy_3_parallel (env : Env) (completion : list nat)
    (hotels : list Hotel) (dates : list date) (max_workers : nat)
  : Stats * list Snapshot :=
  let futures := submit_all env dates hotels in
  fold_left (completed_step futures) completion (init_stats hotels, []).

(** The dates of the builder are taken to be in range (see [run_in_range]). *)
Definition scrape_multiple_hotels (env : Env) (today : date) (completion : list nat)
    (hotels : list Hotel) (max_dates_per_hotel : option Z)
    (date_offsets : option (list Z)) (strategy : Z)
  : Result (Stats * list Snapshot) :=
  let dates := match date_offsets with
               | Some offsets => get_dates_from_offsets today offsets
               | None => get_next_30_days today max_dates_per_hotel
               end in
  let dates := sorted Z.leb dates in
  let fast_mode := match date_offsets with
                   | Some [_] => true
                   | _ => false
                   end in
  if strategy =? 1 then Ok (_strategy_1_isolated env hotels dates fast_mode)
  else if strategy =? 2 then _strategy_2_shared_browser env hotels dates fast_mode
  else if strategy =? 3 then Ok (_strategy_3_parallel env completion hotels dates 2)
  else Ok (_strategy_1_isolated env hotels dates fast_mode).

(** *** Vocabulary of the properties *)

(** The snapshot of a date for which nothing was observed. *)
Definition unavailable_snapshot (hotel : Hotel) (d : date) : Snapshot :=
  {| hotelId := id hotel;
     dateCheckin := strftime d DATE_FMT;
     price := None;
     currency := py "EUR";
     available := false |}.

(** On the dates of a window, the formatted keys order as the dates do
    (what ISO-8601 gives for years of four digits). *)
Definition keys_order_as_dates (dates : list date) : Prop :=
  forall d1 d2, d1 ∈ dates -> d2 ∈ dates ->
    pystr_leb (strftime d1 DATE_FMT) (strftime d2 DATE_FMT) = (d1 <=? d2).

Definition keys_order_as_datesb (dates : list date) : bool :=
  forallb (fun d1 =>
    forallb (fun d2 =>
      Bool.eqb (pystr_leb (strftime d1 DATE_FMT) (strftime d2 DATE_FMT)) (d1 <=? d2))
      dates) dates.

(** What the single-hotel procedure owes for a window: it returns the
    snapshots of the window's dates in ascending date order, one per date,
    built from the dictionary it collected; a date without an observation
    gets no price and is unavailable, and nothing is collected when
    navigation fails. *)
Definition window_returned (page : Page) (hotel : Hotel) (dates : list date) : Prop :=
  exists url,
    let calendar_days := collect_calendar_days page url (length dates) in
    let out := map (make_snapshot hotel calendar_days) (sorted Z.leb dates) in
    scrape_hotel_with_page page hotel dates = Ok out
    /\ map dateCheckin out = map (fun d => strftime d DATE_FMT) (sorted Z.leb dates)
    /\ sorted Z.leb dates ≡ₚ dates
    /\ StronglySorted Z.lt (sorted Z.leb dates)
    /\ NoDup (map dateCheckin out)
    /\ length out = length dates
    /\ (forall d, calendar_days !! strftime d DATE_FMT = None ->
          make_snapshot hotel calendar_days d = unavailable_snapshot hotel d)
    /\ (calendar_days = ∅ ->
          out = map (unavailable_snapshot hotel) (sorted Z.leb dates))
    /\ (is_ok (goto page url) = false -> calendar_days = ∅)
    /\ (is_ok (open_calendar page url) = false -> calendar_days = ∅)
    /\ (nothing_extracted page -> calendar_days = ∅).

(** The snapshots a hotel contributes to the run: its list on success,
    nothing on failure. *)
Definition snapshots_or_nil (r : Result (list Snapshot)) : list Snapshot :=
  match r with
  | Ok snapshots => snapshots
  | Raise _ => []
  end.

(** The outcome of the hotel of rank [i] under strategy 2. *)
Definition shared_one (browser : Browser) (dates : list date) (hotel : Hotel) (i : nat)
  : Result (list Snapshot) :=
  page ← (if (1 <? i)%nat then context_new_page browser i else Ok (page browser));
  scrape_hotel_with_page page hotel dates.

End Scraper.

(* ===================================================================== *)
(** ** Structured payload: search and merge *)
(* ===================================================================== *)

#[local] Unset Elimination Schemes.

(** A decoded JSON value. A mapping keeps its keys in document order, which is
    the order [dict.values()] iterates in; its keys are distinct. *)
Inductive json : Type :=
| JNull
| JBool (b : bool)
| JNum (q : Q)
| JStr (s : pystr)
| JList (items : list json)
| JDict (fields : list (pystr * json)).

#[local] Set Elimination Schemes.

Definition pystr_eqb (a b : pystr) : bool := bool_decide (a = b).

(** [key in d] *)
Definition has_key (key : pystr) (fields : list (pystr * json)) : bool :=
  existsb (fun kv => pystr_eqb kv.1 key) fields.

(** [d.get(key)]: [None] (here [JNull]) when the key is missing. *)
Fixpoint dict_get (key : pystr) (fields : list (pystr * json)) : json :=
  match fields with
  | [] => JNull
  | (k, v) :: rest => if pystr_eqb k key then v else dict_get key rest
  end.

Definition _is_calendar_days_list (days : json) : bool :=
  match days with
  | JList (JDict fields :: _) => has_key (py "checkin") fields
  | _ => false
  end.

(** [if found: return found]: a list is returned when it is not empty. *)
Definition truthy (found : option (list json)) : bool :=
  match found with
  | Some (_ :: _) => true
  | _ => false
  end.

Fixpoint _find_calendar_days (obj : json) : option (list json) :=
  match obj with
  | JDict fields =>
      let days := dict_get (py "days") fields in
      if _is_calendar_days_list days then
        match days with
        | JList l => Some l
        | _ => None
        end
      else
        (fix over_values (fs : list (pystr * json)) : option (list json) :=
           match fs with
           | [] => None
           | (_, v) :: rest =>
               let found := _find_calendar_days v in
               if truthy found then found else over_values rest
           end) fields
  | JList items =>
      (fix over_items (l : list json) : option (list json) :=
         match l with
         | [] => None
         | item :: rest =>
             let found := _find_calendar_days item in
             if truthy found then found else over_items rest
         end) items
  | _ => None
  end.

(** [if not body: return None]; a [Dict] is falsy when empty. *)
Definition _extract_calendar_from_body (body : option json) : option (list json) :=
  match body with
  | None | Some JNull | Some (JDict []) => None
  | Some b => _find_calendar_days b
  end.

(** One entry of the list [_merge_days_into] receives, with the types its
    docstring gives the three fields; [None] is a missing or null field. *)
Record Day : Type := {
  checkin : option pystr;
  avgPriceFormatted : option pystr;
  day_available : option bool
}.

(** The body of [for d in days]. *)
Definition merge_day (calendar_days : calendar) (d : Day) : calendar :=
  match checkin d with
  | None | Some [] => calendar_days
  | Some key =>
      let available := match day_available d with Some true => true | _ => false end in
      let formatted := strip (match avgPriceFormatted d with Some f => f | None => [] end) in
      let price := if available then _parse_avg_price (Some formatted) else None in
      let available :=
        if match price with None => true | Some _ => false end
           && available && contains ZERO formatted
        then false else available in
      <[key := {| obs_price := price; obs_available := available |}]> calendar_days
  end.

(** The dictionary is updated in place; the updated dictionary is returned. *)
Definition _merge_days_into (calendar_days : calendar) (days : list Day) : calendar :=
  fold_left merge_day days calendar_days.

(* ===================================================================== *)
(** ** Reading of the specification's wording, for comparison *)
(* ===================================================================== *)

(** "Each of the sequence's entries contains a check-in date field and a
    formatted-price field." *)
Definition entry_has_both_fields (e : json) : bool :=
  match e with
  | JDict fields => has_key (py "checkin") fields && has_key (py "avgPriceFormatted") fields
  | _ => false
  end.

(** Every sequence anywhere in a payload, parents before children. *)
Fixpoint sequences_of (obj : json) : list (list json) :=
  match obj with
  | JList items =>
      items :: (fix over (l : list json) : list (list json) :=
                  match l with
                  | [] => []
                  | x :: rest => sequences_of x ++ over rest
                  end) items
  | JDict fields =>
      (fix over (fs : list (pystr * json)) : list (list json) :=
         match fs with
         | [] => []
         | (_, v) :: rest => sequences_of v ++ over rest
         end) fields
  | _ => []
  end.

(** Every value bound to the key ["days"], in the order the search meets
    them: a mapping's own field first, then inside its values in turn. *)
Fixpoint days_fields (obj : json) : list json :=
  match obj with
  | JDict fields =>
      (if has_key (py "days") fields then [dict_get (py "days") fields] else [])
      ++ (fix over (fs : list (pystr * json)) : list json :=
            match fs with
            | [] => []
            | (_, v) :: rest => days_fields v ++ over rest
            end) fields
  | JList items =>
      (fix over (l : list json) : list json :=
         match l with
         | [] => []
         | x :: rest => days_fields x ++ over rest
         end) items
  | _ => []
  end.

(** The overwrite rule as the specification words it: a later observation
    replaces the stored one only when it indicates availability (or when the
    date has none yet). *)
Definition guarded_write (calendar_days : calendar) (key : pystr) (o : Observation)
  : calendar :=
  match calendar_days !! key with
  | Some _ => if obs_available o then <[key := o]> calendar_days else calendar_days
  | None => <[key := o]> calendar_days
  end.

(** The observation [_merge_days_into] stores for one entry. *)
Definition day_observation (d : Day) : Observation :=
  let available := match day_available d with Some true => true | _ => false end in
  let formatted := strip (match avgPriceFormatted d with Some f => f | None => [] end) in
  let price := if available then _parse_avg_price (Some formatted) else None in
  {| obs_price := price;
     obs_available :=
       if match price with None => true | Some _ => false end
          && available && contains ZERO formatted
       then false else available |}.

(** The last entry of [days] written under [key], if any. *)
Fixpoint last_day_for (key : pystr) (days : list Day) : option Day :=
  match days with
  | [] => None
  | d :: rest =>
      match last_day_for key rest with
      | Some d' => Some d'
      | None => if bool_decide (checkin d = Some key) then Some d else None
      end
  end.

(** The key the calendar script derives for a cell; [[]] when it skips it. *)
Definition cell_checkin (cell : Cell) : pystr :=
  match js_or (js_or (js_or (attr_data_date cell) (inner_data_date cell))
                     (closest_data_date cell)) (Some []) with
  | Some (c :: s) => checkin_of_dateStr (c :: s)
  | _ => []
  end.

(** The observation the calendar script writes for a cell. *)
Definition cell_observation (cell : Cell) : Observation :=
  {| obs_price := if cell_available cell then cell_price cell else None;
     obs_available := cell_available cell |}.

(** The first candidate the search accepts, with the list it then returns. *)
Fixpoint first_days_list (candidates : list json) : option (list json) :=
  match candidates with
  | [] => None
  | c :: rest =>
      if _is_calendar_days_list c then
        match c with
        | JList l => Some l
        | _ => None
        end
      else first_days_list rest
  end.

(** One loop iteration of a strategy, given the hotel and its outcome. *)
Definition record (acc : Stats * list Snapshot) (hr : Hotel * Result (list Snapshot))
  : Stats * list Snapshot :=
  match hr.2 with
  | Ok snapshots => record_success acc snapshots
  | Raise e => record_failure acc hr.1 e
  end.

Definition failed (hr : Hotel * Result (list Snapshot)) : bool := negb (is_ok hr.2).

Definition succeeded (hr : Hotel * Result (list Snapshot)) : bool := is_ok hr.2.

Definition error_entry (hr : Hotel * Result (list Snapshot)) : pystr :=
  match hr.2 with
  | Ok _ => []
  | Raise e => name hr.1 ++ py ": " ++ e
  end.

(** The counters agree with each other, with the hotel list and with the
    returned snapshots. *)
Definition stats_consistent (hotels : list Hotel) (r : Stats * list Snapshot) : Prop :=
  total_hotels r.1 = length hotels
  /\ (successful_hotels r.1 + failed_hotels r.1 = total_hotels r.1)%nat
  /\ length (errors r.1) = failed_hotels r.1
  /\ total_snapshots r.1 = length r.2.

(** [available] is true exactly when a price is present. *)
Definition snapshot_consistent (s : Snapshot) : Prop :=
  available s = match price s with Some _ => true | None => false end.

(** "Strictly ascending by calendar date, of length at most the requested
    cap, with a first date strictly after today." *)
Definition window_as_specified (today : date) (cap : nat) (w : list date) : Prop :=
  StronglySorted Z.lt w /\ (length w <= cap)%nat /\ forall d, head w = Some d -> today < d.

(** The number of dates the default builder is asked for. *)
Definition requested_cap (max_dates : option Z) : nat :=
  match max_dates with
  | Some n => if 0 <? n then Nat.min (Z.to_nat n) 30 else 30%nat
  | None => 30%nat
  end.

(* ===================================================================== *)
(** ** Concrete inputs for the examples *)
(* ===================================================================== *)

(** 2026-11-04 *)
Definition TODAY : date := 739924.

Definition hotel_a : Hotel :=
  {| id := py "h-a"; name := py "Hotel A";
     url := py "https://www.booking.com/hotel/fr/a.html" |}.

Definition hotel_b : Hotel :=
  {| id := py "h-b"; name := py "Hotel B";
     url := py "https://www.booking.com/hotel/fr/b.html?lang=fr" |}.

Definition hotel_c : Hotel :=
  {| id := py "h-c"; name := py "Hotel C";
     url := py "https://www.booking.com/hotel/fr/c.html" |}.

(** A cell that carries its own [data-date]. *)
Definition cell_at (dateStr : pystr) (p : option Q) (disabled : bool) : Cell :=
  {| attr_data_date := Some dateStr; inner_data_date := None;
     closest_data_date := None; cell_price := p; cell_disabled := disabled |}.

Definition surface_of (cells : list Cell) : Surface :=
  {| main_table_cells := cells; data_date_cells := []; table_cells := [] |}.

(** A page on which every call succeeds and every run of the calendar
    script sees the surface [shown k]. *)
Definition page_showing (shown : nat -> Surface) : Page :=
  {| goto := fun _ => Ok tt;
     evaluate_scroll := Ok tt;
     date_btn_wait_for := Ok tt;
     date_btn_scroll_into_view_if_needed := Ok tt;
     date_btn_evaluate_click := Ok tt;
     calendar_wait_for := Ok tt;
     evaluate_calendar := fun k => Ok (shown k) |}.

(** A page whose navigation fails. *)
Definition unreachable_page : Page :=
  {| goto := fun _ => Raise (py "Timeout 25000ms exceeded.");
     evaluate_scroll := Ok tt;
     date_btn_wait_for := Ok tt;
     date_btn_scroll_into_view_if_needed := Ok tt;
     date_btn_evaluate_click := Ok tt;
     calendar_wait_for := Ok tt;
     evaluate_calendar := fun _ => Ok (surface_of []) |}.

(** Five cells for 2026-11-05 .. 2026-11-08: a price, a disabled cell, a
    number below 10, a second cell for 2026-11-05 without a price, and a
    cell dated by digits only. *)
Definition november_cells : list Cell :=
  [ cell_at (py "2026-11-05") (Some 120%Q) false;
    cell_at (py "2026-11-06") (Some 95%Q) true;
    cell_at (py "2026-11-07") (Some 8%Q) false;
    cell_at (py "2026-11-05") None false;
    cell_at (py "20261108") (Some 99%Q) false ].

Definition november_page : Page := page_showing (fun _ => surface_of november_cells).

(** Two entries of a structured payload for 2026-11-05: one without a price,
    one priced 120. *)
Definition day_unavailable : Day :=
  {| checkin := Some (py "2026-11-05"); avgPriceFormatted := None;
     day_available := Some false |}.

Definition day_priced : Day :=
  {| checkin := Some (py "2026-11-05"); avgPriceFormatted := Some (py "€ 120");
     day_available := Some true |}.

(** A page whose first run of the calendar script finds 2026-11-05 priced
    120 and whose later runs find the same date without a price. *)
Definition flickering_page : Page :=
  page_showing (fun k =>
    {| main_table_cells := []; data_date_cells := [];
       table_cells :=
         match k with
         | O => [cell_at (py "2026-11-05") (Some 120%Q) false]
         | _ => [cell_at (py "2026-11-05") None false]
         end |}).

(** Three sessions are acquired, and navigation fails for the hotel of
    rank 2. *)
Definition env_navigation_fails : Env :=
  let browser_of (p : Page) :=
    {| page := p; context_new_page := fun _ => Ok p |} in
  {| create_stealth_browser_full := fun i =>
       Ok (browser_of (if (i =? 2)%nat then unreachable_page else november_page));
     create_shared_browser :=
       Ok {| page := november_page;
             context_new_page := fun i =>
               Ok (if (i =? 2)%nat then unreachable_page else november_page) |} |}.

(** No session can be acquired for the hotel of rank 2. *)
Definition env_session_fails : Env :=
  let browser_of (p : Page) :=
    {| page := p; context_new_page := fun _ => Ok p |} in
  {| create_stealth_browser_full := fun i =>
       if (i =? 2)%nat then Raise (py "BrowserType.launch: Executable doesn't exist")
       else Ok (browser_of november_page);
     create_shared_browser :=
       Ok {| page := november_page;
             context_new_page := fun i =>
               if (i =? 2)%nat then Raise (py "Target closed") else Ok november_page |} |}.

(** A payload whose ["days"] list has a first entry with a check-in date
    only, and a second entry that is not a mapping. *)
Definition payload_loose : json :=
  JDict [ (py "data",
           JDict [ (py "availabilityCalendar",
                    JDict [ (py "days",
                             JList [ JDict [ (py "checkin", JStr (py "2026-11-05")) ];
                                     JNum 5%Q ]) ]) ]) ].

(** A payload whose well-formed entries sit under another key. *)
Definition payload_other_key : json :=
  JDict [ (py "calendar",
           JList [ JDict [ (py "checkin", JStr (py "2026-11-05"));
                           (py "avgPriceFormatted", JStr (py "€ 120")) ] ]) ].

(** A payload with two calendars; the search meets the outer one first. *)
Definition payload_two : json :=
  JDict [ (py "a", JList [ JDict [ (py "days",
                                    JList [ JDict [ (py "checkin", JStr (py "2026-11-06")) ] ]) ] ]);
          (py "days", JList [ JDict [ (py "checkin", JStr (py "2026-11-05")) ] ]) ].

(* ===================================================================== *)
(** ** Vocabulary of the further properties *)
(* ===================================================================== *)

(** A character that is no decimal digit of another script: it is below
    U+0660, the first of them, or is the euro sign. *)
Definition plain_char (c : N) : bool := ((c <? 1632) || (c =? EURO))%N.

(** A text in which 0 to 9 are the only decimal digits there can be. *)
Definition plain_text (f : pystr) : Prop := forallb plain_char f = true.

(** The shape YYYY-MM-DD: ten characters, eight digits around two hyphens. *)
Definition iso_shaped (s : pystr) : bool :=
  match s with
  | [y1; y2; y3; y4; h1; m1; m2; h2; d1; d2] =>
      forallb is_digit [y1; y2; y3; y4; m1; m2; d1; d2]
      && (h1 =? HYPHEN)%N && (h2 =? HYPHEN)%N
  | _ => false
  end.

(** An observation as the calendar script writes them: available exactly
    when priced, and priced at 10 or more. *)
Definition observation_sound (o : Observation) : Prop :=
  match obs_price o with
  | Some p => obs_available o = true /\ (10 <= p)%Q
  | None => obs_available o = false
  end.

(** The cells of a scan that the script files under [key]. *)
Definition cells_for (key : pystr) (cells : list Cell) : list Cell :=
  List.filter (fun c => bool_decide (cell_checkin c = key)) cells.


(** A stored price comes with [available] true and lies in [10, 10000). *)
Definition priced_in_range (o : Observation) : Prop :=
  match obs_price o with
  | Some p => obs_available o = true /\ (10 <= p)%Q /\ (p < 10000)%Q
  | None => True
  end.

(** The window a run is given: the offsets' dates when offsets are passed,
    the default window otherwise. *)
Definition run_window (today : date) (max_dates_per_hotel : option Z)
    (date_offsets : option (list Z)) : list date :=
  match date_offsets with
  | Some offsets => get_dates_from_offsets today offsets
  | None => get_next_30_days today max_dates_per_hotel
  end.

(** The builder of a run computes every date it is asked for. *)
Definition run_in_range (today : date) (date_offsets : option (list Z)) : Prop :=
  match date_offsets with
  | Some offsets => offsets_in_range today offsets
  | None => default_in_range today
  end.

(** [date_offsets is not None and len(date_offsets) == 1] *)
Definition run_fast_mode (date_offsets : option (list Z)) : bool :=
  match date_offsets with
  | Some [_] => true
  | _ => false
  end.

(** Two runs that differ only by the order in which hotels were recorded. *)
Definition same_run_up_to_order (r r' : Stats * list Snapshot) : Prop :=
  total_hotels r.1 = total_hotels r'.1
  /\ total_snapshots r.1 = total_snapshots r'.1
  /\ successful_hotels r.1 = successful_hotels r'.1
  /\ failed_hotels r.1 = failed_hotels r'.1
  /\ errors r.1 ≡ₚ errors r'.1
  /\ r.2 ≡ₚ r'.2.

(** The shared browser seen as a session factory: the hotel of rank 1 gets
    the browser's first page, each later hotel the tab opened for it. *)
Definition tabs_as_sessions (browser : Browser) : Env :=
  {| create_stealth_browser_full := fun i =>
       if (1 <? i)%nat
       then p ← context_new_page browser i;
            Ok {| page := p; context_new_page := context_new_page browser |}
       else Ok browser;
     create_shared_browser := Ok browser |}.

(** The hotel of rank [i] has a page to work on under strategy 2. *)
Definition tab_opened (browser : Browser) (i : nat) : bool :=
  if (1 <? i)%nat then is_ok (context_new_page browser i) else true.

(* ===================================================================== *)
(** ** Single-hotel entry point *)
(* ===================================================================== *)

(** The calls [scrape_hotel_prices] makes on the browser, in order. *)
Inductive BrowserCall : Type :=
| CreateBrowser
| CloseBrowser.

(** [create_stealth_browser] is the outcome of [create_stealth_browser()],
    called before the [try]; [close_browser] catches every exception itself.
    The closing message reads [dates[0]] and [dates[-1]]. The dates of the
    builder are taken to be in range (see [run_in_range]). *)
Definition scrape_hotel_prices (strftime : date -> pystr -> pystr)
    (create_stealth_browser : Result Page) (today : date) (hotel : Hotel)
    (max_dates : option Z) (date_offsets : option (list Z))
  : list BrowserCall * Result (list Snapshot) :=
  let dates := match date_offsets with
               | Some offsets => get_dates_from_offsets today offsets
               | None => get_next_30_days today max_dates
               end in
  let dates := sorted Z.leb dates in
  match create_stealth_browser with
  | Raise e => ([CreateBrowser], Raise e)
  | Ok page =>
      match scrape_hotel_with_page strftime page hotel dates with
      | Raise e => ([CreateBrowser; CloseBrowser], Raise e)
      | Ok snapshots =>
          ([CreateBrowser; CloseBrowser],
           match head dates, last dates with
           | Some _, Some _ => Ok snapshots
           | _, _ => Raise (py "list index out of range")
           end)
      end
  end.

(* ===================================================================== *)
(** ** Scheduled run *)
(* ===================================================================== *)

(** The fields [update_scraper_log] is given. *)
Record LogUpdate : Type := {
  log_status : pystr;
  log_snapshotsCreated : option nat;
  log_error : option pystr
}.

(** The calls made on [supabase_client], in order. *)
Inductive DbCall : Type :=
| CreateScraperLog
| GetMonitoredHotels
| CreateRateSnapshotsBatch (snapshots : list Snapshot)
| UpdateScraperLog (fields : LogUpdate).

(** The database client, whose code is not part of the sources: each method
    is given by its outcome. *)
Record Database : Type := {
  create_scraper_log : Result unit;
  get_monitored_hotels : Result (list Hotel);
  create_rate_snapshots_batch : list Snapshot -> Result nat;
  update_scraper_log : LogUpdate -> Result unit
}.

(** The dictionary [run_price_scraping] returns; [{}] is [None]. *)
Record Report : Type := {
  success : bool;
  message : pystr;
  report_stats : option Stats;
  snapshots_count : option nat
}.

(** A computation that calls the database and may raise: the calls made so
    far, and the outcome. *)
Definition Traced (A : Type) : Type := list DbCall * Result A.

#[global] Instance Traced_bind : MBind Traced := fun A B k m =>
  match m with
  | (calls, Ok a) => let '(calls', r) := k a in (calls ++ calls', r)
  | (calls, Raise e) => (calls, Raise e)
  end.

#[global] Instance Traced_ret : MRet Traced := fun A a => ([], Ok a).

Definition db_call {A} (c : DbCall) (outcome : Result A) : Traced A := ([c], outcome).

Definition no_call {A} (outcome : Result A) : Traced A := ([], outcome).

(** [l[:n]] *)
Definition slice_to {A} (n : Z) (l : list A) : list A :=
  if 0 <=? n then take (Z.to_nat n) l
  else take (length l - Z.to_nat (- n)) l.

(** The hotels of a run: the session's share, then the test limit. *)
Definition hotels_to_scrape (session_number hotel_limit : option Z)
    (all_hotels : list Hotel) : list Hotel :=
  let hotels_to_scrape :=
    match session_number with
    | Some 1 => take 3 all_hotels
    | Some 2 => take 3 (drop 3 all_hotels)
    | _ => all_hotels
    end in
  match hotel_limit with
  | Some n => if n =? 0 then hotels_to_scrape else slice_to n hotels_to_scrape
  | None => hotels_to_scrape
  end.

Definition log_no_hotels : LogUpdate :=
  {| log_status := py "success"; log_snapshotsCreated := Some 0%nat;
     log_error := Some (py "No active hotels found") |}.

Definition log_success (snapshots : list Snapshot) : LogUpdate :=
  {| log_status := py "success"; log_snapshotsCreated := Some (length snapshots);
     log_error := None |}.

Definition log_fatal (error_msg : pystr) : LogUpdate :=
  {| log_status := py "error"; log_snapshotsCreated := None;
     log_error := Some error_msg |}.

Section ScheduledRun.

Variable strftime : date -> pystr -> pystr.

(** The body of the [try] of [run_price_scraping]. *)
Definition run_price_scraping_try (db : Database) (env : Env) (today : date)
    (completion : list nat) (session_number hotel_limit max_dates_per_hotel j_plus : option Z)
    (strategy : Z) : Traced Report :=
  all_hotels ← db_call GetMonitoredHotels (get_monitored_hotels db);
  match all_hotels with
  | [] =>
      db_call (UpdateScraperLog log_no_hotels) (update_scraper_log db log_no_hotels) ;;
      mret {| success := false; message := py "Aucun hôtel actif";
              report_stats := None; snapshots_count := None |}
  | _ :: _ =>
      let hotels := hotels_to_scrape session_number hotel_limit all_hotels in
      let date_offsets := match j_plus with Some j => Some [j] | None => None end in
      r ← no_call (scrape_multiple_hotels strftime env today completion hotels
                     max_dates_per_hotel date_offsets strategy);
      let '(stats, snapshots) := r in
      match snapshots with
      | [] => mret 0%nat
      | _ :: _ => db_call (CreateRateSnapshotsBatch snapshots)
                    (create_rate_snapshots_batch db snapshots)
      end ;;
      db_call (UpdateScraperLog (log_success snapshots))
        (update_scraper_log db (log_success snapshots)) ;;
      mret {| success := true; message := py "Scraping terminé avec succès";
              report_stats := Some stats; snapshots_count := Some (length snapshots) |}
  end.

(** The log is created before the [try]; an exception of the body is caught,
    logged and reported, and an exception of that last log update propagates. *)
Definition run_price_scraping (db : Database) (env : Env) (today : date)
    (completion : list nat) (session_number hotel_limit max_dates_per_hotel j_plus : option Z)
    (strategy : Z) : Traced Report :=
  db_call CreateScraperLog (create_scraper_log db) ;;
  match run_price_scraping_try db env today completion session_number hotel_limit
          max_dates_per_hotel j_plus strategy with
  | (calls, Ok report) => (calls, Ok report)
  | (calls, Raise e) =>
      let error_msg := py "Erreur fatale: " ++ e in
      (calls, Ok tt) ;;
      db_call (UpdateScraperLog (log_fatal error_msg))
        (update_scraper_log db (log_fatal error_msg)) ;;
      mret {| success := false; message := error_msg;
              report_stats := None; snapshots_count := None |}
  end.

End ScheduledRun.

(** The shared browser of strategy 2 cannot be launched. *)
Definition env_no_shared_browser : Env :=
  {| create_stealth_browser_full := fun _ =>
       Ok {| page := november_page; context_new_page := fun _ => Ok november_page |};
     create_shared_browser := Raise (py "BrowserType.launch: Executable doesn't exist") |}.

(** A database with the three example hotels, every call of which goes through. *)
Definition db_three_hotels : Database :=
  {| create_scraper_log := Ok tt;
     get_monitored_hotels := Ok [hotel_a; hotel_b; hotel_c];
     create_rate_snapshots_batch := fun snapshots => Ok (length snapshots);
     update_scraper_log := fun _ => Ok tt |}.

(* ===================================================================== *)
(** ** Hotel name clean-up: [_clean_hotel_name] *)
(* ===================================================================== *)

Definition NAME_PREFIXES_TO_STRIP : list pystr :=
  [ py "Offre à l'établissement "; py "Offre à l'établissement";
    py "Offre à l’établissement " ].

Definition NAME_SUFFIXES_TO_STRIP : list pystr :=
  [ py ", (France)"; py " (France)"; py " (Hôtel)"; py " (Hotel)"; py " (hôtel)";
    py " (Établissement)" ].

(** [s.startswith(prefix)] *)
Fixpoint startswith (s prefix : pystr) : bool :=
  match prefix, s with
  | [], _ => true
  | p :: prefix', c :: s' => (c =? p)%N && startswith s' prefix'
  | _ :: _, [] => false
  end.

(** [s.endswith(suffix)] *)
Definition endswith (s suffix : pystr) : bool := startswith (rev s) (rev suffix).

(** The [for prefix] loop: the first prefix that matches is cut, then [break]. *)
Definition cut_prefix (s : pystr) : pystr :=
  match List.find (startswith s) NAME_PREFIXES_TO_STRIP with
  | Some prefix => strip (drop (length prefix) s)
  | None => s
  end.

(** The [while changed] loop; [fuel] bounds the number of its rounds. *)
Fixpoint cut_suffixes (fuel : nat) (s : pystr) : pystr :=
  match fuel with
  | O => s
  | S fuel' =>
      match List.find (endswith s) NAME_SUFFIXES_TO_STRIP with
      | Some suffix => cut_suffixes fuel' (strip (take (length s - length suffix) s))
      | None => s
      end
  end.

(** Each round that changes [s] shortens it, so [len(s)] rounds are enough
    (see [cut_suffixes_enough_fuel]). *)
Definition _clean_hotel_name (raw : pystr) : pystr :=
  match raw with
  | [] => raw
  | _ :: _ => let s := cut_prefix (strip raw) in cut_suffixes (length s) s
  end.

(** [r] occurs in [s] as a run of consecutive characters. *)
Definition substring_of (r s : pystr) : Prop :=
  exists before after, s = before ++ r ++ after.

(* ===================================================================== *)
(** ** Address text clean-up: [_norm_addr] *)
(* ===================================================================== *)

(** [sub in s] *)
Fixpoint contains_sub (sub s : pystr) : bool :=
  startswith s sub
  || match s with
     | [] => false
     | _ :: rest => contains_sub sub rest
     end.

(** [s.replace(old, "")] for a non-empty [old]: the occurrences of [old]
    are removed from left to right, without overlap; [skip] counts the
    characters of the current occurrence still to be dropped. *)
Fixpoint remove_sub (old : pystr) (skip : nat) (s : pystr) : pystr :=
  match s with
  | [] => []
  | c :: rest =>
      match skip with
      | S k => remove_sub old k rest
      | O =>
          if startswith s old then remove_sub old (length old - 1) rest
          else c :: remove_sub old 0 rest
      end
  end.

(** [s.split(sep)[0]] for a non-empty [sep]: what precedes its first occurrence. *)
Fixpoint before_first (sep s : pystr) : pystr :=
  match s with
  | [] => []
  | c :: rest => if startswith s sep then [] else c :: before_first sep rest
  end.

(** [s.strip("-")] *)
Definition strip_hyphens (s : pystr) : pystr :=
  rev (drop_while (fun c => (c =? HYPHEN)%N)
         (rev (drop_while (fun c => (c =? HYPHEN)%N) s))).

Definition RESERVATION_NOTE : pystr := py "Une fois votre réservation".

(** [t or ""] reads a missing text as the empty one. *)
Definition _norm_addr (t : option pystr) : pystr :=
  let t := match t with Some t => t | None => [] end in
  let t := remove_sub (py "Voir sur la carte") 0 t in
  let t := remove_sub (py "Voir la carte") 0 t in
  let t := remove_sub (py "Excellent emplacement -") 0 t in
  let t := strip (strip_hyphens (strip t)) in
  let t := if contains_sub RESERVATION_NOTE t
           then strip (before_first RESERVATION_NOTE t) else t in
  match t with
  | [] => []
  | _ :: _ => if (8 <? length t)%nat then t else []
  end.

(* ===================================================================== *)
(** ** Cookie banner: [_accept_cookies_if_present] *)
(* ===================================================================== *)

Definition COOKIE_ACCEPT_SELECTORS : list pystr :=
  [ py "button:has-text('Accepter')"; py "button:has-text('Accept')";
    py "button:has-text('OK')"; py "[data-testid='accept-cookies']";
    py "button[id*='accept']"; py "a:has-text('Accepter')"; py "a:has-text('Accept')" ].

(** [page.locator(selector).first], as far as the function uses it: the
    outcome of [is_visible] and of [click] for each selector. Building the
    locator is inside the same [try]; its failure reads as one of
    [is_visible]. *)
Record Locators : Type := {
  is_visible : pystr -> Result bool;
  click : pystr -> Result unit
}.

(** The calls made on the page, in order. *)
Inductive LocatorCall : Type :=
| IsVisible (selector : pystr)
| Click (selector : pystr).

(** The [for selector] loop: [return] after the first click that goes
    through, [continue] on every exception. *)
Fixpoint accept_cookies_over (page : Locators) (selectors : list pystr)
  : list LocatorCall :=
  match selectors with
  | [] => []
  | selector :: rest =>
      match is_visible page selector with
      | Ok true =>
          match click page selector with
          | Ok _ => [IsVisible selector; Click selector]
          | Raise _ =>
              IsVisible selector :: Click selector :: accept_cookies_over page rest
          end
      | Ok false | Raise _ => IsVisible selector :: accept_cookies_over page rest
      end
  end.

Definition _accept_cookies_if_present (page : Locators) : list LocatorCall :=
  accept_cookies_over page COOKIE_ACCEPT_SELECTORS.

(** The banner is accepted through [selector]: visible, and the click went through. *)
Definition accepted_by (page : Locators) (selector : pystr) : bool :=
  match is_visible page selector with
  | Ok true => is_ok (click page selector)
  | _ => false
  end.

(** A page on which probing the first selector times out and only the
    OK button is visible. *)
Definition banner_page : Locators :=
  {| is_visible := fun selector =>
       if bool_decide (selector = py "button:has-text('Accepter')")
       then Raise (py "Timeout 2000ms exceeded.")
       else Ok (bool_decide (selector = py "button:has-text('OK')"));
     click := fun _ => Ok tt |}.

(* ===================================================================== *)
(** * Properties *)
(* ===================================================================== *)

(** ** The price text normalizer *)

Example py_euro_152 : py "€ 152" = [8364; 32; 49; 53; 50]%N.
Proof. reflexivity. Qed.

Lemma parse_avg_price_Some formatted p :
  _parse_avg_price formatted = Some p ->
  Qle_bool 10 p = true /\ Qle_bool 10000 p = false.
Proof.
  unfold _parse_avg_price. intros H.
  repeat case_match; simplify_eq.
  all: match goal with
       | E : _ && negb _ = true |- _ => apply andb_true_iff in E as [E1 E2]
       end.
  all: split; [assumption | by apply negb_true_iff].
Qed.

(** A few more inputs, traced by hand against [re] and [float]. *)
Example parse_avg_price_more :
  _parse_avg_price (Some (py "€ 1 250,50")) = Some (2501 # 2)%Q
  /\ _parse_avg_price (Some (py "152 €")) = Some 152%Q
  /\ _parse_avg_price (Some (py "€ 12,345")) = Some (617 # 50)%Q
  /\ _parse_avg_price (Some (py "9999.99")) = Some (999999 # 100)%Q
  /\ _parse_avg_price (Some (py "ab € x € 45")) = Some 45%Q
  /\ _parse_avg_price (Some (py "€ 99.5")) = Some 99%Q
  /\ _parse_avg_price (Some (py "10000")) = None
  /\ _parse_avg_price (Some ([EURO; NBSP] ++ py "1" ++ [NBSP] ++ py "250,50")) = Some (2501 # 2)%Q
  /\ _parse_avg_price (Some (py "€ 152" ++ [10%N])) = Some 152%Q
  /\ _parse_avg_price (Some (py "€ 1" ++ [9%N] ++ py "250")) = None.
Proof. repeat split; reflexivity. Qed.

(** [float()] trims a tabulation that ends the matched amount, and rejects
    the separator U+001C there. *)
Example parse_avg_price_trailing_space :
  _parse_avg_price (Some (py "€ 152" ++ [9%N] ++ py " nuit")) = Some 152%Q
  /\ _parse_avg_price (Some (py "€ 152" ++ [28%N] ++ py " nuit")) = None.
Proof. split; reflexivity. Qed.

(** C4. Whatever the input, [_parse_avg_price] returns a price only when the
    parsed amount is at least 10 and below 10000, and otherwise returns
    nothing; ["€ 152"] gives 152.0, ["€ 0"] and ["€ 3"] give nothing, the
    missing and the empty input give nothing, and ["€ 1 250,50"] gives
    1250.50 (the fraction 2501/2). *)
Theorem parse_avg_price_bounded :
  (forall formatted : option pystr,
      match _parse_avg_price formatted with
      | Some p => (10 <= p)%Q /\ (p < 10000)%Q
      | None => True
      end)
  /\ _parse_avg_price (Some (py "€ 152")) = Some 152%Q
  /\ _parse_avg_price (Some (py "€ 0")) = None
  /\ _parse_avg_price (Some (py "€ 3")) = None
  /\ _parse_avg_price None = None
  /\ _parse_avg_price (Some (py "")) = None
  /\ _parse_avg_price (Some (py "€ 1 250,50")) = Some (2501 # 2)%Q
  /\ ((2501 # 2) == 1250.50)%Q.
Proof.
  split.
  - intros formatted. destruct (_parse_avg_price formatted) as [p|] eqn:E; [|exact I].
    apply parse_avg_price_Some in E as [Hlo Hhi].
    split.
    + by apply Qle_bool_iff.
    + apply Qnot_le_lt. intros Hle. apply Qle_bool_iff in Hle. congruence.
  - repeat split; reflexivity.
Qed.

(** ** The built-in [sorted] *)

Section Sorting.
Context {A : Type} (leb : A -> A -> bool).

Lemma insert_by_perm x l : insert_by leb x l ≡ₚ x :: l.
Proof.
  induction l as [|y l IH]; simpl; [done|].
  destruct (leb x y); [done|].
  rewrite IH. apply perm_swap.
Qed.

Lemma sorted_perm l : sorted leb l ≡ₚ l.
Proof.
  induction l as [|x l IH]; simpl; [done|].
  unfold sorted in *. simpl. rewrite insert_by_perm. by rewrite IH.
Qed.

Lemma sorted_length l : length (sorted leb l) = length l.
Proof. by rewrite (Permutation_length (sorted_perm l)). Qed.

Hypothesis leb_total : forall x y, leb x y = false -> leb y x = true.

Lemma insert_by_Sorted x l :
  Sorted (fun a b => leb a b = true) l ->
  Sorted (fun a b => leb a b = true) (insert_by leb x l).
Proof.
  induction 1 as [|y l Hs IH Hhd]; simpl.
  - repeat constructor.
  - destruct (leb x y) eqn:E.
    + constructor; [by constructor | by constructor].
    + constructor; [exact IH|].
      destruct Hhd as [|z l Hyz]; simpl.
      * constructor. by apply leb_total.
      * destruct (leb x z); constructor; [by apply leb_total | done].
Qed.

Lemma sorted_Sorted l : Sorted (fun a b => leb a b = true) (sorted leb l).
Proof.
  induction l as [|x l IH]; [constructor|].
  unfold sorted in *. simpl. by apply insert_by_Sorted.
Qed.

End Sorting.

(** A list already in order is returned as it is. *)
Lemma sorted_id {A} (leb : A -> A -> bool) l :
  Sorted (fun a b => leb a b = true) l -> sorted leb l = l.
Proof.
  induction 1 as [|x l Hs IH Hhd]; [done|].
  unfold sorted in *. simpl. rewrite IH.
  destruct Hhd as [|y l Hxy]; simpl; [done|]. by rewrite Hxy.
Qed.

Lemma Zleb_total x y : (x <=? y) = false -> (y <=? x) = true.
Proof. lia. Qed.

Lemma sorted_Z_Sorted l : Sorted Z.le (sorted Z.leb l).
Proof.
  eapply Sorted_ind with (P := fun l' => Sorted Z.le l');
    [constructor | | apply (sorted_Sorted Z.leb Zleb_total l)].
  intros a l' _ IH Hhd. constructor; [done|].
  destruct Hhd; constructor. lia.
Qed.

(** ** Date windows *)

Lemma range_strictly_ascending c a n :
  StronglySorted Z.lt (map (fun k => c + Z.of_nat k) (seq a n)).
Proof.
  revert a. induction n as [|n IH]; intros a; simpl; constructor; [apply IH|].
  apply Forall_forall. intros d Hd. apply list_elem_of_In in Hd.
  apply in_map_iff in Hd as (k & <- & Hk). apply in_seq in Hk. lia.
Qed.

Lemma get_next_30_days_eq today max_dates :
  get_next_30_days today max_dates
  = map (fun k => today + 1 + Z.of_nat k) (seq 0 (requested_cap max_dates)).
Proof.
  assert (Hall : map (fun i => today + i) (range 1 31)
                 = map (fun k => today + 1 + Z.of_nat k) (seq 0 30)).
  { unfold range. rewrite map_map. apply map_ext. intros k. lia. }
  unfold get_next_30_days, requested_cap. rewrite Hall.
  destruct max_dates as [n|]; [|done].
  destruct (0 <? n); [|done].
  change (@map nat Z) with (@fmap list _ nat Z).
  by rewrite <- fmap_take, take_seq.
Qed.

Lemma requested_cap_le max_dates : (requested_cap max_dates <= 30)%nat.
Proof. unfold requested_cap. destruct max_dates as [n|]; [destruct (0 <? n)|]; lia. Qed.

Lemma requested_cap_pos max_dates : (0 < requested_cap max_dates)%nat.
Proof.
  unfold requested_cap. destruct max_dates as [n|]; [|lia].
  destruct (0 <? n) eqn:E; lia.
Qed.

Lemma strictly_ascending_NoDup (w : list Z) : StronglySorted Z.lt w -> NoDup w.
Proof.
  induction 1 as [|x l Hs IH Hall]; [apply NoDup_nil_2|].
  apply NoDup_cons. split; [|done].
  intros Hin. rewrite Forall_forall in Hall.
  specialize (Hall x Hin). lia.
Qed.

Lemma Sorted_le_NoDup_lt (w : list Z) :
  Sorted Z.le w -> NoDup w -> StronglySorted Z.lt w.
Proof.
  intros Hs Hnd. apply Sorted_StronglySorted in Hs; [|intros x y z; lia].
  induction Hs as [|x l Hs IH Hall]; constructor;
    apply NoDup_cons in Hnd as [Hx Hl].
  - by apply IH.
  - rewrite Forall_forall in *. intros y Hy. specialize (Hall y Hy).
    assert (x <> y) by (by intros ->).
    lia.
Qed.

Lemma offsets_window_perm today offsets :
  get_dates_from_offsets today offsets ≡ₚ map (fun o => today + o) offsets.
Proof. unfold get_dates_from_offsets. apply Permutation_map, sorted_perm. Qed.

Lemma offsets_window_Sorted today offsets :
  Sorted Z.le (get_dates_from_offsets today offsets).
Proof.
  unfold get_dates_from_offsets.
  apply StronglySorted_Sorted.
  apply (StronglySorted_fmap _ Z.le Z.le); [intros x y; lia|].
  apply Sorted_StronglySorted; [intros x y z; lia | apply sorted_Z_Sorted].
Qed.

Lemma offsets_window_NoDup today offsets :
  NoDup (get_dates_from_offsets today offsets) <-> NoDup offsets.
Proof.
  rewrite (offsets_window_perm today offsets).
  split; intros H.
  - eapply (NoDup_fmap_1 (fun o => today + o)), H.
  - apply NoDup_fmap_2; [intros x y; lia | done].
Qed.

(** C6, as stated, fails for the offset-based builder: with today
    2026-11-04 (ordinal 739924) the offsets [1; 1] give a window that is not
    strictly ascending, and the offsets [0] a window whose first date is
    today. *)
Lemma offsets_window_not_as_specified :
  get_dates_from_offsets 739924 [1; 1] = [739925; 739925]
  /\ ~ window_as_specified 739924 30 (get_dates_from_offsets 739924 [1; 1])
  /\ get_dates_from_offsets 739924 [0] = [739924]
  /\ ~ window_as_specified 739924 30 (get_dates_from_offsets 739924 [0]).
Proof.
  split; [reflexivity|]. split.
  - intros (Hs & _ & _). cbn in Hs.
    inversion Hs as [|? ? _ Hall]; subst.
    inversion Hall as [|? ? Hlt _]; subst. lia.
  - split; [reflexivity|].
    intros (_ & _ & Hhd). specialize (Hhd 739924 eq_refl). lia.
Qed.

(** C6, amended. As long as every date asked for exists (today+30 for the
    default builder, today+o for each offset o), the builders return. The
    default builder returns today+1 ... today+30 cut to [max_dates] when that
    is positive: strictly ascending, of length min(max_dates, 30) (30 without
    a positive cap), first date today+1. The offset-based builder returns
    today+o for the offsets in ascending order: a non-decreasing window as
    long as the offset list, strictly ascending exactly when the offsets are
    distinct, and with all its dates after today exactly when every offset
    is positive. *)
Theorem date_windows (today : date) :
  (forall max_dates,
      default_in_range today ->
      let w := get_next_30_days today max_dates in
      w = map (fun k => today + 1 + Z.of_nat k) (seq 0 (requested_cap max_dates))
      /\ Forall is_date w
      /\ window_as_specified today (requested_cap max_dates) w
      /\ length w = requested_cap max_dates
      /\ (requested_cap max_dates <= 30)%nat
      /\ head w = Some (today + 1))
  /\ (forall offsets,
      offsets_in_range today offsets ->
      let w := get_dates_from_offsets today offsets in
      w ≡ₚ map (fun o => today + o) offsets
      /\ Forall is_date w
      /\ Sorted Z.le w
      /\ length w = length offsets
      /\ (StronglySorted Z.lt w <-> NoDup offsets)
      /\ (Forall (fun d => today < d) w <-> Forall (fun o => 0 < o) offsets)).
Proof.
  split.
  - intros max_dates [Htoday Hlast] w. subst w. rewrite get_next_30_days_eq.
    pose proof (requested_cap_pos max_dates) as Hpos.
    pose proof (requested_cap_le max_dates) as Hle.
    assert (Hlen : length (map (fun k => today + 1 + Z.of_nat k)
                              (seq 0 (requested_cap max_dates)))
                   = requested_cap max_dates)
      by (by rewrite length_map, length_seq).
    assert (Hhd : head (map (fun k => today + 1 + Z.of_nat k)
                            (seq 0 (requested_cap max_dates))) = Some (today + 1)).
    { destruct (requested_cap max_dates) as [|n]; [lia|]. simpl. f_equal. lia. }
    split; [reflexivity|]. split.
    { apply Forall_forall. intros d Hd.
      apply list_elem_of_In, in_map_iff in Hd as (k & <- & Hk). apply in_seq in Hk.
      unfold is_date, MIN_ORDINAL, MAX_ORDINAL in *. lia. }
    split; [|done].
    split; [apply range_strictly_ascending|]. split; [rewrite Hlen; lia|].
    intros d Hd. rewrite Hhd in Hd. injection Hd as <-. lia.
  - intros offsets [_ Hrange] w. subst w.
    split; [apply offsets_window_perm|]. split.
    { rewrite (offsets_window_perm today offsets). by rewrite Forall_fmap. }
    repeat split.
    + apply offsets_window_Sorted.
    + by rewrite (Permutation_length (offsets_window_perm today offsets)), length_map.
    + intros Hs. by apply (offsets_window_NoDup today), strictly_ascending_NoDup.
    + intros Hnd. apply Sorted_le_NoDup_lt; [apply offsets_window_Sorted|].
      by apply offsets_window_NoDup.
    + rewrite (offsets_window_perm today offsets).
      rewrite Forall_fmap. intros H. eapply Forall_impl; [exact H|].
      intros o Ho. simpl in Ho. lia.
    + rewrite (offsets_window_perm today offsets).
      intros H. rewrite Forall_fmap. eapply Forall_impl; [exact H|].
      intros o Ho. simpl in *. lia.
Qed.

Lemma date_windows_witness :
  StronglySorted Z.lt (get_dates_from_offsets 739924 [30; 1; 7])
  /\ Forall (fun d => 739924 < d) (get_dates_from_offsets 739924 [30; 1; 7])
  /\ get_next_30_days 739924 (Some 3) = [739925; 739926; 739927].
Proof.
  destruct (date_windows 739924) as [Hdef Hoff].
  destruct (Hoff [30; 1; 7]) as (_ & _ & _ & _ & Hstrict & Hafter).
  { unfold offsets_in_range, is_date, MIN_ORDINAL, MAX_ORDINAL.
    split; [lia|]. repeat constructor; lia. }
  split; [|split].
  - apply Hstrict. apply (bool_decide_unpack _). vm_compute. reflexivity.
  - apply Hafter. repeat constructor.
  - apply (Hdef (Some 3)). unfold default_in_range, is_date, MIN_ORDINAL, MAX_ORDINAL. lia.
Defined.

(** ** ISO keys order as the dates *)

(** [_ord2ymd] splits an ordinal into a year and a day of that year. *)
Lemma ord2ymd_spec n :
  1 <= n ->
  exists y leap doy,
    _ord2ymd n = (y, (month_day leap doy).1, (month_day leap doy).2)
    /\ n - 1 = _days_before_year y + doy
    /\ 0 <= doy < 365 + leap_days leap
    /\ _days_before_year (y + 1) = _days_before_year y + 365 + leap_days leap.
Proof.
  intros Hn. unfold _ord2ymd.
  set (n0 := n - 1).
  set (q400 := n0 / 146097). set (r400 := n0 mod 146097).
  set (q100 := r400 / 36524). set (r100 := r400 mod 36524).
  set (q4 := r100 / 1461). set (r4 := r100 mod 1461).
  set (q1 := r4 / 365). set (r1 := r4 mod 365).
  assert (H400 : n0 = 146097 * q400 + r400 /\ 0 <= r400 < 146097)
    by (subst q400 r400; split; [apply Z.div_mod; lia | apply Z.mod_pos_bound; lia]).
  assert (H100 : r400 = 36524 * q100 + r100 /\ 0 <= r100 < 36524)
    by (subst q100 r100; split; [apply Z.div_mod; lia | apply Z.mod_pos_bound; lia]).
  assert (H4 : r100 = 1461 * q4 + r4 /\ 0 <= r4 < 1461)
    by (subst q4 r4; split; [apply Z.div_mod; lia | apply Z.mod_pos_bound; lia]).
  assert (H1 : r4 = 365 * q1 + r1 /\ 0 <= r1 < 365)
    by (subst q1 r1; split; [apply Z.div_mod; lia | apply Z.mod_pos_bound; lia]).
  assert (Hq400 : 0 <= q400) by (subst q400; apply Z.div_pos; lia).
  clearbody q400 r400 q100 r100 q4 r4 q1 r1.
  destruct ((q1 =? 4) || (q100 =? 4)) eqn:Hspecial.
  - exists (q400 * 400 + 1 + q100 * 100 + q4 * 4 + q1 - 1), true, 365.
    split; [reflexivity|].
    unfold _days_before_year, leap_days.
    apply orb_true_iff in Hspecial.
    repeat split; try (Z.div_mod_to_equations; lia).
  - apply orb_false_iff in Hspecial as [Hq1 Hq100].
    set (leap := (q1 =? 3) && (negb (q4 =? 24) || (q100 =? 3))).
    exists (q400 * 400 + 1 + q100 * 100 + q4 * 4 + q1), leap, r1.
    split.
    { unfold month_day. destruct (r1 <? _); reflexivity. }
    unfold _days_before_year, leap_days.
    assert (Hl : leap = (q1 =? 3) && (negb (q4 =? 24) || (q100 =? 3))) by reflexivity.
    clearbody leap.
    repeat split; try (destruct leap; Z.div_mod_to_equations; lia).
Qed.

Lemma month_day_checked :
  forallb (month_day_ok false) (seq 0 365) = true
  /\ forallb (month_day_ok true) (seq 0 366) = true.
Proof. split; vm_compute; reflexivity. Qed.

Lemma month_day_valid leap doy :
  0 <= doy < 365 + leap_days leap ->
  1 <= (month_day leap doy).1 <= 12
  /\ 1 <= (month_day leap doy).2 <= 31
  /\ (doy + 1 < 365 + leap_days leap ->
      md_code (month_day leap doy) < md_code (month_day leap (doy + 1))).
Proof.
  intros Hdoy.
  assert (Hok : month_day_ok leap (Z.to_nat doy) = true).
  { destruct month_day_checked as [Hf Ht].
    destruct leap; [eapply forallb_forall in Ht | eapply forallb_forall in Hf];
      try eassumption; apply in_seq; unfold leap_days in Hdoy; lia. }
  unfold month_day_ok in Hok. rewrite Z2Nat.id in Hok by lia.
  destruct (month_day leap doy) as [m d]. simpl.
  repeat (apply andb_true_iff in Hok as [Hok ?]).
  unfold md_code in *. simpl in *. repeat split; lia.
Qed.

Lemma strictly_increasing_steps (f : Z -> Z) (a b : Z) :
  (forall k, a <= k -> k + 1 < b -> f k < f (k + 1)) ->
  forall i j, a <= i -> i < j -> j < b -> f i < f j.
Proof.
  intros Hstep i j Hai Hij Hjb.
  assert (H : forall n : nat, i + 1 + Z.of_nat n < b -> f i < f (i + 1 + Z.of_nat n)).
  { induction n as [|n IH]; intros Hb.
    - rewrite Z.add_0_r. apply Hstep; lia.
    - apply Z.lt_trans with (f (i + 1 + Z.of_nat n)); [apply IH; lia|].
      replace (i + 1 + Z.of_nat (S n)) with (i + 1 + Z.of_nat n + 1) by lia.
      apply Hstep; lia. }
  replace j with (i + 1 + Z.of_nat (Z.to_nat (j - i - 1))) by lia.
  apply H. lia.
Qed.

Lemma month_day_increasing leap doy doy' :
  0 <= doy -> doy < doy' -> doy' < 365 + leap_days leap ->
  md_code (month_day leap doy) < md_code (month_day leap doy').
Proof.
  apply (strictly_increasing_steps (fun k => md_code (month_day leap k))).
  intros k Hk Hk'. apply month_day_valid; lia.
Qed.

Lemma days_before_year_mono y y' :
  y <= y' -> _days_before_year y <= _days_before_year y'.
Proof. intros H. unfold _days_before_year. Z.div_mod_to_equations. lia. Qed.

Lemma leap_days_inj l l' : leap_days l = leap_days l' -> l = l'.
Proof. by destruct l, l'. Qed.

(** Later ordinals have later dates. *)
Lemma ord2ymd_increasing a b :
  1 <= a -> a < b -> ymd_code (_ord2ymd a) < ymd_code (_ord2ymd b).
Proof.
  intros Ha Hab.
  destruct (ord2ymd_spec a Ha) as (ya & la & da & -> & Hda & Hra & Hya).
  destruct (ord2ymd_spec b ltac:(lia)) as (yb & lb & db & -> & Hdb & Hrb & Hyb).
  pose proof (month_day_valid la da Hra) as (Hma & Hdda & _).
  pose proof (month_day_valid lb db Hrb) as (Hmb & Hddb & _).
  unfold ymd_code.
  destruct (Z.lt_trichotomy ya yb) as [Hlt | [Heq | Hgt]].
  - lia.
  - subst yb. assert (la = lb) by (apply leap_days_inj; lia). subst lb.
    pose proof (month_day_increasing la da db ltac:(lia) ltac:(lia) ltac:(lia)) as Hmd.
    unfold md_code in Hmd. lia.
  - pose proof (days_before_year_mono (yb + 1) ya ltac:(lia)). lia.
Qed.

Lemma ord2ymd_year_range n :
  364878 <= n <= 3652059 ->
  exists y m d, _ord2ymd n = (y, m, d)
                /\ 1000 <= y <= 9999 /\ 1 <= m <= 12 /\ 1 <= d <= 31.
Proof.
  intros Hn.
  destruct (ord2ymd_spec n ltac:(lia)) as (y & l & doy & -> & Hd & Hr & Hy).
  pose proof (month_day_valid l doy Hr) as (Hm & Hdd & _).
  eexists _, _, _. split; [reflexivity|]. split; [|done].
  assert (H1000 : _days_before_year 1000 = 364877) by reflexivity.
  assert (H10000 : _days_before_year 10000 = 3652059) by reflexivity.
  split.
  - destruct (Z.le_gt_cases 1000 y) as [|Hlt]; [done|].
    pose proof (days_before_year_mono (y + 1) 1000 ltac:(lia)). lia.
  - destruct (Z.le_gt_cases y 9999) as [|Hgt]; [done|].
    pose proof (days_before_year_mono 10000 y ltac:(lia)). lia.
Qed.

Lemma pad2_compare u v s t :
  0 <= u <= 99 -> 0 <= v <= 99 ->
  pystr_leb (pad2 u ++ s) (pad2 v ++ t)
  = if u <? v then true else if v <? u then false else pystr_leb s t.
Proof.
  intros Hu Hv. unfold pad2, digit_char. cbn [app pystr_leb].
  repeat match goal with
         | |- context [(?a <? ?b)%N] => destruct (N.ltb_spec a b)
         end;
    destruct (Z.ltb_spec u v); destruct (Z.ltb_spec v u);
    try reflexivity; exfalso; Z.div_mod_to_equations; lia.
Qed.

Lemma pad4_split y :
  0 <= y <= 9999 -> pad4 y = pad2 (y / 100) ++ pad2 (y mod 100).
Proof.
  intros Hy. unfold pad4, pad2, digit_char. cbn [app].
  assert (E1 : (y / 1000) mod 10 = (y / 100 / 10) mod 10)
    by (Z.div_mod_to_equations; lia).
  assert (E3 : (y / 10) mod 10 = (y mod 100 / 10) mod 10)
    by (Z.div_mod_to_equations; lia).
  assert (E4 : y mod 10 = (y mod 100) mod 10)
    by (Z.div_mod_to_equations; lia).
  by rewrite E1, E3, E4.
Qed.

Lemma hyphen_compare s t : pystr_leb (py "-" ++ s) (py "-" ++ t) = pystr_leb s t.
Proof. reflexivity. Qed.

Lemma iso_compare y m d y' m' d' :
  1000 <= y <= 9999 -> 1 <= m <= 12 -> 1 <= d <= 31 ->
  1000 <= y' <= 9999 -> 1 <= m' <= 12 -> 1 <= d' <= 31 ->
  pystr_leb (pad4 y ++ py "-" ++ pad2 m ++ py "-" ++ pad2 d)
            (pad4 y' ++ py "-" ++ pad2 m' ++ py "-" ++ pad2 d')
  = (ymd_code (y, m, d) <=? ymd_code (y', m', d')).
Proof.
  intros Hy Hm Hd Hy' Hm' Hd'.
  rewrite !pad4_split by lia. rewrite <- !app_assoc.
  rewrite pad2_compare by (Z.div_mod_to_equations; lia).
  rewrite pad2_compare by (Z.div_mod_to_equations; lia).
  rewrite hyphen_compare, pad2_compare by lia.
  rewrite hyphen_compare.
  rewrite <- (app_nil_r (pad2 d)), <- (app_nil_r (pad2 d')), pad2_compare by lia.
  unfold ymd_code. cbn [pystr_leb].
  repeat match goal with
         | |- context [?a <? ?b] => destruct (Z.ltb_spec a b)
         end;
    destruct (Z.leb_spec (y * 10000 + m * 100 + d) (y' * 10000 + m' * 100 + d'));
    try reflexivity; exfalso; Z.div_mod_to_equations; lia.
Qed.

(** Between 1000-01-01 and 9999-12-31 the ISO keys order as the dates. *)
Lemma iso_strftime_order a b :
  four_digit_year a -> four_digit_year b ->
  pystr_leb (iso_strftime a DATE_FMT) (iso_strftime b DATE_FMT) = (a <=? b).
Proof.
  unfold four_digit_year, FIRST_4DIGIT_DAY, LAST_4DIGIT_DAY. intros Ha Hb.
  destruct (ord2ymd_year_range a Ha) as (ya & ma & da & Ea & Hya & Hma & Hda).
  destruct (ord2ymd_year_range b Hb) as (yb & mb & db & Eb & Hyb & Hmb & Hdb).
  unfold iso_strftime. rewrite Ea, Eb.
  rewrite iso_compare by done. rewrite <- Ea, <- Eb.
  destruct (Z.lt_trichotomy a b) as [Hlt | [-> | Hgt]].
  - pose proof (ord2ymd_increasing a b ltac:(lia) Hlt). lia.
  - lia.
  - pose proof (ord2ymd_increasing b a ltac:(lia) Hgt). lia.
Qed.

Lemma iso_keys_order_as_dates (dates : list date) :
  Forall four_digit_year dates -> keys_order_as_dates iso_strftime dates.
Proof.
  intros Hall d1 d2 H1 H2. rewrite Forall_forall in Hall.
  apply iso_strftime_order; by apply Hall.
Qed.

(** ** The single-hotel procedure *)

Lemma insert_by_map {A B} (lebA : A -> A -> bool) (lebB : B -> B -> bool)
    (f : A -> B) x l :
  (forall y, y ∈ l -> lebB (f x) (f y) = lebA x y) ->
  insert_by lebB (f x) (map f l) = map f (insert_by lebA x l).
Proof.
  induction l as [|y l IH]; intros H; simpl; [done|].
  rewrite H by left. destruct (lebA x y); simpl; [done|].
  f_equal. apply IH. intros z Hz. apply H. by right.
Qed.

Lemma sorted_map {A B} (lebA : A -> A -> bool) (lebB : B -> B -> bool)
    (f : A -> B) l :
  (forall x y, x ∈ l -> y ∈ l -> lebB (f x) (f y) = lebA x y) ->
  sorted lebB (map f l) = map f (sorted lebA l).
Proof.
  induction l as [|x l IH]; intros H; [done|].
  unfold sorted in *. simpl. rewrite IH.
  - apply insert_by_map. intros y Hy. apply H; [left|right].
    by rewrite <- (sorted_perm lebA l).
  - intros y z Hy Hz. apply H; by right.
Qed.

Lemma open_calendar_goto_fails page u :
  is_ok (goto page u) = false -> is_ok (open_calendar page u) = false.
Proof. unfold open_calendar. by destruct (goto page u). Qed.

Lemma collect_nothing_when_opening_fails page u total :
  is_ok (open_calendar page u) = false -> collect_calendar_days page u total = ∅.
Proof. intros H. unfold collect_calendar_days. by destruct (open_calendar page u). Qed.

Lemma retry_nothing_extracted page total attempts :
  nothing_extracted page -> retry_extraction page total attempts ∅ = ∅.
Proof.
  intros Hnone. induction attempts as [|k attempts IH]; simpl; [done|].
  specialize (Hnone k). destruct (_extract_calendar_from_dom page k) as [dom|e]; [|done].
  subst dom. rewrite bool_decide_eq_true_2 by done. exact IH.
Qed.

Lemma collect_nothing_extracted page u total :
  nothing_extracted page -> collect_calendar_days page u total = ∅.
Proof.
  intros Hnone. unfold collect_calendar_days.
  destruct (open_calendar page u); [|done]. by apply retry_nothing_extracted.
Qed.

Lemma collect_nothing_when_goto_fails page u total :
  is_ok (goto page u) = false -> collect_calendar_days page u total = ∅.
Proof.
  intros H. apply open_calendar_goto_fails in H.
  unfold collect_calendar_days. by destruct (open_calendar page u).
Qed.

Section ScraperProperties.

Variable strftime : date -> pystr -> pystr.

Lemma keys_order_as_datesb_spec dates :
  keys_order_as_datesb strftime dates = true -> keys_order_as_dates strftime dates.
Proof.
  unfold keys_order_as_datesb, keys_order_as_dates. intros H d1 d2 H1 H2.
  rewrite forallb_forall in H. apply list_elem_of_In in H1, H2.
  specialize (H d1 H1). rewrite forallb_forall in H. specialize (H d2 H2).
  by apply Bool.eqb_prop in H.
Qed.

Lemma make_snapshot_key hotel calendar_days d :
  dateCheckin (make_snapshot strftime hotel calendar_days d) = strftime d DATE_FMT.
Proof. done. Qed.

Lemma make_snapshot_unobserved hotel calendar_days d :
  calendar_days !! strftime d DATE_FMT = None ->
  make_snapshot strftime hotel calendar_days d = unavailable_snapshot strftime hotel d.
Proof. unfold make_snapshot, unavailable_snapshot. by intros ->. Qed.

Lemma make_snapshot_consistent hotel calendar_days d :
  snapshot_consistent (make_snapshot strftime hotel calendar_days d).
Proof.
  unfold snapshot_consistent, make_snapshot. simpl.
  destruct (calendar_days !! strftime d DATE_FMT) as [[[p|] a]|]; done.
Qed.

(** The procedure returns for every non-empty window, and what it returns is
    the per-date snapshots of one dictionary, sorted by key. *)
Lemma scrape_hotel_with_page_returns page hotel dates :
  dates <> [] ->
  exists url,
    scrape_hotel_with_page strftime page hotel dates
    = Ok (sorted by_dateCheckin
            (map (make_snapshot strftime hotel
                    (collect_calendar_days page url (length dates))) dates)).
Proof.
  intros Hne. unfold scrape_hotel_with_page.
  destruct (head dates) as [first|] eqn:Hh; [|by destruct dates].
  destruct (last dates) as [lst|] eqn:Hl.
  - eexists. reflexivity.
  - apply last_None in Hl. done.
Qed.

Lemma scrape_hotel_with_page_empty page hotel :
  scrape_hotel_with_page strftime page hotel [] = Raise (py "list index out of range").
Proof. done. Qed.

End ScraperProperties.

Lemma NoDup_map_inj_on {A B} (f : A -> B) (l : list A) :
  (forall x y, x ∈ l -> y ∈ l -> f x = f y -> x = y) ->
  NoDup l -> NoDup (map f l).
Proof.
  induction l as [|x l IH]; intros Hinj Hnd; [apply NoDup_nil_2|].
  apply NoDup_cons in Hnd as [Hx Hl]. simpl. apply NoDup_cons. split.
  - intros Hin. apply list_elem_of_fmap in Hin as (y & Hxy & Hy).
    assert (x = y) by (apply Hinj; [left | by right | done]). by subst.
  - apply IH; [|done]. intros y z Hy Hz. apply Hinj; by right.
Qed.

Section SingleHotel.

Variable strftime : date -> pystr -> pystr.

Lemma keys_injective_on_window dates d1 d2 :
  keys_order_as_dates strftime dates ->
  d1 ∈ dates -> d2 ∈ dates ->
  strftime d1 DATE_FMT = strftime d2 DATE_FMT -> d1 = d2.
Proof.
  intros Hord H1 H2 Heq.
  pose proof (Hord d1 d2 H1 H2) as H12. pose proof (Hord d2 d1 H2 H1) as H21.
  pose proof (Hord d2 d2 H2 H2) as H22.
  rewrite Heq in H12, H21. rewrite H22 in H12, H21. lia.
Qed.

Lemma scrape_hotel_window page hotel (dates : list date) :
  dates <> [] ->
  NoDup dates ->
  keys_order_as_dates strftime dates ->
  window_returned strftime page hotel dates.
Proof.
  intros Hne Hnd Hord.
  destruct (scrape_hotel_with_page_returns strftime page hotel dates Hne) as [url Hret].
  exists url. intros calendar_days out.
  assert (Hperm : sorted Z.leb dates ≡ₚ dates) by apply sorted_perm.
  assert (Hkeys : map dateCheckin out
                  = map (fun d => strftime d DATE_FMT) (sorted Z.leb dates)).
  { unfold out. rewrite map_map. by apply map_ext. }
  split.
  { rewrite Hret. f_equal. apply sorted_map. intros x y Hx Hy.
    unfold by_dateCheckin. simpl. by apply Hord. }
  split; [exact Hkeys|]. split; [exact Hperm|].
  split.
  { apply Sorted_le_NoDup_lt; [apply sorted_Z_Sorted | by rewrite Hperm]. }
  split.
  { rewrite Hkeys. apply NoDup_map_inj_on; [|by rewrite Hperm].
    intros x y Hx Hy. rewrite Hperm in Hx, Hy.
    by apply (keys_injective_on_window dates). }
  split.
  { unfold out. by rewrite length_map, sorted_length. }
  split.
  { intros d Hd. by apply make_snapshot_unobserved. }
  split.
  { intros Hempty. unfold out. apply map_ext. intros d.
    apply make_snapshot_unobserved. rewrite Hempty. apply lookup_empty. }
  split; [apply collect_nothing_when_goto_fails|].
  split; [apply collect_nothing_when_opening_fails | apply collect_nothing_extracted].
Qed.

(** C9. Every snapshot the procedure emits has [available] true exactly
    when its price is present; the snapshot built for a date is so whatever
    the dictionary holds for it, in particular for an observation with
    [available] true and no price. *)
Theorem snapshots_available_iff_priced :
  (forall hotel (calendar_days : calendar) d,
      snapshot_consistent (make_snapshot strftime hotel calendar_days d))
  /\ (forall hotel (calendar_days : calendar) d,
      calendar_days !! strftime d DATE_FMT
      = Some {| obs_price := None; obs_available := true |} ->
      available (make_snapshot strftime hotel calendar_days d) = false
      /\ price (make_snapshot strftime hotel calendar_days d) = None)
  /\ (forall page hotel dates,
      match scrape_hotel_with_page strftime page hotel dates with
      | Ok out => Forall snapshot_consistent out
      | Raise _ => dates = []
      end).
Proof.
  split; [apply make_snapshot_consistent|]. split.
  - intros hotel calendar_days d H. unfold make_snapshot. by rewrite H.
  - intros page hotel dates. destruct dates as [|d dates]; [done|].
    destruct (scrape_hotel_with_page_returns strftime page hotel (d :: dates))
      as [url ->]; [done|].
    rewrite sorted_perm. apply Forall_forall. intros s Hs.
    apply list_elem_of_fmap in Hs as (d' & -> & _).
    apply make_snapshot_consistent.
Qed.

End SingleHotel.


(** The default window of any day from 999-12-31 to 9999-11-30 is returned
    in full for every hotel and page. *)
Lemma default_window_is_returned today max_dates page hotel :
  FIRST_4DIGIT_DAY - 1 <= today <= LAST_4DIGIT_DAY - 31 ->
  window_returned iso_strftime page hotel (get_next_30_days today max_dates).
Proof.
  unfold FIRST_4DIGIT_DAY, LAST_4DIGIT_DAY. intros Htoday.
  pose proof (requested_cap_pos max_dates) as Hpos.
  pose proof (requested_cap_le max_dates) as Hle.
  rewrite get_next_30_days_eq.
  apply scrape_hotel_window.
  - destruct (requested_cap max_dates); [lia | discriminate].
  - apply strictly_ascending_NoDup, range_strictly_ascending.
  - apply iso_keys_order_as_dates, Forall_forall. intros d Hd.
    apply list_elem_of_In, in_map_iff in Hd as (k & <- & Hk). apply in_seq in Hk.
    unfold four_digit_year, FIRST_4DIGIT_DAY, LAST_4DIGIT_DAY. lia.
Qed.


Lemma snapshots_available_iff_priced_witness :
  available (make_snapshot iso_strftime hotel_a
               {[ py "2026-11-05" := {| obs_price := None; obs_available := true |} ]}
               739925) = false.
Proof.
  destruct (snapshots_available_iff_priced iso_strftime) as (_ & Hunpriced & _).
  apply (Hunpriced hotel_a
           {[ py "2026-11-05" := {| obs_price := None; obs_available := true |} ]}
           739925).
  vm_compute. reflexivity.
Defined.

Example scrape_november :
  scrape_hotel_with_page iso_strftime november_page hotel_a (get_next_30_days TODAY (Some 3))
  = Ok [ {| hotelId := py "h-a"; dateCheckin := py "2026-11-05"; price := Some 120%Q;
            currency := py "EUR"; available := true |};
         {| hotelId := py "h-a"; dateCheckin := py "2026-11-06"; price := None;
            currency := py "EUR"; available := false |};
         {| hotelId := py "h-a"; dateCheckin := py "2026-11-07"; price := None;
            currency := py "EUR"; available := false |} ].
Proof. vm_compute. reflexivity. Qed.

Example scrape_unreachable :
  scrape_hotel_with_page iso_strftime unreachable_page hotel_b (get_next_30_days TODAY (Some 2))
  = Ok [ unavailable_snapshot iso_strftime hotel_b 739925;
         unavailable_snapshot iso_strftime hotel_b 739926 ].
Proof. vm_compute. reflexivity. Qed.

(** ** The overwrite rule *)

Lemma merge_day_eq (calendar_days : calendar) d :
  merge_day calendar_days d
  = match checkin d with
    | Some (c :: k) => <[c :: k := day_observation d]> calendar_days
    | _ => calendar_days
    end.
Proof. unfold merge_day, day_observation. by destruct (checkin d) as [[|c k]|]. Qed.

Lemma merge_day_lookup (calendar_days : calendar) d key :
  key <> [] ->
  merge_day calendar_days d !! key
  = if bool_decide (checkin d = Some key) then Some (day_observation d)
    else calendar_days !! key.
Proof.
  intros Hkey. rewrite merge_day_eq.
  destruct (checkin d) as [[|c k]|] eqn:E.
  - rewrite bool_decide_eq_false_2; [done|]. intros [= <-]. done.
  - case_bool_decide as Hk.
    + injection Hk as <-. apply lookup_insert_eq.
    + apply lookup_insert_ne. intros <-. done.
  - by rewrite bool_decide_eq_false_2.
Qed.

Lemma merge_days_lookup days : forall (calendar_days : calendar) key,
  key <> [] ->
  _merge_days_into calendar_days days !! key
  = match last_day_for key days with
    | Some d => Some (day_observation d)
    | None => calendar_days !! key
    end.
Proof.
  unfold _merge_days_into.
  induction days as [|d days IH]; intros calendar_days key Hkey; simpl; [done|].
  rewrite IH by done.
  destruct (last_day_for key days); [done|].
  rewrite merge_day_lookup by done.
  by repeat case_bool_decide.
Qed.

Lemma fold_insert_lookup (l : list (pystr * Observation)) :
  forall (calendar_days : calendar) k,
  NoDup l.*1 ->
  fold_left (fun acc kv => <[kv.1 := kv.2]> acc) l calendar_days !! k
  = match (list_to_map l : calendar) !! k with
    | Some o => Some o
    | None => calendar_days !! k
    end.
Proof.
  induction l as [|[k0 v0] l IH]; intros calendar_days k Hnd; simpl.
  - by rewrite lookup_empty.
  - apply NoDup_cons in Hnd as [Hk0 Hnd]. rewrite IH by done.
    destruct (decide (k0 = k)) as [->|Hne].
    + rewrite (not_elem_of_list_to_map_1 _ k) by done.
      by rewrite !lookup_insert_eq.
    + by rewrite !lookup_insert_ne.
Qed.

Lemma update_all_union (calendar_days dom_data : calendar) :
  update_all calendar_days dom_data = dom_data ∪ calendar_days.
Proof.
  apply map_eq. intros k. unfold update_all.
  rewrite fold_insert_lookup by apply NoDup_fst_map_to_list.
  rewrite list_to_map_to_list, lookup_union.
  by destruct (dom_data !! k), (calendar_days !! k).
Qed.

Lemma scan_cell_eq (out : calendar) cell :
  scan_cell out cell
  = match cell_checkin cell with
    | [] => out
    | key => guarded_write out key (cell_observation cell)
    end.
Proof.
  unfold scan_cell, cell_checkin, guarded_write, cell_observation.
  destruct (js_or _ _) as [[|c s]|]; try done.
  destruct (checkin_of_dateStr (c :: s)) as [|c' k]; [done|]. simpl.
  destruct (out !! (c' :: k)) as [o|] eqn:E.
  - rewrite bool_decide_eq_true_2 by eauto. simpl. by destruct (cell_available cell).
  - rewrite bool_decide_eq_false_2; [done|]. by intros [? ?].
Qed.

Lemma guarded_write_keeps_available (out : calendar) key key' o o' :
  out !! key = Some o -> obs_available o = true ->
  exists o'', guarded_write out key' o' !! key = Some o'' /\ obs_available o'' = true.
Proof.
  intros Hk Ho. unfold guarded_write.
  destruct (decide (key' = key)) as [->|Hne].
  - rewrite Hk. destruct (obs_available o') eqn:E.
    + exists o'. by rewrite lookup_insert_eq.
    + by exists o.
  - destruct (out !! key'); [destruct (obs_available o')|];
      exists o; by rewrite ?lookup_insert_ne.
Qed.

Lemma scan_keeps_available cells : forall (out : calendar) key o,
  out !! key = Some o -> obs_available o = true ->
  exists o', fold_left scan_cell cells out !! key = Some o' /\ obs_available o' = true.
Proof.
  induction cells as [|cell cells IH]; intros out key o Hk Ho; simpl; [by exists o|].
  rewrite scan_cell_eq.
  destruct (cell_checkin cell) as [|c k] eqn:E; [by apply (IH _ _ o)|].
  destruct (guarded_write_keeps_available out key (c :: k) o (cell_observation cell) Hk Ho)
    as (o'' & Hk'' & Ho'').
  by apply (IH _ _ o'').
Qed.

(** C1, as stated, fails: in the structured-payload merge and across the
    retried extractions a later unavailable observation replaces an earlier
    available one. Merging the priced entry and then the unpriced one leaves
    2026-11-05 unavailable; so do three extractions of which only the first
    finds the price. *)
Lemma later_unavailable_observation_overwrites :
  _merge_days_into ∅ [day_priced; day_unavailable] !! py "2026-11-05"
  = Some {| obs_price := None; obs_available := false |}
  /\ _extract_calendar_from_dom flickering_page 0
     = Ok {[ py "2026-11-05" := {| obs_price := Some 120%Q; obs_available := true |} ]}
  /\ retry_extraction flickering_page 30 (seq 0 3) ∅ !! py "2026-11-05"
     = Some {| obs_price := None; obs_available := false |}
  /\ (forall u, collect_calendar_days flickering_page u 30 !! py "2026-11-05"
                = Some {| obs_price := None; obs_available := false |}).
Proof.
  split; [vm_compute; reflexivity|].
  split; [vm_compute; reflexivity|].
  split; [vm_compute; reflexivity|].
  intros u. vm_compute. reflexivity.
Qed.

(** C1, amended. In the structured-payload merge and across the retried
    extractions the last write for a date wins, whatever its availability:
    after [_merge_days_into] a date holds the observation of the last entry
    written under it, and each retried extraction replaces the dictionary's
    entries for the dates it returns. So the unpriced entry followed by the
    priced one gives available with price 120, and the reverse order gives
    unavailable. Only inside one run of the calendar script is a date
    rewritten just when the new cell is available (or the date is new):
    there an available date stays available, and both orders of the two
    cells give available with price 120. *)
Theorem observation_overwrite_rule :
  (forall (calendar_days : calendar) days key,
      key <> [] ->
      _merge_days_into calendar_days days !! key
      = match last_day_for key days with
        | Some d => Some (day_observation d)
        | None => calendar_days !! key
        end)
  /\ (forall calendar_days dom_data : calendar,
      update_all calendar_days dom_data = dom_data ∪ calendar_days)
  /\ (forall (out : calendar) cell,
      scan_cell out cell
      = match cell_checkin cell with
        | [] => out
        | key => guarded_write out key (cell_observation cell)
        end)
  /\ (forall cells (out : calendar) key o,
      out !! key = Some o -> obs_available o = true ->
      exists o', fold_left scan_cell cells out !! key = Some o'
                 /\ obs_available o' = true)
  /\ _merge_days_into ∅ [day_unavailable; day_priced] !! py "2026-11-05"
     = Some {| obs_price := Some 120%Q; obs_available := true |}
  /\ _merge_days_into ∅ [day_priced; day_unavailable] !! py "2026-11-05"
     = Some {| obs_price := None; obs_available := false |}
  /\ fold_left scan_cell [cell_at (py "2026-11-05") None false;
                          cell_at (py "2026-11-05") (Some 120%Q) false] ∅
     = {[ py "2026-11-05" := {| obs_price := Some 120%Q; obs_available := true |} ]}
  /\ fold_left scan_cell [cell_at (py "2026-11-05") (Some 120%Q) false;
                          cell_at (py "2026-11-05") None false] ∅
     = {[ py "2026-11-05" := {| obs_price := Some 120%Q; obs_available := true |} ]}.
Proof.
  split; [intros; by apply merge_days_lookup|].
  split; [apply update_all_union|].
  split; [apply scan_cell_eq|].
  split; [intros cells out key o; apply scan_keeps_available|].
  repeat split; vm_compute; reflexivity.
Qed.

Lemma observation_overwrite_rule_witness :
  _merge_days_into ∅ [day_unavailable; day_priced] !! py "2026-11-05"
  = Some (day_observation day_priced)
  /\ exists o', fold_left scan_cell [cell_at (py "2026-11-05") None false]
                  {[ py "2026-11-05" := {| obs_price := Some 120%Q; obs_available := true |} ]}
                !! py "2026-11-05" = Some o'
                /\ obs_available o' = true.
Proof.
  destruct observation_overwrite_rule as (Hmerge & _ & _ & Hscan & _).
  split.
  - apply (Hmerge ∅ [day_unavailable; day_priced] (py "2026-11-05")). discriminate.
  - apply (Hscan _ _ _ {| obs_price := Some 120%Q; obs_available := true |});
      [vm_compute|]; reflexivity.
Defined.

(** ** Availability of a merged payload entry *)

Lemma merge_day_stored (calendar_days : calendar) d key :
  checkin d = Some key -> key <> [] ->
  merge_day calendar_days d !! key = Some (day_observation d).
Proof.
  intros Hc Hk. rewrite merge_day_lookup by done.
  by rewrite bool_decide_eq_true_2.
Qed.

(** C5, as stated, fails: an entry reported available whose price text is
    rejected by the normalizer keeps [available] true when the text holds no
    character 0, as ["€ 3"] or a missing price text. *)
Lemma unparsed_price_stays_available :
  _parse_avg_price (Some (py "€ 3")) = None
  /\ _merge_days_into ∅ [ {| checkin := Some (py "2026-11-05");
                            avgPriceFormatted := Some (py "€ 3");
                            day_available := Some true |} ] !! py "2026-11-05"
     = Some {| obs_price := None; obs_available := true |}
  /\ _merge_days_into ∅ [ {| checkin := Some (py "2026-11-05");
                            avgPriceFormatted := None;
                            day_available := Some true |} ] !! py "2026-11-05"
     = Some {| obs_price := None; obs_available := true |}.
Proof. repeat split; vm_compute; reflexivity. Qed.

(** C5, amended. For an entry whose availability flag is true, the observation
    stored for its date has the normalized price; when normalization returns
    nothing, [available] is set to false exactly when the stripped price text
    contains the character 0 (as ["€ 0"] does), and stays true otherwise. *)
Theorem merged_entry_availability (calendar_days : calendar) (d : Day) (key : pystr) :
  checkin d = Some key -> key <> [] ->
  day_available d = Some true ->
  let formatted := strip (match avgPriceFormatted d with Some f => f | None => [] end) in
  merge_day calendar_days d !! key
  = Some match _parse_avg_price (Some formatted) with
         | Some p => {| obs_price := Some p; obs_available := true |}
         | None => {| obs_price := None; obs_available := negb (contains ZERO formatted) |}
         end.
Proof.
  intros Hc Hk Ha formatted. rewrite (merge_day_stored _ _ key) by done.
  unfold day_observation. rewrite Ha. fold formatted.
  destruct (_parse_avg_price (Some formatted)); simpl; [done|].
  by destruct (contains ZERO formatted).
Qed.

Lemma merged_entry_availability_witness :
  merge_day ∅ {| checkin := Some (py "2026-11-05");
                 avgPriceFormatted := Some (py "€ 0");
                 day_available := Some true |} !! py "2026-11-05"
  = Some {| obs_price := None; obs_available := false |}.
Proof.
  apply (merged_entry_availability ∅
           {| checkin := Some (py "2026-11-05");
              avgPriceFormatted := Some (py "€ 0");
              day_available := Some true |} (py "2026-11-05"));
    [reflexivity | discriminate | reflexivity].
Defined.

(** ** The structured-payload search *)

Lemma json_induction (P : json -> Prop) :
  P JNull ->
  (forall b, P (JBool b)) ->
  (forall q, P (JNum q)) ->
  (forall s, P (JStr s)) ->
  (forall items, Forall P items -> P (JList items)) ->
  (forall fields, Forall (fun kv => P kv.2) fields -> P (JDict fields)) ->
  forall j, P j.
Proof.
  intros HN HB HQ HS HL HD. fix IH 1. intros [ | b | q | s | items | fields ].
  - exact HN.
  - apply HB.
  - apply HQ.
  - apply HS.
  - apply HL. induction items as [|x items IHitems]; constructor; [apply IH | exact IHitems].
  - apply HD. induction fields as [|[k v] fields IHfields]; constructor;
      [apply IH | exact IHfields].
Qed.

Lemma first_days_list_app a b :
  first_days_list (a ++ b)
  = match first_days_list a with
    | Some l => Some l
    | None => first_days_list b
    end.
Proof.
  induction a as [|c a IH]; simpl; [done|].
  destruct (_is_calendar_days_list c) eqn:E; [|exact IH].
  destruct c as [ | | | | l | ]; try done.
Qed.

Lemma first_days_list_truthy cands l :
  first_days_list cands = Some l -> truthy (Some l) = true.
Proof.
  induction cands as [|c cands IH]; simpl; [done|].
  destruct (_is_calendar_days_list c) eqn:E; [|exact IH].
  destruct c as [ | | | | [|x items] | ]; try done.
  by intros [= <-].
Qed.

Lemma first_days_list_accepted cands l :
  first_days_list cands = Some l ->
  JList l ∈ cands /\ _is_calendar_days_list (JList l) = true.
Proof.
  induction cands as [|c cands IH]; simpl; [done|].
  destruct (_is_calendar_days_list c) eqn:E.
  - destruct c as [ | | | | items | ]; try done.
    intros [= <-]. split; [left | done].
  - intros H. destruct (IH H) as [Hin Hok]. split; [by right | done].
Qed.

Lemma dict_get_missing key fields :
  has_key key fields = false -> dict_get key fields = JNull.
Proof.
  induction fields as [|[k v] fields IH]; simpl; [done|].
  destruct (pystr_eqb k key); [done|]. exact IH.
Qed.

(** The search returns the first ["days"] value, in the order it visits the
    payload, that passes [_is_calendar_days_list]. *)
Lemma find_is_first_days_list obj :
  _find_calendar_days obj = first_days_list (days_fields obj).
Proof.
  induction obj as [ | b | q | s | items IH | fields IH ] using json_induction;
    try done.
  - simpl. induction IH as [|x items Hx _ IHitems]; [done|].
    rewrite first_days_list_app, Hx, <- IHitems.
    destruct (first_days_list (days_fields x)) as [l|] eqn:E; [|done].
    by rewrite (first_days_list_truthy _ _ E).
  - simpl.
    assert (Hover :
      (fix over_values (fs : list (pystr * json)) : option (list json) :=
         match fs with
         | [] => None
         | (_, v) :: rest =>
             if truthy (_find_calendar_days v) then _find_calendar_days v
             else over_values rest
         end) fields
      = first_days_list
          ((fix over (fs : list (pystr * json)) : list json :=
              match fs with
              | [] => []
              | (_, v) :: rest => days_fields v ++ over rest
              end) fields)).
    { induction IH as [|[k v] fields Hv _ IHfields]; [done|].
      simpl in Hv |- *. rewrite first_days_list_app, Hv, <- IHfields.
      destruct (first_days_list (days_fields v)) as [l|] eqn:E; [|done].
      by rewrite (first_days_list_truthy _ _ E). }
    rewrite first_days_list_app.
    destruct (_is_calendar_days_list (dict_get (py "days") fields)) eqn:E.
    + destruct (has_key (py "days") fields) eqn:Hk.
      * simpl. rewrite E. by destruct (dict_get (py "days") fields).
      * by rewrite (dict_get_missing _ _ Hk) in E.
    + rewrite Hover. destruct (has_key (py "days") fields); simpl; [by rewrite E | done].
Qed.

(** C7, as stated, fails both ways: the search returns a ["days"] list whose
    entries do not all carry the two fields, and returns nothing for a
    payload whose well-formed sequence is bound to another key. *)
Lemma find_calendar_days_not_as_specified :
  (exists l, _find_calendar_days payload_loose = Some l
             /\ forallb entry_has_both_fields l = false)
  /\ _find_calendar_days payload_other_key = None
  /\ (exists l, l ∈ sequences_of payload_other_key
                /\ l <> [] /\ forallb entry_has_both_fields l = true).
Proof.
  split; [|split].
  - eexists. split; reflexivity.
  - reflexivity.
  - eexists. split; [left|split; [discriminate|reflexivity]].
Qed.

(** C7, amended. For every payload the search returns the first list, in
    depth-first order (a mapping's own ["days"] field, then inside its
    values in turn; a sequence's items in turn), that is bound to the key
    ["days"], is not empty and whose first entry is a mapping with a
    ["checkin"] key; the other entries and the formatted-price field are not
    examined. It returns nothing exactly when no ["days"] field of the
    payload holds such a list. *)
Theorem find_calendar_days_first_match :
  (forall obj, _find_calendar_days obj = first_days_list (days_fields obj))
  /\ (forall obj l, _find_calendar_days obj = Some l ->
        JList l ∈ days_fields obj
        /\ exists fields rest, l = JDict fields :: rest
                               /\ has_key (py "checkin") fields = true)
  /\ (forall obj, _find_calendar_days obj = None <->
        Forall (fun c => _is_calendar_days_list c = false) (days_fields obj))
  /\ _find_calendar_days payload_two
     = Some [ JDict [ (py "checkin", JStr (py "2026-11-05")) ] ].
Proof.
  split; [exact find_is_first_days_list|]. split; [|split; [|reflexivity]].
  - intros obj l H. rewrite find_is_first_days_list in H.
    apply first_days_list_accepted in H as [Hin Hok]. split; [done|].
    destruct l as [|[ | | | | | fields] rest]; try done. by exists fields, rest.
  - intros obj. rewrite find_is_first_days_list.
    induction (days_fields obj) as [|c cands IH]; simpl; [done|].
    destruct (_is_calendar_days_list c) eqn:E.
    + split.
      * destruct c as [ | | | | l | ]; done.
      * intros H. apply Forall_cons in H as [H _]. congruence.
    + rewrite IH. split; [by constructor | by intros [_ ?]%Forall_cons].
Qed.

Lemma find_calendar_days_first_match_witness :
  JList [ JDict [ (py "checkin", JStr (py "2026-11-05")) ]; JNum 5%Q ]
    ∈ days_fields payload_loose.
Proof.
  destruct find_calendar_days_first_match as (_ & Hsome & _).
  apply (Hsome payload_loose). reflexivity.
Defined.

(** ** The three strategies *)

Lemma fold_left_map_eq {A B C} (g : C -> B -> C) (f : A -> B) l c :
  fold_left (fun acc x => g acc (f x)) l c = fold_left g (map f l) c.
Proof. revert c. induction l as [|x l IH]; intros c; simpl; [done|]. apply IH. Qed.

Lemma fold_left_pointwise {A C} (f g : C -> A -> C) l c :
  (forall acc x, f acc x = g acc x) -> fold_left f l c = fold_left g l c.
Proof.
  intros H. revert c. induction l as [|x l IH]; intros c; simpl; [done|].
  by rewrite H, IH.
Qed.

(** The closed form of a run of the loop over given outcomes. *)
Lemma fold_record l : forall stats snaps,
  fold_left record l (stats, snaps)
  = ({| total_hotels := total_hotels stats;
        total_snapshots :=
          total_snapshots stats
          + length (concat (map (fun hr => snapshots_or_nil hr.2) l));
        successful_hotels := successful_hotels stats + length (List.filter succeeded l);
        failed_hotels := failed_hotels stats + length (List.filter failed l);
        errors := errors stats ++ map error_entry (List.filter failed l) |},
     snaps ++ concat (map (fun hr => snapshots_or_nil hr.2) l)).
Proof.
  induction l as [|[h r] l IH]; intros stats snaps.
  - destruct stats. simpl. by rewrite !Nat.add_0_r, !app_nil_r.
  - destruct r as [w|e]; cbn [fold_left map concat List.filter].
    + change (record (stats, snaps) (h, Ok w)) with (record_success (stats, snaps) w).
      change (succeeded (h, Ok w)) with true. change (failed (h, Ok w)) with false.
      cbn [record_success snd snapshots_or_nil]. rewrite IH. cbn [total_hotels total_snapshots successful_hotels failed_hotels errors length].
      f_equal; [|by rewrite app_assoc].
      f_equal; rewrite ?length_app; lia.
    + change (record (stats, snaps) (h, Raise e)) with (record_failure (stats, snaps) h e).
      change (succeeded (h, Raise e)) with false. change (failed (h, Raise e)) with true.
      cbn [record_failure snd snapshots_or_nil]. rewrite IH. cbn [total_hotels total_snapshots successful_hotels failed_hotels errors length map app].
      f_equal. f_equal; [lia|].
      change (error_entry (h, Raise e)) with (name h ++ py ": " ++ e).
      by rewrite <- app_assoc.
Qed.

Lemma succeeded_failed_length (l : list (Hotel * Result (list Snapshot))) :
  (length (List.filter succeeded l) + length (List.filter failed l) = length l)%nat.
Proof.
  induction l as [|[h r] l IH]; [done|].
  cbn [List.filter length].
  destruct r as [w|e].
  - change (succeeded (h, Ok w)) with true. change (failed (h, Ok w)) with false.
    simpl. lia.
  - change (succeeded (h, Raise e)) with false. change (failed (h, Raise e)) with true.
    simpl. lia.
Qed.

Lemma fold_record_consistent hotels l :
  length l = length hotels ->
  stats_consistent hotels (fold_left record l (init_stats hotels, [])).
Proof.
  intros Hlen. rewrite fold_record. unfold stats_consistent. simpl.
  pose proof (succeeded_failed_length l).
  split; [done|]. split; [lia|]. split; [by rewrite length_map|]. done.
Qed.

Section Strategies.

Variable strftime : date -> pystr -> pystr.

Lemma strategy_1_as_record env hotels dates fast_mode :
  _strategy_1_isolated strftime env hotels dates fast_mode
  = fold_left record (submit_all strftime env dates hotels) (init_stats hotels, []).
Proof.
  unfold _strategy_1_isolated, submit_all. rewrite <- fold_left_map_eq.
  apply fold_left_pointwise. by intros acc [i h].
Qed.

Lemma strategy_2_as_record env browser hotels dates fast_mode :
  create_shared_browser env = Ok browser ->
  _strategy_2_shared_browser strftime env hotels dates fast_mode
  = Ok (fold_left record
          (map (fun ih => (ih.2, shared_one strftime browser dates ih.2 ih.1))
               (enumerate1 hotels))
          (init_stats hotels, [])).
Proof.
  intros Hb. unfold _strategy_2_shared_browser. rewrite Hb. simpl. f_equal.
  rewrite <- fold_left_map_eq. apply fold_left_pointwise. by intros acc [i h].
Qed.

Lemma strategy_2_raises env hotels dates fast_mode e :
  create_shared_browser env = Raise e ->
  _strategy_2_shared_browser strftime env hotels dates fast_mode = Raise e.
Proof. intros Hb. unfold _strategy_2_shared_browser. by rewrite Hb. Qed.

Lemma strategy_3_as_record env completion hotels dates max_workers :
  _strategy_3_parallel strftime env completion hotels dates max_workers
  = fold_left record
      (omap (fun k => submit_all strftime env dates hotels !! k) completion)
      (init_stats hotels, []).
Proof.
  unfold _strategy_3_parallel.
  generalize (init_stats hotels, @nil Snapshot).
  induction completion as [|k completion IH]; intros acc; simpl; [done|].
  rewrite IH. unfold completed_step.
  destruct (submit_all strftime env dates hotels !! k) as [[h [w|e]]|]; done.
Qed.

Lemma length_enumerate1 {A} (l : list A) : length (enumerate1 l) = length l.
Proof. unfold enumerate1. rewrite length_combine, length_seq. lia. Qed.

Lemma length_submit_all env dates hotels :
  length (submit_all strftime env dates hotels) = length hotels.
Proof. unfold submit_all. by rewrite length_map, length_enumerate1. Qed.

End Strategies.

Lemma omap_lookup_seq {A} (l : list A) n : forall i,
  (i + n <= length l)%nat ->
  omap (fun k => l !! k) (seq i n) = take n (drop i l).
Proof.
  induction n as [|n IH]; intros i Hle; csimpl; [done|].
  destruct (lookup_lt_is_Some_2 l i) as [x Hx]; [lia|].
  rewrite Hx, (drop_S _ _ _ Hx). csimpl. f_equal. apply IH. lia.
Qed.

Lemma omap_lookup_all {A} (l : list A) :
  omap (fun k => l !! k) (seq 0 (length l)) = l.
Proof. rewrite omap_lookup_seq by lia. by rewrite drop_0, firstn_all. Qed.

Lemma omap_lookup_fmap {A B} (f : A -> B) (l : list A) (ks : list nat) :
  omap (fun k => (f <$> l) !! k) ks = f <$> omap (fun k => l !! k) ks.
Proof.
  induction ks as [|k ks IH]; csimpl; [done|].
  rewrite list_lookup_fmap. destruct (l !! k); csimpl; by rewrite IH.
Qed.

Lemma completion_order_perm {A} (l : list A) (completion : list nat) :
  completion ≡ₚ seq 0 (length l) ->
  omap (fun k => l !! k) completion ≡ₚ l.
Proof. intros ->. by rewrite omap_lookup_all. Qed.

Section Orchestration.

Variable strftime : date -> pystr -> pystr.

(** C8. Strategies 1 and 2 return the concatenation of the per-hotel
    snapshot lists in the order of the hotel list, a hotel that failed
    contributing nothing; strategy 3 returns the concatenation of the same
    per-hotel lists in the order the workers complete, so every hotel's
    snapshots still form one block. With three hotels completing in the
    order third, first, second, the blocks come in that order. *)
Theorem strategies_concatenate_per_hotel :
  (forall env hotels dates fast_mode,
      (_strategy_1_isolated strftime env hotels dates fast_mode).2
      = concat (map (fun ih => snapshots_or_nil (scrape_one strftime env dates ih.2 ih.1))
                    (enumerate1 hotels)))
  /\ (forall env browser hotels dates fast_mode,
      create_shared_browser env = Ok browser ->
      exists stats,
        _strategy_2_shared_browser strftime env hotels dates fast_mode
        = Ok (stats,
              concat (map (fun ih =>
                             snapshots_or_nil (shared_one strftime browser dates ih.2 ih.1))
                          (enumerate1 hotels))))
  /\ (forall env completion hotels dates max_workers,
      completion ≡ₚ seq 0 (length hotels) ->
      let order := omap (fun k => enumerate1 hotels !! k) completion in
      order ≡ₚ enumerate1 hotels
      /\ (_strategy_3_parallel strftime env completion hotels dates max_workers).2
         = concat (map (fun ih =>
                          snapshots_or_nil (scrape_one strftime env dates ih.2 ih.1))
                       order))
  /\ (forall env dates h1 h2 h3,
      (_strategy_3_parallel strftime env [2; 0; 1]%nat [h1; h2; h3] dates 2).2
      = snapshots_or_nil (scrape_one strftime env dates h3 3)
        ++ snapshots_or_nil (scrape_one strftime env dates h1 1)
        ++ snapshots_or_nil (scrape_one strftime env dates h2 2)).
Proof.
  split; [|split; [|split]].
  - intros env hotels dates fast_mode.
    rewrite strategy_1_as_record, fold_record. simpl.
    unfold submit_all. by rewrite map_map.
  - intros env browser hotels dates fast_mode Hb.
    rewrite (strategy_2_as_record strftime env browser) by done.
    rewrite fold_record. eexists. simpl. by rewrite map_map.
  - intros env completion hotels dates max_workers Hperm order.
    split.
    + apply completion_order_perm. by rewrite length_enumerate1.
    + rewrite strategy_3_as_record, fold_record. simpl.
      unfold submit_all.
      change (@map (nat * Hotel)) with (@fmap list _ (nat * Hotel)).
      rewrite omap_lookup_fmap.
      change (@fmap list _ (nat * Hotel)) with (@map (nat * Hotel)).
      by rewrite map_map.
  - intros env dates h1 h2 h3.
    rewrite strategy_3_as_record, fold_record. simpl. by rewrite app_nil_r.
Qed.

(** C10. Whatever the hotels, the window and the browser do, the statistics
    each strategy returns are consistent: [total_hotels] is the number of
    hotels, successes and failures add up to it, there is one error entry
    per failure, and [total_snapshots] is the length of the returned
    list. Strategies 1 and 3 always return; strategy 2 returns unless the
    shared browser cannot be created, in which case it raises. *)
Theorem run_stats_consistent :
  (forall env hotels dates fast_mode,
      stats_consistent hotels (_strategy_1_isolated strftime env hotels dates fast_mode))
  /\ (forall env hotels dates fast_mode,
      match _strategy_2_shared_browser strftime env hotels dates fast_mode with
      | Ok r => is_ok (create_shared_browser env) = true /\ stats_consistent hotels r
      | Raise e => create_shared_browser env = Raise e
      end)
  /\ (forall env completion hotels dates max_workers,
      completion ≡ₚ seq 0 (length hotels) ->
      stats_consistent hotels
        (_strategy_3_parallel strftime env completion hotels dates max_workers)).
Proof.
  split; [|split].
  - intros env hotels dates fast_mode. rewrite strategy_1_as_record.
    apply fold_record_consistent, length_submit_all.
  - intros env hotels dates fast_mode.
    destruct (create_shared_browser env) as [browser|e] eqn:Hb.
    + rewrite (strategy_2_as_record strftime env browser) by done.
      split; [done|].
      apply fold_record_consistent. by rewrite length_map, length_enumerate1.
    + by rewrite (strategy_2_raises strftime env hotels dates fast_mode e).
  - intros env completion hotels dates max_workers Hperm.
    rewrite strategy_3_as_record. apply fold_record_consistent.
    rewrite (Permutation_length
               (completion_order_perm (submit_all strftime env dates hotels) completion
                  ltac:(by rewrite length_submit_all))).
    apply length_submit_all.
Qed.

End Orchestration.

Lemma strategies_concatenate_per_hotel_witness :
  exists stats,
    _strategy_2_shared_browser iso_strftime env_navigation_fails [hotel_a; hotel_b]
      (get_next_30_days TODAY (Some 2)) false
    = Ok (stats,
          concat (map (fun ih => snapshots_or_nil
                                   (shared_one iso_strftime
                                      {| page := november_page;
                                         context_new_page := fun i =>
                                           Ok (if (i =? 2)%nat then unreachable_page
                                               else november_page) |}
                                      (get_next_30_days TODAY (Some 2)) ih.2 ih.1))
                      (enumerate1 [hotel_a; hotel_b]))).
Proof.
  destruct (strategies_concatenate_per_hotel iso_strftime) as (_ & Hshared & _).
  apply (Hshared env_navigation_fails). reflexivity.
Defined.

Lemma run_stats_consistent_witness :
  stats_consistent [hotel_a; hotel_b; hotel_c]
    (_strategy_3_parallel iso_strftime env_session_fails [2; 0; 1]%nat
       [hotel_a; hotel_b; hotel_c] (get_next_30_days TODAY (Some 3)) 2).
Proof.
  destruct (run_stats_consistent iso_strftime) as (_ & _ & Hpar).
  apply Hpar. apply (bool_decide_unpack _). vm_compute. reflexivity.
Defined.

(** ** Failure accounting *)

Lemma length_concat_uniform {A} (blocks : list (list A)) n :
  Forall (fun b => length b = n) blocks ->
  length (concat blocks) = (length blocks * n)%nat.
Proof.
  induction 1 as [|b blocks Hb _ IH]; simpl; [done|].
  rewrite length_app, Hb, IH. lia.
Qed.

Section FailureAccounting.

Variable strftime : date -> pystr -> pystr.

(** A non-empty window always comes back in full: one snapshot per date of
    the window, all unavailable when navigation fails. *)
Lemma scrape_hotel_with_page_full page hotel dates :
  dates <> [] ->
  exists w,
    scrape_hotel_with_page strftime page hotel dates = Ok w
    /\ length w = length dates
    /\ map dateCheckin w ≡ₚ map (fun d => strftime d DATE_FMT) dates
    /\ ((forall u, is_ok (goto page u) = false) ->
        w = sorted by_dateCheckin (map (unavailable_snapshot strftime hotel) dates)).
Proof.
  intros Hne.
  destruct (scrape_hotel_with_page_returns strftime page hotel dates Hne) as [u Hret].
  eexists. split; [exact Hret|]. split; [|split].
  - by rewrite sorted_length, length_map.
  - rewrite sorted_perm, map_map. done.
  - intros Hnav. f_equal. apply map_ext. intros d.
    apply make_snapshot_unobserved.
    rewrite collect_nothing_when_goto_fails by apply Hnav. apply lookup_empty.
Qed.

Lemma scrape_one_acquired env dates hotel i browser :
  create_stealth_browser_full env i = Ok browser ->
  scrape_one strftime env dates hotel i
  = scrape_hotel_with_page strftime (page browser) hotel dates.
Proof. intros H. unfold scrape_one. by rewrite H. Qed.

Lemma scrape_one_not_acquired env dates hotel i e :
  create_stealth_browser_full env i = Raise e ->
  scrape_one strftime env dates hotel i = Raise e.
Proof. intros H. unfold scrape_one. by rewrite H. Qed.

(** With a non-empty window, a hotel succeeds exactly when its session is
    acquired; what its page then does plays no part. *)
Lemma scrape_one_ok_iff_acquired env dates hotel i :
  dates <> [] ->
  is_ok (scrape_one strftime env dates hotel i)
  = is_ok (create_stealth_browser_full env i).
Proof.
  intros Hne. destruct (create_stealth_browser_full env i) as [b|e] eqn:E.
  - rewrite (scrape_one_acquired _ _ _ _ b E).
    by destruct (scrape_hotel_with_page_full (page b) hotel dates Hne) as (w & -> & _).
  - by rewrite (scrape_one_not_acquired _ _ _ _ e E).
Qed.

Lemma scrape_one_block_length env dates hotel i :
  dates <> [] ->
  length (snapshots_or_nil (scrape_one strftime env dates hotel i))
  = if is_ok (create_stealth_browser_full env i) then length dates else 0%nat.
Proof.
  intros Hne. destruct (create_stealth_browser_full env i) as [b|e] eqn:E.
  - rewrite (scrape_one_acquired _ _ _ _ b E).
    by destruct (scrape_hotel_with_page_full (page b) hotel dates Hne)
      as (w & -> & Hlen & _).
  - by rewrite (scrape_one_not_acquired _ _ _ _ e E).
Qed.

Lemma isolated_accounting env dates (l : list (nat * Hotel)) :
  dates <> [] ->
  let outcomes := map (fun ih => (ih.2, scrape_one strftime env dates ih.2 ih.1)) l in
  length (List.filter succeeded outcomes)
  = length (List.filter (fun ih => is_ok (create_stealth_browser_full env ih.1)) l)
  /\ length (List.filter failed outcomes)
     = length (List.filter
                 (fun ih => negb (is_ok (create_stealth_browser_full env ih.1))) l)
  /\ map error_entry (List.filter failed outcomes)
     = omap (fun ih => match create_stealth_browser_full env ih.1 with
                       | Ok _ => None
                       | Raise e => Some (name ih.2 ++ py ": " ++ e)
                       end) l
  /\ length (concat (map (fun hr => snapshots_or_nil hr.2) outcomes))
     = (length (List.filter (fun ih => is_ok (create_stealth_browser_full env ih.1)) l)
        * length dates)%nat.
Proof.
  intros Hne. induction l as [|[i h] l IH]; [done|].
  destruct IH as (IH1 & IH2 & IH3 & IH4).
  cbn [map List.filter concat fst snd]. csimpl.
  change (succeeded (h, scrape_one strftime env dates h i))
    with (is_ok (scrape_one strftime env dates h i)).
  change (failed (h, scrape_one strftime env dates h i))
    with (negb (is_ok (scrape_one strftime env dates h i))).
  rewrite length_app, scrape_one_block_length by done.
  rewrite scrape_one_ok_iff_acquired by done.
  destruct (create_stealth_browser_full env i) as [b|e] eqn:E; cbn [is_ok negb length map].
  - repeat split; [by rewrite IH1 | done | done | rewrite IH4; lia].
  - repeat split; [done | by rewrite IH2 | | by rewrite IH4].
    rewrite IH3. unfold error_entry at 1. cbn [fst snd].
    by rewrite (scrape_one_not_acquired _ _ _ _ e E).
Qed.

End FailureAccounting.


(** One session that cannot be acquired: one failure, one error entry naming
    the hotel, and the two other windows in full. *)
Example session_failure_is_recorded :
  _strategy_1_isolated iso_strftime env_session_fails
    [hotel_a; hotel_b; hotel_c] (get_next_30_days TODAY (Some 3)) false
  = ({| total_hotels := 3; total_snapshots := 6; successful_hotels := 2;
        failed_hotels := 1;
        errors := [py "Hotel B: BrowserType.launch: Executable doesn't exist"] |},
     snapshots_or_nil (scrape_hotel_with_page iso_strftime november_page hotel_a
                         (get_next_30_days TODAY (Some 3)))
     ++ snapshots_or_nil (scrape_hotel_with_page iso_strftime november_page hotel_c
                            (get_next_30_days TODAY (Some 3)))).
Proof. vm_compute. reflexivity. Qed.

(* ===================================================================== *)
(** * Further properties of the code *)
(* ===================================================================== *)

(** ** More on the price text normalizer *)

Lemma digit_not_space c : is_digit c = true -> is_space c = false.
Proof.
  unfold is_digit, is_space. intros [H1 H2]%andb_true_iff.
  apply N.leb_le in H1, H2.
  replace (c <=? 13)%N with false by (symmetry; apply N.leb_gt; lia).
  replace (c <=? 32)%N with false by (symmetry; apply N.leb_gt; lia).
  replace (8192 <=? c)%N with false by (symmetry; apply N.leb_gt; lia).
  replace (c =? 133)%N with false by (symmetry; apply N.eqb_neq; lia).
  replace (c =? 160)%N with false by (symmetry; apply N.eqb_neq; lia).
  replace (c =? 5760)%N with false by (symmetry; apply N.eqb_neq; lia).
  replace (c =? 8232)%N with false by (symmetry; apply N.eqb_neq; lia).
  replace (c =? 8233)%N with false by (symmetry; apply N.eqb_neq; lia).
  replace (c =? 8239)%N with false by (symmetry; apply N.eqb_neq; lia).
  replace (c =? 8287)%N with false by (symmetry; apply N.eqb_neq; lia).
  replace (c =? 12288)%N with false by (symmetry; apply N.eqb_neq; lia).
  by rewrite !andb_false_r.
Qed.

Lemma take_while_all p s : forallb p s = true -> take_while p s = s.
Proof.
  induction s as [|c s IH]; simpl; [done|].
  intros [Hc Hs]%andb_true_iff. rewrite Hc. f_equal. by apply IH.
Qed.

Lemma drop_while_all p s : forallb p s = true -> drop_while p s = [].
Proof.
  induction s as [|c s IH]; simpl; [done|].
  intros [Hc Hs]%andb_true_iff. rewrite Hc. by apply IH.
Qed.

Lemma forallb_weaken (p q : N -> bool) s :
  (forall c, p c = true -> q c = true) -> forallb p s = true -> forallb q s = true.
Proof.
  intros Hpq. induction s as [|c s IH]; simpl; [done|].
  intros [Hc Hs]%andb_true_iff. rewrite (Hpq c Hc). by apply IH.
Qed.

Lemma lstrip_app_nonspace u c :
  is_space c = false -> lstrip (u ++ [c]) = lstrip u ++ [c].
Proof.
  intros Hc. induction u as [|x u IH]; simpl; [by rewrite Hc|].
  destruct (is_space x); [exact IH | done].
Qed.

Lemma rstrip_cons_nonspace c t :
  is_space c = false -> rstrip (c :: t) = c :: rstrip t.
Proof.
  intros Hc. unfold rstrip. simpl.
  by rewrite lstrip_app_nonspace, rev_app_distr.
Qed.

Lemma rstrip_nil : rstrip [] = [].
Proof. reflexivity. Qed.

(** A text of non-space characters is left alone by [strip]. *)
Lemma strip_no_space s : forallb (fun c => negb (is_space c)) s = true -> strip s = s.
Proof.
  intros H. unfold strip.
  assert (Hl : lstrip s = s).
  { destruct s as [|c s]; [done|]. simpl in *.
    apply andb_true_iff in H as [Hc _]. by destruct (is_space c). }
  rewrite Hl. clear Hl. induction s as [|c s IH]; [done|].
  simpl in H. apply andb_true_iff in H as [Hc Hs].
  rewrite rstrip_cons_nonspace by (by destruct (is_space c)).
  f_equal. by apply IH.
Qed.

Lemma replace_char_absent old new s :
  forallb (fun c => negb (c =? old)%N) s = true -> replace_char old new s = s.
Proof.
  unfold replace_char. induction s as [|c s IH]; simpl; [done|].
  intros [Hc Hs]%andb_true_iff. rewrite IH by done.
  by destruct (c =? old)%N.
Qed.

Lemma remove_char_absent old s :
  forallb (fun c => negb (c =? old)%N) s = true -> remove_char old s = s.
Proof.
  unfold remove_char. induction s as [|c s IH]; simpl; [done|].
  intros [Hc Hs]%andb_true_iff. rewrite Hc, IH; done.
Qed.

Lemma Qle_bool_inject_Z a b : Qle_bool (inject_Z a) (inject_Z b) = (a <=? b).
Proof. unfold Qle_bool, inject_Z. simpl. by rewrite !Z.mul_1_r. Qed.

Lemma amount_at_digits ds :
  ds <> [] -> forallb is_digit ds = true -> amount_at ds = Some ds.
Proof.
  intros Hne Hd. destruct ds as [|d rest]; [done|]. simpl in *.
  apply andb_true_iff in Hd as [Hd Hrest]. rewrite Hd.
  assert (Hrun : forallb (fun x => is_digit x || is_space x) rest = true).
  { eapply forallb_weaken; [|exact Hrest]. intros c ->. done. }
  by rewrite (take_while_all _ _ Hrun), (drop_while_all _ _ Hrun), app_nil_r.
Qed.

Lemma drop_while_head_false (p : N -> bool) (s : pystr) :
  match s with c :: _ => p c = false | [] => True end -> drop_while p s = s.
Proof. destruct s as [|c s]; simpl; [done|]. by intros ->. Qed.

(** A run of digits has nothing for [float()] to trim. *)
Lemma float_strip_digits ds : forallb is_digit ds = true -> float_strip ds = ds.
Proof.
  intros Hd. unfold float_strip.
  assert (Hns : forall c, In c ds -> is_float_space c = false).
  { intros c Hc. rewrite forallb_forall in Hd. unfold is_float_space.
    by rewrite (digit_not_space c (Hd c Hc)). }
  rewrite (drop_while_head_false _ ds).
  - rewrite (drop_while_head_false _ (rev ds)); [apply rev_involutive|].
    destruct (rev ds) as [|c r] eqn:E; [done|]. apply Hns, in_rev. rewrite E. by left.
  - destruct ds as [|c r]; [done|]. apply Hns. by left.
Qed.

Lemma float_digits ds :
  ds <> [] -> forallb is_digit ds = true -> float ds = Some (inject_Z (digits_value ds)).
Proof.
  intros Hne Hd. unfold float.
  rewrite (float_strip_digits ds Hd).
  rewrite (take_while_all _ _ Hd), (drop_while_all _ _ Hd).
  by destruct ds.
Qed.

Lemma parse_avg_price_unfold f :
  f <> [] ->
  _parse_avg_price (Some f)
  = let text := strip (replace_char NBSP SPACE f) in
    match (match search_euro_amount text with
           | Some g => Some g
           | None => search_amount text
           end) with
    | None => None
    | Some g =>
        let s := replace_char COMMA DOT (remove_char SPACE g) in
        match s with
        | [] => None
        | _ =>
            match float s with
            | Some p => if Qle_bool 10 p && negb (Qle_bool 10000 p) then Some p else None
            | None => None
            end
        end
    end.
Proof. by destruct f. Qed.

Lemma rstrip_no_space s :
  forallb (fun c => negb (is_space c)) s = true -> rstrip s = s.
Proof.
  induction s as [|c s IH]; [done|]. simpl.
  intros [Hc Hs]%andb_true_iff.
  rewrite rstrip_cons_nonspace by (by destruct (is_space c)).
  f_equal. by apply IH.
Qed.

(** Trailing white space goes, whatever stands before a non-space. *)
Lemma rstrip_app_no_space u s :
  s <> [] -> forallb (fun c => negb (is_space c)) s = true ->
  rstrip (u ++ s) = u ++ s.
Proof.
  intros Hne Hs. unfold rstrip. rewrite rev_app_distr.
  pose proof (rstrip_no_space s Hs) as Hr. unfold rstrip in Hr.
  destruct (rev s) as [|x xs] eqn:E.
  { apply (f_equal (@rev N)) in E. rewrite rev_involutive in E. by subst. }
  simpl in *. destruct (is_space x) eqn:Hx.
  - exfalso. assert (Hin : In x s) by (apply in_rev; rewrite E; by left).
    rewrite forallb_forall in Hs. specialize (Hs x Hin). by rewrite Hx in Hs.
  - change (x :: xs ++ rev u) with ((x :: xs) ++ rev u).
    rewrite <- E. by rewrite rev_app_distr, !rev_involutive.
Qed.

(** X1. A euro sign, a space and a run of ASCII digits parse to the number
    the digits denote when it is at least 10 and below 10000, and to nothing
    otherwise (leading zeros included). *)
Theorem parse_euro_digits (ds : pystr) :
  ds <> [] -> forallb is_digit ds = true ->
  _parse_avg_price (Some ([EURO; SPACE] ++ ds))
  = if (10 <=? digits_value ds) && (digits_value ds <? 10000)
    then Some (inject_Z (digits_value ds)) else None.
Proof.
  intros Hne Hd.
  assert (Hns : forallb (fun c => negb (is_space c)) ds = true).
  { eapply forallb_weaken; [|exact Hd]. intros c Hc. by rewrite digit_not_space. }
  assert (Hnot : forall k, is_digit k = false ->
                 forallb (fun c => negb (c =? k)%N) ds = true).
  { intros k Hk. eapply forallb_weaken; [|exact Hd]. intros c Hc.
    destruct (N.eqb_spec c k) as [->|]; [congruence | done]. }
  rewrite parse_avg_price_unfold by done. cbv zeta.
  assert (Hrep : replace_char NBSP SPACE ([EURO; SPACE] ++ ds) = [EURO; SPACE] ++ ds).
  { unfold replace_char. rewrite map_app. f_equal.
    apply (replace_char_absent NBSP SPACE), Hnot. done. }
  rewrite Hrep.
  assert (Hstrip : strip ([EURO; SPACE] ++ ds) = [EURO; SPACE] ++ ds).
  { unfold strip. change (lstrip ([EURO; SPACE] ++ ds)) with ([EURO; SPACE] ++ ds).
    by apply rstrip_app_no_space. }
  rewrite Hstrip.
  assert (Hsearch : search_euro_amount ([EURO; SPACE] ++ ds) = Some ds).
  { cbn [app search_euro_amount]. change ((EURO =? EURO)%N) with true. cbv iota.
    cbn [drop_while]. change (is_space SPACE) with true. cbv iota.
    assert (Hdrop : drop_while is_space ds = ds).
    { destruct ds as [|d rest]; [done|]. simpl in *.
      apply andb_true_iff in Hns as [Hdn _]. by destruct (is_space d). }
    by rewrite Hdrop, (amount_at_digits ds Hne Hd). }
  rewrite Hsearch.
  rewrite (remove_char_absent SPACE ds) by (by apply Hnot).
  rewrite (replace_char_absent COMMA DOT ds) by (by apply Hnot).
  rewrite (float_digits ds Hne Hd).
  change 10%Q with (inject_Z 10). change 10000%Q with (inject_Z 10000).
  rewrite !Qle_bool_inject_Z.
  destruct ds as [|d rest]; [done|].
  destruct (Z.leb_spec 10 (digits_value (d :: rest))),
           (Z.leb_spec 10000 (digits_value (d :: rest))),
           (Z.ltb_spec (digits_value (d :: rest)) 10000); simpl; try done; lia.
Qed.

Lemma parse_euro_digits_witness :
  _parse_avg_price (Some ([EURO; SPACE] ++ py "0152")) = Some (inject_Z 152).
Proof.
  apply (parse_euro_digits (py "0152")); [discriminate | reflexivity].
Defined.

Lemma In_lstrip c s : In c (lstrip s) -> In c s.
Proof.
  induction s as [|x s IH]; simpl; [done|].
  destruct (is_space x); [right; by apply IH | done].
Qed.

Lemma In_rstrip c s : In c (rstrip s) -> In c s.
Proof.
  unfold rstrip. intros H. apply in_rev in H. apply In_lstrip in H. by apply in_rev.
Qed.

Lemma In_drop_while p c s : In c (drop_while p s) -> In c s.
Proof.
  induction s as [|x s IH]; simpl; [done|].
  destruct (p x); [right; by apply IH | done].
Qed.

Lemma search_euro_amount_no_digit text :
  (forall c, In c text -> is_digit c = false) -> search_euro_amount text = None.
Proof.
  induction text as [|c rest IH]; intros H; simpl; [done|].
  assert (Hrest : search_euro_amount rest = None) by (apply IH; intros; apply H; by right).
  destruct (c =? EURO)%N; [|done].
  destruct (drop_while is_space rest) as [|d s] eqn:E; simpl; [done|].
  rewrite (H d); [done|]. right. apply (In_drop_while is_space). rewrite E. by left.
Qed.

Lemma search_amount_no_digit text :
  (forall c, In c text -> is_digit c = false) -> search_amount text = None.
Proof.
  induction text as [|c rest IH]; intros H; [done|].
  cbn [search_amount amount_at]. rewrite (H c) by (by left).
  apply IH. intros; apply H; by right.
Qed.

(** X2. A text of characters below U+0660 and euro signs, where 0 to 9 are
    the only decimal digits there can be, parses to nothing when it holds
    none of them, whatever else it holds. *)
Theorem parse_no_digit (f : pystr) :
  plain_text f ->
  (forall c, In c f -> is_digit c = false) -> _parse_avg_price (Some f) = None.
Proof.
  intros _ H. destruct f as [|c0 f0] eqn:Ef; [done|]. rewrite <- Ef in *.
  rewrite parse_avg_price_unfold by (by subst). cbv zeta.
  assert (Htext : forall c, In c (strip (replace_char NBSP SPACE f)) -> is_digit c = false).
  { intros c Hc. unfold strip in Hc. apply In_rstrip, In_lstrip in Hc.
    unfold replace_char in Hc. apply in_map_iff in Hc as (x & Hx & Hin).
    destruct (x =? NBSP)%N; subst c; [done | by apply H]. }
  by rewrite (search_euro_amount_no_digit _ Htext), (search_amount_no_digit _ Htext).
Qed.

Lemma parse_no_digit_witness : _parse_avg_price (Some (py "Complet / sold out €")) = None.
Proof.
  apply parse_no_digit; [reflexivity|]. intros c Hc.
  assert (Hall : forallb (fun c => negb (is_digit c)) (py "Complet / sold out €") = true)
    by reflexivity.
  rewrite forallb_forall in Hall. specialize (Hall c Hc). by destruct (is_digit c).
Defined.

Lemma lstrip_map g s :
  (forall c, is_space (g c) = is_space c) -> lstrip (map g s) = map g (lstrip s).
Proof.
  intros Hg. induction s as [|c s IH]; simpl; [done|].
  rewrite Hg. by destruct (is_space c).
Qed.

Lemma rstrip_map g s :
  (forall c, is_space (g c) = is_space c) -> rstrip (map g s) = map g (rstrip s).
Proof.
  intros Hg. unfold rstrip. by rewrite <- map_rev, lstrip_map, map_rev.
Qed.

Lemma lstrip_head s :
  lstrip s = [] \/ exists c t, lstrip s = c :: t /\ is_space c = false.
Proof.
  induction s as [|x s IH]; simpl; [by left|].
  destruct (is_space x) eqn:E; [exact IH|]. right. by exists x, s.
Qed.

Lemma lstrip_idem s : lstrip (lstrip s) = lstrip s.
Proof.
  destruct (lstrip_head s) as [-> | (c & t & -> & Hc)]; [done|]. simpl. by rewrite Hc.
Qed.

Lemma strip_idem s : strip (strip s) = strip s.
Proof.
  unfold strip.
  assert (Hl : lstrip (rstrip (lstrip s)) = rstrip (lstrip s)).
  { destruct (lstrip_head s) as [-> | (c & t & -> & Hc)]; [done|].
    rewrite rstrip_cons_nonspace by done. simpl. by rewrite Hc. }
  rewrite Hl. unfold rstrip at 1 2. by rewrite rev_involutive, lstrip_idem.
Qed.

Lemma nbsp_to_space_keeps_class c :
  is_space (if (c =? NBSP)%N then SPACE else c) = is_space c.
Proof. destruct (N.eqb_spec c NBSP) as [->|]; done. Qed.

Lemma strip_replace_nbsp s :
  strip (replace_char NBSP SPACE s) = replace_char NBSP SPACE (strip s).
Proof.
  unfold strip, replace_char.
  rewrite lstrip_map, rstrip_map; [done | |]; apply nbsp_to_space_keeps_class.
Qed.

Lemma replace_nbsp_idem s :
  replace_char NBSP SPACE (replace_char NBSP SPACE s) = replace_char NBSP SPACE s.
Proof.
  unfold replace_char. rewrite map_map. apply map_ext. intros c.
  destruct (c =? NBSP)%N eqn:E; [done | by rewrite E].
Qed.

(** X3. White space around the text, and writing spaces as non-breaking
    spaces, never changes what the normalizer returns. *)
Theorem parse_ignores_outer_space (f : pystr) :
  _parse_avg_price (Some (strip f)) = _parse_avg_price (Some f)
  /\ _parse_avg_price (Some (replace_char NBSP SPACE f)) = _parse_avg_price (Some f).
Proof.
  split.
  - destruct f as [|c0 f0] eqn:Ef; [done|]. rewrite <- Ef.
    assert (Hf : f <> []) by (by subst). clear Ef.
    rewrite (parse_avg_price_unfold f Hf). cbv zeta.
    destruct (strip f) as [|c1 f1] eqn:Es.
    + rewrite strip_replace_nbsp, Es. done.
    + rewrite <- Es. rewrite parse_avg_price_unfold by (by rewrite Es). cbv zeta.
      by rewrite strip_replace_nbsp, strip_idem, <- strip_replace_nbsp.
  - destruct f as [|c0 f0] eqn:Ef; [done|]. rewrite <- Ef.
    assert (Hf : f <> []) by (by subst). clear Ef.
    rewrite (parse_avg_price_unfold f Hf).
    rewrite parse_avg_price_unfold by (destruct f; done).
    cbv zeta. by rewrite replace_nbsp_idem.
Qed.

(** ** The calendar script *)

Lemma iso_match_shaped s iso : iso_match s = Some iso -> iso_shaped iso = true.
Proof.
  unfold iso_match.
  destruct s as [|y1 [|y2 [|y3 [|y4 [|h1 [|m1 [|m2 [|h2 [|d1 [|d2 s]]]]]]]]]]; try done.
  destruct (forallb is_digit [y1; y2; y3; y4; m1; m2; d1; d2]
            && (h1 =? HYPHEN)%N && (h2 =? HYPHEN)%N) eqn:E; [|done].
  intros [= <-]. exact E.
Qed.

Lemma iso_shaped_match s t : iso_shaped s = true -> iso_match (s ++ t) = Some s.
Proof.
  destruct s as [|y1 [|y2 [|y3 [|y4 [|h1 [|m1 [|m2 [|h2 [|d1 [|d2 [|x s]]]]]]]]]]];
    try done.
  unfold iso_shaped, iso_match. cbn [app]. by intros ->.
Qed.

Lemma checkin_of_dateStr_shape s :
  checkin_of_dateStr s = [] \/ iso_shaped (checkin_of_dateStr s) = true.
Proof.
  unfold checkin_of_dateStr.
  destruct (iso_match s) as [iso|] eqn:E; [right; by apply (iso_match_shaped s)|].
  destruct (8 <=? length (List.filter is_digit s))%nat eqn:Hlen; [|by left].
  right. apply Nat.leb_le in Hlen.
  assert (Hd : Forall (fun c => is_digit c = true) (List.filter is_digit s)).
  { apply Forall_forall. intros c Hc. apply list_elem_of_In, filter_In in Hc. tauto. }
  destruct (List.filter is_digit s)
    as [|a1 [|a2 [|a3 [|a4 [|a5 [|a6 [|a7 [|a8 rest]]]]]]]]; simpl in Hlen; try lia.
  apply Forall_cons in Hd as [H1 Hd]. apply Forall_cons in Hd as [H2 Hd].
  apply Forall_cons in Hd as [H3 Hd]. apply Forall_cons in Hd as [H4 Hd].
  apply Forall_cons in Hd as [H5 Hd]. apply Forall_cons in Hd as [H6 Hd].
  apply Forall_cons in Hd as [H7 Hd]. apply Forall_cons in Hd as [H8 Hd].
  unfold iso_shaped. cbn. by rewrite H1, H2, H3, H4, H5, H6, H7, H8.
Qed.

Lemma iso_shaped_fixed s : iso_shaped s = true -> checkin_of_dateStr s = s.
Proof.
  intros H. unfold checkin_of_dateStr.
  rewrite <- (app_nil_r s) at 1. by rewrite (iso_shaped_match s [] H).
Qed.

Lemma digit_char_is_digit v : is_digit (digit_char v) = true.
Proof.
  unfold is_digit, digit_char.
  pose proof (Z.mod_pos_bound v 10 ltac:(lia)).
  apply andb_true_iff. split; apply N.leb_le; lia.
Qed.

Lemma iso_strftime_shaped d fmt : iso_shaped (iso_strftime d fmt) = true.
Proof.
  unfold iso_strftime. destruct (_ord2ymd d) as [[y m] dd].
  unfold pad4, pad2. change (py "-") with [HYPHEN]. cbn [app iso_shaped forallb].
  by rewrite !digit_char_is_digit.
Qed.

(** X4. The key the calendar script derives from a [data-date] value: a value
    that starts with YYYY-MM-DD gives those ten characters, whatever follows
    (a time, a zone); the compact form YYYYMMDD gives the same key; deriving
    again from a key changes nothing; and, for a date of the years 1000 to
    9999, the key Python formats is the key the script derives from it, so
    the two sides of the dictionary agree. *)
Theorem checkin_key_derivation :
  (forall s t, iso_shaped s = true -> checkin_of_dateStr (s ++ t) = s)
  /\ (forall y m d,
      checkin_of_dateStr (pad4 y ++ pad2 m ++ pad2 d)
      = pad4 y ++ py "-" ++ pad2 m ++ py "-" ++ pad2 d)
  /\ (forall s, checkin_of_dateStr (checkin_of_dateStr s) = checkin_of_dateStr s)
  /\ (forall s, checkin_of_dateStr s = [] \/ iso_shaped (checkin_of_dateStr s) = true)
  /\ (forall d, four_digit_year d ->
        checkin_of_dateStr (iso_strftime d DATE_FMT) = iso_strftime d DATE_FMT).
Proof.
  split; [|split; [|split; [|split]]].
  - intros s t H. unfold checkin_of_dateStr. by rewrite (iso_shaped_match s t H).
  - intros y m d. unfold checkin_of_dateStr, pad4, pad2.
    cbn [app iso_match List.filter]. rewrite !digit_char_is_digit. reflexivity.
  - intros s. destruct (checkin_of_dateStr_shape s) as [-> | H]; [done|].
    by apply iso_shaped_fixed.
  - apply checkin_of_dateStr_shape.
  - intros d _. apply iso_shaped_fixed, iso_strftime_shaped.
Qed.

Lemma checkin_key_derivation_witness :
  checkin_of_dateStr (py "2026-11-05" ++ py "T00:00:00+01:00") = py "2026-11-05"
  /\ checkin_of_dateStr (iso_strftime TODAY DATE_FMT) = py "2026-11-04".
Proof.
  split.
  - apply (proj1 checkin_key_derivation). reflexivity.
  - apply (proj2 (proj2 (proj2 (proj2 checkin_key_derivation))) TODAY).
    unfold four_digit_year, FIRST_4DIGIT_DAY, LAST_4DIGIT_DAY, TODAY. lia.
Defined.

Lemma cell_observation_sound cell : observation_sound (cell_observation cell).
Proof.
  unfold observation_sound, cell_observation, cell_available. simpl.
  destruct (cell_disabled cell); simpl; [done|].
  destruct (cell_price cell) as [p|]; [|done].
  destruct (Qle_bool 10 p) eqn:E; [|done]. split; [done|]. by apply Qle_bool_iff.
Qed.

Lemma cell_checkin_shape cell :
  cell_checkin cell = [] \/ iso_shaped (cell_checkin cell) = true.
Proof.
  unfold cell_checkin. destruct (js_or _ _) as [[|c s]|]; try by left.
  apply checkin_of_dateStr_shape.
Qed.

Lemma scan_cell_entries (out : calendar) cell :
  map_Forall (fun k o => iso_shaped k = true /\ observation_sound o) out ->
  map_Forall (fun k o => iso_shaped k = true /\ observation_sound o) (scan_cell out cell).
Proof.
  intros Hout. rewrite scan_cell_eq.
  destruct (cell_checkin_shape cell) as [-> | Hshape]; [done|].
  destruct (cell_checkin cell) as [|c k] eqn:E; [done|].
  unfold guarded_write.
  assert (Hins : map_Forall (fun k o => iso_shaped k = true /\ observation_sound o)
                   (<[c :: k := cell_observation cell]> out)).
  { apply map_Forall_insert_2; [|done]. split; [done | apply cell_observation_sound]. }
  destruct (out !! (c :: k)); [destruct (obs_available (cell_observation cell))|]; done.
Qed.

Lemma scan_entries cells : forall out : calendar,
  map_Forall (fun k o => iso_shaped k = true /\ observation_sound o) out ->
  map_Forall (fun k o => iso_shaped k = true /\ observation_sound o)
    (fold_left scan_cell cells out).
Proof.
  induction cells as [|cell cells IH]; intros out Hout; simpl; [done|].
  by apply IH, scan_cell_entries.
Qed.

Lemma extract_entries (page : Page) (k : nat) (dom_data : calendar)
    (key : pystr) (o : Observation) :
  _extract_calendar_from_dom page k = Ok dom_data ->
  dom_data !! key = Some o ->
  iso_shaped key = true /\ observation_sound o.
Proof.
  unfold _extract_calendar_from_dom. destruct (evaluate_calendar page k) as [surface|e];
    [|done].
  intros [= <-] Hkey. unfold calendar_script in Hkey.
  by apply (scan_entries (select_cells surface) ∅ (map_Forall_empty _) key o).
Qed.

(** X5. Whatever the page shows, every entry of the dictionary
    [_extract_calendar_from_dom] returns has a key of the shape YYYY-MM-DD
    and an observation that is available exactly when it has a price, the
    price then being at least 10. *)
Theorem extracted_entries_well_formed (page : Page) (k : nat) (dom_data : calendar)
    (key : pystr) (o : Observation) :
  _extract_calendar_from_dom page k = Ok dom_data ->
  dom_data !! key = Some o ->
  iso_shaped key = true /\ observation_sound o.
Proof. apply extract_entries. Qed.

Lemma extracted_entries_well_formed_witness :
  iso_shaped (py "2026-11-08") = true
  /\ observation_sound {| obs_price := Some 99%Q; obs_available := true |}.
Proof.
  apply (extracted_entries_well_formed november_page 0
           (calendar_script (surface_of november_cells))); vm_compute; reflexivity.
Defined.

Lemma cells_for_cons key cell cells :
  cells_for key (cell :: cells)
  = if bool_decide (cell_checkin cell = key) then cell :: cells_for key cells
    else cells_for key cells.
Proof. reflexivity. Qed.

Lemma unavailable_cell_observation cell :
  cell_available cell = false ->
  cell_observation cell = {| obs_price := None; obs_available := false |}.
Proof. unfold cell_observation. by intros ->. Qed.

Lemma scan_lookup cells : forall (out : calendar) key,
  key <> [] ->
  fold_left scan_cell cells out !! key
  = match last (List.filter cell_available (cells_for key cells)) with
    | Some cell => Some (cell_observation cell)
    | None =>
        match out !! key with
        | Some o => Some o
        | None =>
            match cells_for key cells with
            | [] => None
            | _ :: _ => Some {| obs_price := None; obs_available := false |}
            end
        end
    end.
Proof.
  induction cells as [|cell cells IH]; intros out key Hkey.
  { simpl. by destruct (out !! key). }
  cbn [fold_left]. rewrite IH by done. rewrite cells_for_cons, scan_cell_eq.
  case_bool_decide as Hk.
  - subst key. destruct (cell_checkin cell) as [|c k] eqn:E; [done|].
    cbn [List.filter]. unfold guarded_write.
    destruct (cell_available cell) eqn:Ha.
    + rewrite last_cons.
      destruct (last (List.filter cell_available (cells_for (c :: k) cells))); [done|].
      assert (Hav : obs_available (cell_observation cell) = true) by done.
      rewrite Hav. destruct (out !! (c :: k)); by rewrite lookup_insert_eq.
    + destruct (last (List.filter cell_available (cells_for (c :: k) cells))); [done|].
      assert (Hav : obs_available (cell_observation cell) = false) by done.
      rewrite Hav. destruct (out !! (c :: k)) as [o|] eqn:Eo.
      * rewrite Eo. by destruct (cells_for (c :: k) cells).
      * rewrite lookup_insert_eq, (unavailable_cell_observation cell Ha).
        by destruct (cells_for (c :: k) cells).
  - destruct (cell_checkin cell) as [|c k] eqn:E; [done|].
    assert (Hother : guarded_write out (c :: k) (cell_observation cell) !! key
                     = out !! key).
    { unfold guarded_write.
      destruct (out !! (c :: k)); [destruct (obs_available _)|];
        by rewrite ?lookup_insert_ne. }
    by rewrite Hother.
Qed.

(** X6. In one run of the calendar script a date is in the result exactly
    when some scanned cell carries it, is available exactly when at least one
    of its cells is available, and then holds the price of the last such
    cell; the order of the cells plays no other part. *)
Theorem scanned_date_outcome (surface : Surface) (key : pystr) :
  key <> [] ->
  let cells := cells_for key (select_cells surface) in
  calendar_script surface !! key
  = match last (List.filter cell_available cells) with
    | Some cell => Some {| obs_price := cell_price cell; obs_available := true |}
    | None =>
        match cells with
        | [] => None
        | _ :: _ => Some {| obs_price := None; obs_available := false |}
        end
    end.
Proof.
  intros Hkey cells. unfold calendar_script.
  rewrite scan_lookup by done. fold cells. rewrite lookup_empty.
  destruct (last (List.filter cell_available cells)) as [cell|] eqn:E; [|done].
  assert (Hin : In cell (List.filter cell_available cells)).
  { apply list_elem_of_In, last_Some_elem_of. exact E. }
  apply filter_In in Hin as [_ Ha]. unfold cell_observation. by rewrite Ha.
Qed.

Lemma scanned_date_outcome_witness :
  calendar_script (surface_of november_cells) !! py "2026-11-05"
  = Some {| obs_price := Some 120%Q; obs_available := true |}.
Proof.
  apply (scanned_date_outcome (surface_of november_cells) (py "2026-11-05")).
  discriminate.
Defined.

(** ** The retried extraction *)

Lemma retry_provenance page total attempts :
  forall (calendar_days : calendar) key o,
  retry_extraction page total attempts calendar_days !! key = Some o ->
  calendar_days !! key = Some o
  \/ exists k (dom_data : calendar),
       In k attempts /\ _extract_calendar_from_dom page k = Ok dom_data
       /\ dom_data !! key = Some o.
Proof.
  induction attempts as [|k attempts IH]; intros calendar_days key o;
    cbn [retry_extraction]; [by left|].
  destruct (_extract_calendar_from_dom page k) as [dom_data|e] eqn:E; [|by left].
  assert (Hrest : forall cal' : calendar,
             (forall o', cal' !! key = Some o' ->
                calendar_days !! key = Some o' \/ dom_data !! key = Some o') ->
             retry_extraction page total attempts cal' !! key = Some o ->
             calendar_days !! key = Some o
             \/ exists k' (dom' : calendar),
                  In k' (k :: attempts)
                  /\ _extract_calendar_from_dom page k' = Ok dom' /\ dom' !! key = Some o).
  { intros cal' Hcal' H. apply IH in H as [H | (k' & dom' & Hin & Hk' & Hd)].
    - apply Hcal' in H as [H|H]; [by left|]. right. exists k, dom_data.
      split; [by left | done].
    - right. exists k', dom'. split; [by right | done]. }
  assert (Hupd : forall o', update_all calendar_days dom_data !! key = Some o' ->
                   calendar_days !! key = Some o' \/ dom_data !! key = Some o').
  { intros o'. rewrite update_all_union. intros [H | [_ H]]%lookup_union_Some_raw; eauto. }
  case_bool_decide as Hemp.
  - apply Hrest. eauto.
  - destruct (Nat.min 3 total <=? size (update_all calendar_days dom_data))%nat.
    + intros H. apply Hupd in H as [H|H]; [by left|]. right. exists k, dom_data.
      split; [by left | done].
    + by apply Hrest.
Qed.

Lemma retry_keeps_keys page total attempts :
  forall (calendar_days : calendar) key,
  is_Some (calendar_days !! key) ->
  is_Some (retry_extraction page total attempts calendar_days !! key).
Proof.
  induction attempts as [|k attempts IH]; intros calendar_days key Hkey;
    cbn [retry_extraction]; [done|].
  destruct (_extract_calendar_from_dom page k) as [dom_data|e]; [|done].
  assert (Hupd : is_Some (update_all calendar_days dom_data !! key)).
  { rewrite update_all_union. destruct Hkey as [o Ho].
    destruct (dom_data !! key) as [o'|] eqn:E.
    - exists o'. by apply lookup_union_Some_l.
    - exists o. rewrite lookup_union_r; done. }
  case_bool_decide as Hemp; [by apply IH|].
  destruct (Nat.min 3 total <=? size (update_all calendar_days dom_data))%nat;
    [done | by apply IH].
Qed.

Lemma collect_provenance page u total key o :
  collect_calendar_days page u total !! key = Some o ->
  exists k (dom_data : calendar),
    (k < 3)%nat /\ _extract_calendar_from_dom page k = Ok dom_data
    /\ dom_data !! key = Some o.
Proof.
  unfold collect_calendar_days. destruct (open_calendar page u); [|by rewrite lookup_empty].
  intros H. apply retry_provenance in H as [H | (k & dom_data & Hin & Hk & Hd)].
  - by rewrite lookup_empty in H.
  - exists k, dom_data. split; [|done]. apply in_seq in Hin. lia.
Qed.

Lemma collect_first_sufficient (page : Page) (u : pystr) (total : nat) (dom0 : calendar) :
  is_ok (open_calendar page u) = true ->
  _extract_calendar_from_dom page 0 = Ok dom0 ->
  dom0 <> ∅ -> (Nat.min 3 total <= size dom0)%nat ->
  collect_calendar_days page u total = dom0.
Proof.
  intros Hopen Hdom Hne Hsize. unfold collect_calendar_days.
  destruct (open_calendar page u); [|done]. cbn [seq retry_extraction].
  rewrite Hdom, bool_decide_eq_false_2 by done.
  rewrite update_all_union, (right_id_L ∅ (∪)).
  by apply Nat.leb_le in Hsize as ->.
Qed.

(** X7. The retry loop stops at the first extraction after which at least
    min(3, window size) dates are known. When the first extraction already
    returns that many, the collected dictionary is exactly that extraction;
    when it returns fewer and the second brings the total to that many, it is
    the second laid over the first, the second winning on common dates. The
    later surfaces are then never read. *)
Theorem retry_stops_early (page : Page) (u : pystr) (total : nat) :
  is_ok (open_calendar page u) = true ->
  (forall dom0 : calendar,
      _extract_calendar_from_dom page 0 = Ok dom0 ->
      dom0 <> ∅ -> (Nat.min 3 total <= size dom0)%nat ->
      collect_calendar_days page u total = dom0)
  /\ (forall dom0 dom1 : calendar,
      _extract_calendar_from_dom page 0 = Ok dom0 ->
      (size dom0 < Nat.min 3 total)%nat ->
      _extract_calendar_from_dom page 1 = Ok dom1 ->
      dom1 <> ∅ -> (Nat.min 3 total <= size (dom1 ∪ dom0))%nat ->
      collect_calendar_days page u total = dom1 ∪ dom0).
Proof.
  intros Hopen. split; [intros dom0; by apply collect_first_sufficient|].
  unfold collect_calendar_days.
  destruct (open_calendar page u); [|done]. cbn [seq retry_extraction].
  intros dom0 dom1 -> Hsize0 -> Hne1 Hsize1.
  apply Nat.leb_le in Hsize1. apply Nat.leb_gt in Hsize0.
  case_bool_decide as H0.
  - subst dom0. rewrite bool_decide_eq_false_2 by done.
    rewrite update_all_union. by rewrite Hsize1.
  - rewrite update_all_union, (right_id_L ∅ (∪)), Hsize0.
    rewrite bool_decide_eq_false_2 by done.
    rewrite update_all_union. by rewrite Hsize1.
Qed.

Lemma retry_stops_early_witness :
  collect_calendar_days november_page [] 30
  = calendar_script (surface_of november_cells).
Proof.
  apply (proj1 (retry_stops_early november_page [] 30 eq_refl));
    [reflexivity | | vm_compute; lia].
  intros H. apply (f_equal (fun m : calendar => m !! py "2026-11-05")) in H.
  vm_compute in H. discriminate.
Defined.

(** X8. Every entry of the dictionary the procedure collects was returned,
    as it stands, by one of at most three runs of the calendar script, and a
    date that once entered the dictionary stays in it through the later
    runs: retries can change a date's observation but never lose a date. *)
Theorem collected_entries_provenance (page : Page) (u : pystr) (total : nat) :
  (forall key o,
      collect_calendar_days page u total !! key = Some o ->
      exists k (dom_data : calendar),
        (k < 3)%nat /\ _extract_calendar_from_dom page k = Ok dom_data
        /\ dom_data !! key = Some o)
  /\ (forall attempts (calendar_days : calendar) key,
      is_Some (calendar_days !! key) ->
      is_Some (retry_extraction page total attempts calendar_days !! key)).
Proof.
  split; [apply collect_provenance|].
  intros attempts calendar_days key. apply retry_keeps_keys.
Qed.

Lemma collected_entries_provenance_witness :
  is_Some (retry_extraction flickering_page 30 (seq 0 3)
             {[ py "2026-11-09" := {| obs_price := Some 80%Q; obs_available := true |} ]}
           !! py "2026-11-09").
Proof.
  apply (proj2 (collected_entries_provenance flickering_page [] 30)).
  vm_compute. eauto.
Defined.

(** ** What the single-hotel procedure emits *)

Section EmittedSnapshots.

Variable strftime : date -> pystr -> pystr.

(** X9. Every snapshot the procedure returns carries the hotel's id and the
    currency EUR, is keyed by the formatted date of one of the window's
    entries, and any price it shows is at least 10. *)
Theorem emitted_snapshots_well_formed (page : Page) (hotel : Hotel)
    (dates : list date) (out : list Snapshot) :
  scrape_hotel_with_page strftime page hotel dates = Ok out ->
  Forall (fun s =>
            hotelId s = id hotel
            /\ currency s = py "EUR"
            /\ (exists d, d ∈ dates /\ dateCheckin s = strftime d DATE_FMT)
            /\ (forall p, price s = Some p -> (10 <= p)%Q)) out.
Proof.
  intros Hout.
  assert (Hne : dates <> []) by (intros ->; discriminate Hout).
  destruct (scrape_hotel_with_page_returns strftime page hotel dates Hne) as [u Hret].
  rewrite Hret in Hout. injection Hout as <-.
  apply Forall_forall. intros s Hs. rewrite sorted_perm in Hs.
  apply list_elem_of_fmap in Hs as (d & -> & Hd).
  split; [done|]. split; [done|]. split; [by exists d|].
  intros p Hp. unfold make_snapshot in Hp. simpl in Hp.
  destruct (collect_calendar_days page u (length dates) !! strftime d DATE_FMT)
    as [o|] eqn:Ho; [|done].
  apply collect_provenance in Ho as (k & dom_data & _ & Hk & Hdom).
  destruct (extract_entries page k dom_data _ o Hk Hdom) as [_ Hsound].
  unfold observation_sound in Hsound. rewrite Hp in Hsound. tauto.
Qed.

(** X10. End to end for a single offset for which today + offset and the
    day after it are dates: when the calendar opens and its first reading
    holds an available price for today + offset, the procedure run on the
    window of that one offset returns exactly one snapshot, for that date,
    available, with that price. *)
Theorem single_offset_end_to_end (page : Page) (hotel : Hotel) (today offset : Z)
    (surface : Surface) (p : Q) :
  offsets_in_range today [offset] ->
  is_date (today + offset + 1) ->
  (forall u, is_ok (open_calendar page u) = true) ->
  evaluate_calendar page 0 = Ok surface ->
  calendar_script surface !! strftime (today + offset) DATE_FMT
  = Some {| obs_price := Some p; obs_available := true |} ->
  scrape_hotel_with_page strftime page hotel (get_dates_from_offsets today [offset])
  = Ok [ {| hotelId := id hotel;
            dateCheckin := strftime (today + offset) DATE_FMT;
            price := Some p;
            currency := py "EUR";
            available := true |} ].
Proof.
  intros _ _ Hopen Hsurface Hkey.
  change (get_dates_from_offsets today [offset]) with [today + offset].
  unfold scrape_hotel_with_page. cbn [head last length].
  set (u := url hotel ++ _).
  assert (Hdom : _extract_calendar_from_dom page 0 = Ok (calendar_script surface)).
  { unfold _extract_calendar_from_dom. by rewrite Hsurface. }
  assert (Hne : calendar_script surface <> ∅).
  { intros He. rewrite He, lookup_empty in Hkey. done. }
  rewrite (collect_first_sufficient page u 1 (calendar_script surface) (Hopen u) Hdom Hne).
  - cbn [map sorted foldr insert_by]. unfold make_snapshot. by rewrite Hkey.
  - apply map_size_non_empty_iff in Hne. simpl. lia.
Qed.

(** X11. The procedure returns one snapshot per entry of a non-empty
    window whose last date has a next day, duplicates included: the returned
    keys are the window's formatted dates with their multiplicities, so a
    window that lists a date twice (as the offsets [o; o] give, when today + o
    and the day after it are dates) yields the same snapshot twice. *)
Theorem duplicate_dates_duplicate_snapshots (page : Page) (hotel : Hotel) :
  (forall dates : list date,
      dates <> [] -> window_in_range dates ->
      exists out,
        scrape_hotel_with_page strftime page hotel dates = Ok out
        /\ length out = length dates
        /\ map dateCheckin out ≡ₚ map (fun d => strftime d DATE_FMT) dates)
  /\ (forall today offset : Z,
      offsets_in_range today [offset; offset] ->
      is_date (today + offset + 1) ->
      exists s,
        scrape_hotel_with_page strftime page hotel
          (get_dates_from_offsets today [offset; offset])
        = Ok [s; s]
        /\ dateCheckin s = strftime (today + offset) DATE_FMT).
Proof.
  split.
  - intros dates Hne _.
    destruct (scrape_hotel_with_page_full strftime page hotel dates Hne)
      as (out & Hout & Hlen & Hperm & _).
    by exists out.
  - intros today offset _ _.
    assert (Hw : get_dates_from_offsets today [offset; offset]
                 = [today + offset; today + offset]).
    { unfold get_dates_from_offsets. cbn [sorted foldr insert_by].
      by destruct (offset <=? offset). }
    rewrite Hw.
    destruct (scrape_hotel_with_page_returns strftime page hotel
                [today + offset; today + offset]) as [u ->]; [done|].
    exists (make_snapshot strftime hotel
              (collect_calendar_days page u 2) (today + offset)).
    split; [|reflexivity].
    cbn [map sorted foldr insert_by length]. by destruct (by_dateCheckin _ _).
Qed.

End EmittedSnapshots.

Lemma emitted_snapshots_well_formed_witness :
  Forall (fun s =>
            hotelId s = id hotel_a
            /\ currency s = py "EUR"
            /\ (exists d, d ∈ get_next_30_days TODAY (Some 3)
                          /\ dateCheckin s = iso_strftime d DATE_FMT)
            /\ (forall p, price s = Some p -> (10 <= p)%Q))
    (snapshots_or_nil
       (scrape_hotel_with_page iso_strftime november_page hotel_a
          (get_next_30_days TODAY (Some 3)))).
Proof.
  destruct (scrape_hotel_with_page iso_strftime november_page hotel_a
              (get_next_30_days TODAY (Some 3))) as [out|e] eqn:E.
  - apply (emitted_snapshots_well_formed iso_strftime november_page hotel_a
             (get_next_30_days TODAY (Some 3)) out E).
  - constructor.
Defined.

Lemma single_offset_end_to_end_witness :
  scrape_hotel_with_page iso_strftime november_page hotel_a
    (get_dates_from_offsets TODAY [4])
  = Ok [ {| hotelId := py "h-a"; dateCheckin := py "2026-11-08"; price := Some 99%Q;
            currency := py "EUR"; available := true |} ].
Proof.
  apply (single_offset_end_to_end iso_strftime november_page hotel_a TODAY 4
           (surface_of november_cells) 99%Q).
  - unfold offsets_in_range, is_date, MIN_ORDINAL, MAX_ORDINAL, TODAY.
    split; [lia | repeat constructor; lia].
  - unfold is_date, MIN_ORDINAL, MAX_ORDINAL, TODAY. lia.
  - intros u. reflexivity.
  - reflexivity.
  - vm_compute. reflexivity.
Defined.

Lemma duplicate_dates_duplicate_snapshots_witness :
  exists out,
    scrape_hotel_with_page iso_strftime november_page hotel_a [739925; 739925; 739926]
    = Ok out /\ length out = 3%nat.
Proof.
  destruct (proj1 (duplicate_dates_duplicate_snapshots iso_strftime november_page hotel_a)
              [739925; 739925; 739926]) as (out & Hout & Hlen & _).
  - discriminate.
  - unfold window_in_range, is_date, MIN_ORDINAL, MAX_ORDINAL. simpl.
    split; [repeat constructor; lia | lia].
  - by exists out.
Defined.

(** ** The merge of a [days] list, beyond single dates *)

Lemma last_day_for_Some key days d :
  last_day_for key days = Some d -> d ∈ days /\ checkin d = Some key.
Proof.
  induction days as [|d0 days IH]; simpl; [done|].
  destruct (last_day_for key days) as [d'|].
  - intros [= <-]. destruct IH as [Hin Hc]; [done|]. split; [by right | done].
  - case_bool_decide as Hc; [|done]. intros [= <-]. split; [by left | done].
Qed.

Lemma last_day_for_None key days :
  last_day_for key days = None <-> forall d, d ∈ days -> checkin d <> Some key.
Proof.
  induction days as [|d0 days IH]; simpl.
  - split; [|done]. intros _ d Hd. by apply elem_of_nil in Hd.
  - destruct (last_day_for key days) as [d'|] eqn:E.
    + split; [done|]. intros H. apply last_day_for_Some in E as [Hin Hc].
      exfalso. apply (H d'); [by right | done].
    + case_bool_decide as Hc.
      * split; [done|]. intros H. exfalso. apply (H d0); [by left | done].
      * split; [|done]. intros _ d Hd. apply elem_of_cons in Hd as [->|Hd]; [done|].
        by apply IH.
Qed.

Lemma merge_days_empty_key days : forall calendar_days : calendar,
  _merge_days_into calendar_days days !! ([] : pystr) = calendar_days !! ([] : pystr).
Proof.
  unfold _merge_days_into.
  induction days as [|d days IH]; intros calendar_days; simpl; [done|].
  rewrite IH, merge_day_eq. destruct (checkin d) as [[|c k]|]; try done.
  by rewrite lookup_insert_ne.
Qed.

Lemma day_observation_in_range d : priced_in_range (day_observation d).
Proof.
  unfold priced_in_range, day_observation. cbn [obs_price obs_available].
  destruct (day_available d) as [[|]|]; try done.
  destruct (_parse_avg_price
              (Some (strip match avgPriceFormatted d with Some f => f | None => [] end)))
    as [p|] eqn:E; [|done]. cbn [andb].
  apply parse_avg_price_Some in E as [Hlo Hhi]. split; [done|]. split.
  - by apply Qle_bool_iff.
  - apply Qnot_le_lt. intros Hle. apply Qle_bool_iff in Hle. congruence.
Qed.

(** X12. Properties of a whole merge. If every price already in the
    dictionary comes with [available] true and lies in [10, 10000), the same
    holds after merging any list; nothing is ever written under the empty
    key; the dates known afterwards are those known before and the non-empty
    check-in values of the list; and merging the same list a second time
    changes nothing. *)
Theorem merged_dictionary_invariant :
  (forall (calendar_days : calendar) (days : list Day),
      map_Forall (fun _ o => priced_in_range o) calendar_days ->
      map_Forall (fun _ o => priced_in_range o) (_merge_days_into calendar_days days))
  /\ (forall (calendar_days : calendar) (days : list Day),
      _merge_days_into calendar_days days !! ([] : pystr) = calendar_days !! ([] : pystr))
  /\ (forall (calendar_days : calendar) (days : list Day) (key : pystr),
      is_Some (_merge_days_into calendar_days days !! key)
      <-> is_Some (calendar_days !! key)
          \/ (key <> [] /\ exists d, d ∈ days /\ checkin d = Some key))
  /\ (forall (calendar_days : calendar) (days : list Day),
      _merge_days_into (_merge_days_into calendar_days days) days
      = _merge_days_into calendar_days days).
Proof.
  split; [|split; [|split]].
  - intros calendar_days days Hall key o Ho.
    destruct (decide (key = [])) as [->|Hkey].
    + rewrite merge_days_empty_key in Ho. by apply (Hall [] o).
    + rewrite merge_days_lookup in Ho by done.
      destruct (last_day_for key days) as [d|].
      * injection Ho as <-. apply day_observation_in_range.
      * by apply (Hall key o).
  - intros calendar_days days. apply merge_days_empty_key.
  - intros calendar_days days key.
    destruct (decide (key = [])) as [->|Hkey].
    + rewrite merge_days_empty_key. split; [by left|]. by intros [H|[H _]].
    + rewrite merge_days_lookup by done.
      destruct (last_day_for key days) as [d|] eqn:E.
      * apply last_day_for_Some in E as [Hin Hc].
        split; [|by eexists]. intros _. right. split; [done|]. by exists d.
      * split; [by left|]. intros [H|[_ (d & Hd & Hc)]]; [done|].
        exfalso. by apply (proj1 (last_day_for_None key days) E d).
  - intros calendar_days days. apply map_eq. intros key.
    destruct (decide (key = [])) as [->|Hkey].
    + by rewrite !merge_days_empty_key.
    + rewrite (merge_days_lookup days (_merge_days_into calendar_days days)) by done.
      rewrite (merge_days_lookup days calendar_days) by done.
      by destruct (last_day_for key days).
Qed.

Lemma merged_dictionary_invariant_witness :
  map_Forall (fun _ o => priced_in_range o)
    (_merge_days_into ∅ [day_unavailable; day_priced]).
Proof.
  apply (proj1 merged_dictionary_invariant ∅ [day_unavailable; day_priced]).
  apply map_Forall_empty.
Defined.

(** ** Extraction from a response body *)

Lemma find_calendar_days_truthy obj l :
  _find_calendar_days obj = Some l -> l <> [].
Proof.
  rewrite find_is_first_days_list. intros H.
  apply first_days_list_accepted in H as [_ Hok]. by destruct l.
Qed.

(** X13. The emptiness guard of [_extract_calendar_from_body] changes
    nothing: for every body the function returns what the recursive search
    returns on it (nothing for a missing body), and a list it returns is
    never empty, so that the caller's truth test on the result separates
    exactly found from not found. *)
Theorem extract_from_body_is_search :
  _extract_calendar_from_body None = None
  /\ (forall body : json,
        _extract_calendar_from_body (Some body) = _find_calendar_days body)
  /\ (forall (body : option json) (l : list json),
        _extract_calendar_from_body body = Some l -> l <> [])
  /\ (forall body : option json,
        truthy (_extract_calendar_from_body body)
        = bool_decide (_extract_calendar_from_body body <> None)).
Proof.
  assert (Hsearch : forall body : json,
             _extract_calendar_from_body (Some body) = _find_calendar_days body).
  { intros [ | | | | |[|f fields]]; reflexivity. }
  assert (Hne : forall (body : option json) (l : list json),
             _extract_calendar_from_body body = Some l -> l <> []).
  { intros [body|] l; [|done]. rewrite Hsearch. apply find_calendar_days_truthy. }
  split; [done|]. split; [done|]. split; [done|].
  intros body. destruct (_extract_calendar_from_body body) as [l|] eqn:E.
  - rewrite bool_decide_eq_true_2 by done. apply Hne in E. by destruct l.
  - by rewrite bool_decide_eq_false_2 by (intros H; by apply H).
Qed.

Lemma extract_from_body_is_search_witness :
  _extract_calendar_from_body (Some payload_two)
  = Some [ JDict [ (py "checkin", JStr (py "2026-11-05")) ] ]
  /\ [ JDict [ (py "checkin", JStr (py "2026-11-05")) ] ] <> [].
Proof.
  assert (H : _extract_calendar_from_body (Some payload_two)
              = Some [ JDict [ (py "checkin", JStr (py "2026-11-05")) ] ])
    by reflexivity.
  split; [exact H|].
  exact (proj1 (proj2 (proj2 extract_from_body_is_search)) (Some payload_two) _ H).
Defined.

(** ** The dispatcher and the strategies on whole runs *)

Lemma Sorted_le_leb (l : list Z) :
  Sorted Z.le l -> Sorted (fun a b => (a <=? b) = true) l.
Proof.
  induction 1 as [|x l Hs IH Hhd]; constructor; [done|].
  destruct Hhd; constructor. lia.
Qed.

Lemma run_window_sorted today max_dates_per_hotel date_offsets :
  sorted Z.leb (run_window today max_dates_per_hotel date_offsets)
  = run_window today max_dates_per_hotel date_offsets.
Proof.
  apply sorted_id, Sorted_le_leb. destruct date_offsets as [offsets|]; simpl.
  - apply offsets_window_Sorted.
  - rewrite get_next_30_days_eq.
    eapply Sorted_ind with (P := fun l' => Sorted Z.le l');
      [constructor | |
       apply StronglySorted_Sorted, (range_strictly_ascending (today + 1) 0)].
    intros a l' _ IH Hhd. constructor; [done|]. destruct Hhd; constructor. lia.
Qed.

Lemma filter_all_true {A} (p : A -> bool) (l : list A) :
  (forall x, x ∈ l -> p x = true) -> List.filter p l = l.
Proof.
  induction l as [|x l IH]; intros H; simpl; [done|].
  rewrite (H x) by left. f_equal. apply IH. intros y Hy. apply H. by right.
Qed.

Lemma filter_all_false {A} (p : A -> bool) (l : list A) :
  (forall x, x ∈ l -> p x = false) -> List.filter p l = [].
Proof.
  induction l as [|x l IH]; intros H; simpl; [done|].
  rewrite (H x) by left. apply IH. intros y Hy. apply H. by right.
Qed.

Lemma concat_all_nil {A B} (f : A -> list B) (l : list A) :
  (forall x, x ∈ l -> f x = []) -> concat (map f l) = [].
Proof.
  induction l as [|x l IH]; intros H; simpl; [done|].
  rewrite (H x) by left. apply IH. intros y Hy. apply H. by right.
Qed.

(** A run in which every recorded outcome is a failure. *)
Lemma fold_record_all_failed hotels (l : list (Hotel * Result (list Snapshot))) :
  (forall hr, hr ∈ l -> is_ok hr.2 = false) ->
  fold_left record l (init_stats hotels, [])
  = ({| total_hotels := length hotels; total_snapshots := 0; successful_hotels := 0;
        failed_hotels := length l; errors := map error_entry l |}, []).
Proof.
  intros Hall. rewrite fold_record. cbn [init_stats total_hotels total_snapshots
    successful_hotels failed_hotels errors app Nat.add].
  rewrite (filter_all_false succeeded), (filter_all_true failed).
  - rewrite concat_all_nil; [done|].
    intros [h [w|e]] Hin; [|done]. by apply Hall in Hin.
  - intros hr Hin. unfold failed. by rewrite Hall.
  - intros hr Hin. unfold succeeded. by apply Hall.
Qed.

Lemma filter_Permutation_list {A} (p : A -> bool) (l l' : list A) :
  l ≡ₚ l' -> List.filter p l ≡ₚ List.filter p l'.
Proof.
  induction 1 as [|x l l' _ IH|x y l|l l' l'' _ IH1 _ IH2]; simpl.
  - done.
  - destruct (p x); [by constructor | done].
  - destruct (p x), (p y); try done. apply perm_swap.
  - by etrans.
Qed.

Lemma concat_map_Permutation {A B} (f : A -> list B) (l l' : list A) :
  l ≡ₚ l' -> concat (map f l) ≡ₚ concat (map f l').
Proof.
  induction 1 as [|x l l' _ IH|x y l|l l' l'' _ IH1 _ IH2]; simpl.
  - done.
  - by apply Permutation_app_head.
  - rewrite !app_assoc. apply Permutation_app_tail, Permutation_app_comm.
  - by etrans.
Qed.

Lemma omap_ext_list {A B} (f g : A -> option B) (l : list A) :
  (forall x, f x = g x) -> omap f l = omap g l.
Proof. intros H. induction l as [|x l IH]; csimpl; [done|]. by rewrite H, IH. Qed.

Lemma fold_record_Permutation stats (l l' : list (Hotel * Result (list Snapshot))) :
  l ≡ₚ l' ->
  same_run_up_to_order (fold_left record l (stats, [])) (fold_left record l' (stats, [])).
Proof.
  intros Hperm. rewrite !fold_record. unfold same_run_up_to_order.
  cbn [fst snd total_hotels total_snapshots successful_hotels failed_hotels errors app].
  pose proof (concat_map_Permutation (fun hr => snapshots_or_nil hr.2) l l' Hperm) as Hc.
  pose proof (filter_Permutation_list succeeded l l' Hperm) as Hs.
  pose proof (filter_Permutation_list failed l l' Hperm) as Hf.
  split; [done|]. split; [by rewrite (Permutation_length Hc)|].
  split; [by rewrite (Permutation_length Hs)|].
  split; [by rewrite (Permutation_length Hf)|].
  split; [|done]. apply Permutation_app_head. by apply Permutation_map.
Qed.

Section WholeRuns.

Variable strftime : date -> pystr -> pystr.

(** X14. When the builder computes every date it is asked for, the
    dispatcher passes its window on as it is (sorting it again changes
    nothing), runs strategy 2 or 3 when asked for by number and strategy 1 for
    every other number, and raises only when strategy 2 is selected and the
    shared browser cannot be created. *)
Theorem dispatcher_runs_selected_strategy (env : Env) (today : date)
    (completion : list nat) (hotels : list Hotel) (max_dates_per_hotel : option Z)
    (date_offsets : option (list Z)) (strategy : Z) :
  run_in_range today date_offsets ->
  let dates := run_window today max_dates_per_hotel date_offsets in
  let fast_mode := run_fast_mode date_offsets in
  let r := scrape_multiple_hotels strftime env today completion hotels
             max_dates_per_hotel date_offsets strategy in
  r = (if strategy =? 2 then _strategy_2_shared_browser strftime env hotels dates fast_mode
       else if strategy =? 3
            then Ok (_strategy_3_parallel strftime env completion hotels dates 2)
            else Ok (_strategy_1_isolated strftime env hotels dates fast_mode))
  /\ (is_ok r = false <-> strategy = 2 /\ is_ok (create_shared_browser env) = false).
Proof.
  intros _ dates fast_mode r.
  assert (Hr : r = (if strategy =? 2
                    then _strategy_2_shared_browser strftime env hotels dates fast_mode
                    else if strategy =? 3
                         then Ok (_strategy_3_parallel strftime env completion hotels dates 2)
                         else Ok (_strategy_1_isolated strftime env hotels dates fast_mode))).
  { subst r. unfold scrape_multiple_hotels.
    fold (run_window today max_dates_per_hotel date_offsets).
    fold (run_fast_mode date_offsets).
    rewrite run_window_sorted. fold dates. fold fast_mode.
    destruct (Z.eqb_spec strategy 1) as [->|H1]; [done|].
    by destruct (strategy =? 2), (strategy =? 3). }
  split; [done|]. rewrite Hr.
  destruct (Z.eqb_spec strategy 2) as [->|H2].
  - unfold _strategy_2_shared_browser.
    destruct (create_shared_browser env); simpl; split; try done; by intros [_ ?].
  - destruct (strategy =? 3); simpl; split; try done; by intros [? _].
Qed.

(** X15. With an empty list of offsets the window is empty, and every hotel
    of the run fails: strategy 1 returns no snapshot, counts zero successes
    and as many failures as hotels, and reports for each hotel either the
    error of its session or, when the session was acquired, the index error
    raised on the empty window. *)
Theorem empty_offsets_fail_every_hotel (env : Env) (today : date)
    (completion : list nat) (hotels : list Hotel) (max_dates_per_hotel : option Z) :
  scrape_multiple_hotels strftime env today completion hotels
    max_dates_per_hotel (Some []) 1
  = Ok ({| total_hotels := length hotels; total_snapshots := 0; successful_hotels := 0;
           failed_hotels := length hotels;
           errors := map (fun ih : nat * Hotel =>
                            name ih.2 ++ py ": "
                            ++ match create_stealth_browser_full env ih.1 with
                               | Ok _ => py "list index out of range"
                               | Raise e => e
                               end) (enumerate1 hotels) |}, []).
Proof.
  unfold scrape_multiple_hotels. cbn [get_dates_from_offsets sorted foldr map Z.eqb].
  rewrite strategy_1_as_record.
  rewrite fold_record_all_failed.
  - rewrite length_submit_all. unfold submit_all. rewrite map_map.
    do 3 f_equal. apply map_ext. intros [i h]. unfold error_entry, scrape_one. simpl.
    by destruct (create_stealth_browser_full env i).
  - intros hr Hin. unfold submit_all in Hin.
    apply list_elem_of_fmap in Hin as ([i h] & -> & _). unfold scrape_one. simpl.
    by destruct (create_stealth_browser_full env i).
Qed.

(** X16. Strategy 3 differs from strategy 1 only by order: when every
    submitted hotel completes once, its counters equal those of strategy 1 on
    the same hotels and window, and its snapshots and error entries are those
    of strategy 1 up to a permutation; when the workers complete in submission
    order the two results are equal. *)
Theorem parallel_agrees_with_isolated (env : Env) (completion : list nat)
    (hotels : list Hotel) (dates : list date) (max_workers : nat) (fast_mode : bool) :
  completion ≡ₚ seq 0 (length hotels) ->
  same_run_up_to_order
    (_strategy_3_parallel strftime env completion hotels dates max_workers)
    (_strategy_1_isolated strftime env hotels dates fast_mode)
  /\ (completion = seq 0 (length hotels) ->
      _strategy_3_parallel strftime env completion hotels dates max_workers
      = _strategy_1_isolated strftime env hotels dates fast_mode).
Proof.
  intros Hperm. rewrite strategy_3_as_record, strategy_1_as_record. split.
  - apply fold_record_Permutation, completion_order_perm.
    by rewrite length_submit_all.
  - intros ->. rewrite <- (length_submit_all strftime env dates hotels).
    by rewrite omap_lookup_all.
Qed.

Lemma shared_one_as_scrape_one (browser : Browser) (dates : list date)
    (hotel : Hotel) (i : nat) :
  shared_one strftime browser dates hotel i
  = scrape_one strftime (tabs_as_sessions browser) dates hotel i.
Proof.
  unfold shared_one, scrape_one, tabs_as_sessions. simpl.
  destruct (1 <? i)%nat; [|done]. by destruct (context_new_page browser i).
Qed.

Lemma tabs_acquired (browser : Browser) (i : nat) :
  is_ok (create_stealth_browser_full (tabs_as_sessions browser) i) = tab_opened browser i.
Proof.
  unfold tabs_as_sessions, tab_opened. simpl.
  destruct (1 <? i)%nat; [|done]. by destruct (context_new_page browser i).
Qed.

(** Strategy 2, once its browser is created, is strategy 1 on the tabs. *)
Lemma shared_run_is_isolated (env : Env) (browser : Browser) (hotels : list Hotel)
    (dates : list date) (fast_mode : bool) :
  create_shared_browser env = Ok browser ->
  _strategy_2_shared_browser strftime env hotels dates fast_mode
  = Ok (_strategy_1_isolated strftime (tabs_as_sessions browser) hotels dates fast_mode).
Proof.
  intros Hb. rewrite (strategy_2_as_record strftime env browser) by done.
  rewrite strategy_1_as_record. unfold submit_all. do 2 f_equal.
  apply map_ext. intros [i h]. simpl. by rewrite shared_one_as_scrape_one.
Qed.

(** Strategy 1 on a non-empty window: a hotel fails exactly when its session
    is not acquired. *)
Lemma isolated_run_accounting (env : Env) (hotels : list Hotel) (dates : list date)
    (fast_mode : bool) :
  dates <> [] ->
  let r := _strategy_1_isolated strftime env hotels dates fast_mode in
  let acquired := fun ih : nat * Hotel =>
                    is_ok (create_stealth_browser_full env ih.1) in
  failed_hotels r.1
  = length (List.filter (fun ih => negb (acquired ih)) (enumerate1 hotels))
  /\ successful_hotels r.1 = length (List.filter acquired (enumerate1 hotels))
  /\ errors r.1
     = omap (fun ih => match create_stealth_browser_full env ih.1 with
                       | Ok _ => None
                       | Raise e => Some (name ih.2 ++ py ": " ++ e)
                       end) (enumerate1 hotels)
  /\ total_snapshots r.1 = (successful_hotels r.1 * length dates)%nat
  /\ length r.2 = total_snapshots r.1.
Proof.
  intros Hne r acquired. subst r.
  rewrite strategy_1_as_record, fold_record. unfold submit_all.
  destruct (isolated_accounting strftime env dates (enumerate1 hotels) Hne)
    as (Hs & Hf & He & Hc).
  cbn [fst snd failed_hotels successful_hotels errors total_snapshots init_stats].
  rewrite Hs, Hf, He, Hc. by repeat split.
Qed.

(** The same on the tabs of a shared browser: a hotel fails exactly when its
    tab cannot be opened, and the first hotel needs no tab. *)
Lemma tabs_run_accounting (browser : Browser) (hotels : list Hotel) (dates : list date)
    (fast_mode : bool) :
  dates <> [] ->
  let r := _strategy_1_isolated strftime (tabs_as_sessions browser) hotels dates fast_mode in
  successful_hotels r.1
  = length (List.filter (fun ih : nat * Hotel => tab_opened browser ih.1)
                         (enumerate1 hotels))
  /\ failed_hotels r.1
     = length (List.filter (fun ih : nat * Hotel => negb (tab_opened browser ih.1))
                           (enumerate1 hotels))
  /\ errors r.1
     = omap (fun ih : nat * Hotel =>
               if (1 <? ih.1)%nat
               then match context_new_page browser ih.1 with
                    | Ok _ => None
                    | Raise e => Some (name ih.2 ++ py ": " ++ e)
                    end
               else None) (enumerate1 hotels)
  /\ total_snapshots r.1 = (successful_hotels r.1 * length dates)%nat
  /\ length r.2 = total_snapshots r.1
  /\ (hotels <> [] -> (1 <= successful_hotels r.1)%nat).
Proof.
  intros Hne r.
  destruct (isolated_run_accounting (tabs_as_sessions browser) hotels dates fast_mode Hne)
    as (Hf & Hs & He & Ht & Hl).
  fold r in Hf, Hs, He, Ht, Hl.
  rewrite (List.filter_ext _ (fun ih : nat * Hotel => tab_opened browser ih.1))
    in Hs by (intros [i h]; apply tabs_acquired).
  rewrite (List.filter_ext
             (fun ih : nat * Hotel =>
                negb (is_ok (create_stealth_browser_full (tabs_as_sessions browser) ih.1)))
             (fun ih : nat * Hotel => negb (tab_opened browser ih.1)))
    in Hf by (intros [i h]; by rewrite tabs_acquired).
  split; [done|]. split; [done|]. split; [|split; [done|split; [done|]]].
  - rewrite He. apply omap_ext_list. intros [i h]. unfold tabs_as_sessions. simpl.
    destruct (1 <? i)%nat; [|done]. by destruct (context_new_page browser i).
  - intros Hh. rewrite Hs. destruct hotels as [|h hotels]; [done|].
    cbn [enumerate1 length seq combine List.filter fst tab_opened Nat.ltb Nat.leb].
    simpl. lia.
Qed.

(** X17. Strategy 2 is strategy 1 run on the tabs of the shared browser: the
    first hotel works on the browser's first page, each later hotel on the tab
    opened for it. So, on a non-empty window whose last date has a next day, a
    hotel fails exactly when its tab cannot be opened, with one error entry
    naming it; every other hotel contributes its full window; and the first
    hotel always succeeds. *)
Theorem shared_browser_as_isolated_tabs (env : Env) (browser : Browser)
    (hotels : list Hotel) (dates : list date) (fast_mode : bool) :
  create_shared_browser env = Ok browser ->
  let r := _strategy_1_isolated strftime (tabs_as_sessions browser) hotels dates fast_mode in
  _strategy_2_shared_browser strftime env hotels dates fast_mode = Ok r
  /\ (dates <> [] -> window_in_range dates ->
      successful_hotels r.1
      = length (List.filter (fun ih : nat * Hotel => tab_opened browser ih.1)
                             (enumerate1 hotels))
      /\ failed_hotels r.1
         = length (List.filter (fun ih : nat * Hotel => negb (tab_opened browser ih.1))
                               (enumerate1 hotels))
      /\ errors r.1
         = omap (fun ih : nat * Hotel =>
                   if (1 <? ih.1)%nat
                   then match context_new_page browser ih.1 with
                        | Ok _ => None
                        | Raise e => Some (name ih.2 ++ py ": " ++ e)
                        end
                   else None) (enumerate1 hotels)
      /\ total_snapshots r.1 = (successful_hotels r.1 * length dates)%nat
      /\ (hotels <> [] -> (1 <= successful_hotels r.1)%nat)).
Proof.
  intros Hb r. split; [by apply shared_run_is_isolated|].
  intros Hne _.
  destruct (tabs_run_accounting browser hotels dates fast_mode Hne)
    as (Hs & Hf & He & Ht & _ & Hfirst).
  by repeat split.
Qed.

End WholeRuns.

Lemma dispatcher_runs_selected_strategy_witness :
  is_ok (scrape_multiple_hotels iso_strftime env_no_shared_browser TODAY []
           [hotel_a; hotel_b] None (Some [30]) 2) = false.
Proof.
  apply (dispatcher_runs_selected_strategy iso_strftime env_no_shared_browser TODAY []
           [hotel_a; hotel_b] None (Some [30]) 2).
  - unfold run_in_range, offsets_in_range, is_date, MIN_ORDINAL, MAX_ORDINAL, TODAY.
    split; [lia | repeat constructor; lia].
  - split; reflexivity.
Defined.

Lemma parallel_agrees_with_isolated_witness :
  same_run_up_to_order
    (_strategy_3_parallel iso_strftime env_navigation_fails [2; 0; 1]%nat
       [hotel_a; hotel_b; hotel_c] (get_next_30_days TODAY (Some 2)) 2)
    (_strategy_1_isolated iso_strftime env_navigation_fails
       [hotel_a; hotel_b; hotel_c] (get_next_30_days TODAY (Some 2)) false).
Proof.
  apply (parallel_agrees_with_isolated iso_strftime env_navigation_fails [2; 0; 1]%nat
           [hotel_a; hotel_b; hotel_c] (get_next_30_days TODAY (Some 2)) 2 false).
  apply (bool_decide_unpack _). vm_compute. reflexivity.
Defined.

Lemma shared_browser_as_isolated_tabs_witness :
  _strategy_2_shared_browser iso_strftime env_session_fails
    [hotel_a; hotel_b; hotel_c] (get_next_30_days TODAY (Some 3)) false
  = Ok (_strategy_1_isolated iso_strftime
          (tabs_as_sessions
             {| page := november_page;
                context_new_page := fun i =>
                  if (i =? 2)%nat then Raise (py "Target closed") else Ok november_page |})
          [hotel_a; hotel_b; hotel_c] (get_next_30_days TODAY (Some 3)) false).
Proof.
  apply (shared_browser_as_isolated_tabs iso_strftime env_session_fails
           {| page := november_page;
              context_new_page := fun i =>
                if (i =? 2)%nat then Raise (py "Target closed") else Ok november_page |}
           [hotel_a; hotel_b; hotel_c] (get_next_30_days TODAY (Some 3)) false).
  reflexivity.
Defined.

(** ** Navigation failures and failed sessions, in every strategy *)

Section NavigationFailure.

Variable strftime : date -> pystr -> pystr.




End NavigationFailure.


(** ** The single-hotel entry point *)

Lemma run_window_default_length today max_dates :
  length (run_window today max_dates None) = requested_cap max_dates.
Proof.
  simpl. rewrite get_next_30_days_eq. by rewrite length_map, length_seq.
Qed.

Section EntryPoint.

Variable strftime : date -> pystr -> pystr.

(** X18. When the builder computes every date it is asked for and the last
    date of its window has a next day, [scrape_hotel_prices] raises exactly
    when the browser cannot be created or the window is empty, and otherwise
    returns what the single-hotel procedure returns on the builder's window:
    the second sort and the closing message change nothing. The browser is
    closed exactly when it was created, also when the procedure raises. On
    the default window a created browser always gives as many snapshots as
    the cap asks for (30 without a positive cap). *)
Theorem single_hotel_entry_point (create_stealth_browser : Result Page) (today : date)
    (hotel : Hotel) (max_dates : option Z) (date_offsets : option (list Z)) :
  run_in_range today date_offsets ->
  window_in_range (run_window today max_dates date_offsets) ->
  let r := scrape_hotel_prices strftime create_stealth_browser today hotel
             max_dates date_offsets in
  let dates := run_window today max_dates date_offsets in
  r.2 = (page ← create_stealth_browser; scrape_hotel_with_page strftime page hotel dates)
  /\ r.1 = CreateBrowser :: (if is_ok create_stealth_browser then [CloseBrowser] else [])
  /\ (is_ok r.2 = true <-> is_ok create_stealth_browser = true /\ dates <> [])
  /\ (date_offsets = None -> is_ok create_stealth_browser = true ->
      exists snapshots, r.2 = Ok snapshots
                        /\ length snapshots = requested_cap max_dates).
Proof.
  intros _ _ r dates.
  assert (Hr : r = match create_stealth_browser with
                   | Raise e => ([CreateBrowser], Raise e)
                   | Ok page =>
                       ([CreateBrowser; CloseBrowser],
                        scrape_hotel_with_page strftime page hotel dates)
                   end).
  { subst r. unfold scrape_hotel_prices.
    fold (run_window today max_dates date_offsets). rewrite run_window_sorted. fold dates.
    destruct create_stealth_browser as [page|e]; [|done].
    destruct dates as [|d0 dates0] eqn:E; [done|].
    destruct (scrape_hotel_with_page_returns strftime page hotel (d0 :: dates0))
      as [u ->]; [done|].
    cbn [head]. destruct (last (d0 :: dates0)) eqn:El; [done|].
    by apply last_None in El. }
  rewrite Hr. destruct create_stealth_browser as [page|e]; simpl.
  - split; [done|]. split; [done|]. split.
    + split.
      * intros Hok. split; [done|]. intros Hd. rewrite Hd in Hok. done.
      * intros [_ Hne].
        by destruct (scrape_hotel_with_page_full strftime page hotel dates Hne)
          as (w & -> & _).
    + intros -> _.
      destruct (scrape_hotel_with_page_full strftime page hotel dates) as (w & Hw & Hlen & _).
      * subst dates. intros Hd. pose proof (run_window_default_length today max_dates) as Hl.
        rewrite Hd in Hl. pose proof (requested_cap_pos max_dates). simpl in Hl. lia.
      * exists w. split; [done|]. rewrite Hlen. apply run_window_default_length.
  - split; [done|]. split; [done|]. split; [|done]. split; [done|]. by intros [? _].
Qed.

End EntryPoint.

Lemma single_hotel_entry_point_witness :
  exists snapshots,
    (scrape_hotel_prices iso_strftime (Ok november_page) TODAY hotel_a (Some 3) None).2
    = Ok snapshots
    /\ length snapshots = requested_cap (Some 3).
Proof.
  apply (single_hotel_entry_point iso_strftime (Ok november_page) TODAY hotel_a
           (Some 3) None).
  - unfold run_in_range, default_in_range, is_date, MIN_ORDINAL, MAX_ORDINAL, TODAY. lia.
  - change (run_window TODAY (Some 3) None) with [739925; 739926; 739927].
    unfold window_in_range, is_date, MIN_ORDINAL, MAX_ORDINAL. simpl.
    split; [repeat constructor; lia | lia].
  - reflexivity.
  - reflexivity.
Defined.

(** ** The scheduled run *)

Lemma take_3_take_3_drop_3 {A} (l : list A) : take 3 l ++ take 3 (drop 3 l) = take 6 l.
Proof. destruct l as [|a [|b [|c l]]]; try done. Qed.

Lemma slice_to_sublist {A} (n : Z) (l : list A) : slice_to n l `sublist_of` l.
Proof. unfold slice_to. destruct (0 <=? n); apply sublist_take. Qed.

(** X19. The hotels of a scheduled run. Sessions 1 and 2 share the first six
    active hotels, three each in list order, so a seventh hotel is scraped in
    neither; any other session value takes them all. A limit of zero is no
    limit, a positive limit keeps that many hotels from the front of the
    share, and a negative limit drops that many from its end. *)
Theorem session_shares (all_hotels : list Hotel) :
  hotels_to_scrape (Some 1) None all_hotels ++ hotels_to_scrape (Some 2) None all_hotels
  = take 6 all_hotels
  /\ (forall session_number : option Z,
        session_number <> Some 1 -> session_number <> Some 2 ->
        hotels_to_scrape session_number None all_hotels = all_hotels)
  /\ (forall session_number : option Z,
        hotels_to_scrape session_number (Some 0) all_hotels
        = hotels_to_scrape session_number None all_hotels)
  /\ (forall (session_number : option Z) (n : Z),
        0 < n ->
        hotels_to_scrape session_number (Some n) all_hotels
        = take (Z.to_nat n) (hotels_to_scrape session_number None all_hotels))
  /\ (forall (session_number : option Z) (n : Z),
        n < 0 ->
        let share := hotels_to_scrape session_number None all_hotels in
        hotels_to_scrape session_number (Some n) all_hotels
        = take (length share - Z.to_nat (- n)) share)
  /\ (forall session_number hotel_limit : option Z,
        hotels_to_scrape session_number hotel_limit all_hotels
          `sublist_of` all_hotels).
Proof.
  split; [apply take_3_take_3_drop_3|]. split; [|split; [|split; [|split]]].
  - intros [[|[p|[p|p|]|]|]|] H1 H2; done.
  - done.
  - intros session_number n Hn. unfold hotels_to_scrape, slice_to.
    replace (n =? 0) with false by lia. by replace (0 <=? n) with true by lia.
  - intros session_number n Hn share. unfold hotels_to_scrape, slice_to.
    replace (n =? 0) with false by lia. by replace (0 <=? n) with false by lia.
  - intros session_number hotel_limit.
    assert (Hshare : hotels_to_scrape session_number None all_hotels
                       `sublist_of` all_hotels).
    { unfold hotels_to_scrape.
      destruct session_number as [[|[p|[p|p|]|]|]|]; try done.
      - etrans; [apply sublist_take | apply sublist_drop].
      - apply sublist_take. }
    unfold hotels_to_scrape in *. destruct hotel_limit as [n|]; [|done].
    destruct (n =? 0); [done|].
    etrans; [|exact Hshare]. apply slice_to_sublist.
Qed.

Lemma session_shares_witness :
  hotels_to_scrape (Some 2) (Some (-1)) [hotel_a; hotel_b; hotel_c; hotel_a; hotel_b]
  = [hotel_a].
Proof.
  rewrite (proj1 (proj2 (proj2 (proj2 (proj2
             (session_shares [hotel_a; hotel_b; hotel_c; hotel_a; hotel_b])))))
             (Some 2) (-1)) by lia.
  reflexivity.
Defined.

Section ScheduledRunProperties.

Variable strftime : date -> pystr -> pystr.

Lemma dispatcher_stats_consistent (env : Env) (today : date) (completion : list nat)
    (hotels : list Hotel) (max_dates_per_hotel : option Z)
    (date_offsets : option (list Z)) (strategy : Z) (r : Stats * list Snapshot) :
  strategy <> 3 ->
  scrape_multiple_hotels strftime env today completion hotels
    max_dates_per_hotel date_offsets strategy = Ok r ->
  stats_consistent hotels r.
Proof.
  intros H3. unfold scrape_multiple_hotels.
  set (dates := sorted Z.leb _).
  set (fast_mode := match date_offsets with Some [_] => true | _ => false end).
  assert (H1 : stats_consistent hotels
                 (_strategy_1_isolated strftime env hotels dates fast_mode)).
  { rewrite strategy_1_as_record. apply fold_record_consistent, length_submit_all. }
  destruct (strategy =? 1); [by intros [= <-]|].
  destruct (strategy =? 2).
  - destruct (create_shared_browser env) as [browser|e] eqn:Hb.
    + rewrite (strategy_2_as_record strftime env browser) by done. intros [= <-].
      apply fold_record_consistent. by rewrite length_map, length_enumerate1.
    + by rewrite (strategy_2_raises strftime env hotels dates fast_mode e).
  - destruct (Z.eqb_spec strategy 3); [done|]. by intros [= <-].
Qed.

Ltac run_cbn :=
  cbn -[py scrape_multiple_hotels hotels_to_scrape log_no_hotels log_success log_fatal].

Ltac no_batch_call :=
  let s := fresh "s" in let Hin := fresh "Hin" in
  intros s Hin; repeat (apply elem_of_cons in Hin as [Hin|Hin]; [by inversion Hin|]);
  by apply elem_of_nil in Hin.

(** The [except] branch, entered with the exception [e]. *)
Ltac fatal_branch db e :=
  let Hf := fresh "Hf" in
  destruct (update_scraper_log db (log_fatal (py "Erreur fatale: " ++ e)))
    as [[]|?e] eqn:Hf;
  run_cbn; (split; [done|]); (split; [no_batch_call|]);
  [ split; [done|]; intros ? [= <-]; eexists; run_cbn;
    split; [done|]; rewrite Hf; split; [done|]; right; by exists e
  | split; [|done]; intros ? [= <-]; right; by exists e ].

(** The end of the [try] body, after the log update went through. *)
Ltac success_branch Hu Hrun :=
  run_cbn; (split; [done|]); (split; [no_batch_call|]); (split; [done|]);
  intros ? [= <-]; eexists; run_cbn; (split; [done|]); rewrite Hu;
  do 5 (split; [done|]);
  let H3 := fresh "H3" in
  intros H3; do 2 eexists; (split; [done|]); (split; [reflexivity|]);
  destruct (dispatcher_stats_consistent _ _ _ _ _ _ _ _ H3 Hrun) as (? & _ & _ & Hs);
  simpl in *; split; [done | by rewrite Hs].

(** X20. The outcomes of a scheduled run. The first database call creates
    the log, and the batch write is only ever called with a non-empty list.
    The run raises only when the log cannot be created or when the update
    that records a fatal error itself fails. Whenever it returns, the last
    database call is a log update that went through: with status success and
    the number of snapshots when the run reports success, in which case
    (strategies other than 3) the reported statistics count that same number
    of snapshots and the selected hotels; otherwise either with the fatal
    message, or with the no-hotel message when no active hotel was found. *)
Theorem scheduled_run_outcomes (db : Database) (env : Env) (today : date)
    (completion : list nat)
    (session_number hotel_limit max_dates_per_hotel j_plus : option Z) (strategy : Z) :
  let r := run_price_scraping strftime db env today completion session_number
             hotel_limit max_dates_per_hotel j_plus strategy in
  head r.1 = Some CreateScraperLog
  /\ (forall snapshots, CreateRateSnapshotsBatch snapshots ∈ r.1 -> snapshots <> [])
  /\ (forall e, r.2 = Raise e ->
        create_scraper_log db = Raise e
        \/ exists msg, update_scraper_log db (log_fatal (py "Erreur fatale: " ++ msg))
                       = Raise e)
  /\ (forall report, r.2 = Ok report ->
        exists fields,
          last r.1 = Some (UpdateScraperLog fields)
          /\ is_ok (update_scraper_log db fields) = true
          /\ if success report
             then log_status fields = py "success"
                  /\ log_error fields = None
                  /\ snapshots_count report <> None
                  /\ log_snapshotsCreated fields = snapshots_count report
                  /\ (strategy <> 3 ->
                      exists stats all_hotels,
                        report_stats report = Some stats
                        /\ get_monitored_hotels db = Ok all_hotels
                        /\ total_hotels stats
                           = length (hotels_to_scrape session_number hotel_limit all_hotels)
                        /\ Some (total_snapshots stats) = snapshots_count report)
             else (fields = log_no_hotels
                   /\ message report = py "Aucun hôtel actif"
                   /\ get_monitored_hotels db = Ok [])
                  \/ (exists msg, fields = log_fatal (py "Erreur fatale: " ++ msg)
                                  /\ message report = py "Erreur fatale: " ++ msg)).
Proof.
  intros r. subst r. unfold run_price_scraping, run_price_scraping_try.
  destruct (create_scraper_log db) as [[]|e0] eqn:Hc.
  2: { run_cbn. split; [done|]. split; [no_batch_call|]. split; [|done].
       intros e [= <-]. by left. }
  destruct (get_monitored_hotels db) as [[|h all_hotels]|e1] eqn:Hg.
  - run_cbn.
    destruct (update_scraper_log db log_no_hotels) as [[]|e2] eqn:Hu.
    + run_cbn. split; [done|]. split; [no_batch_call|]. split; [done|].
      intros report [= <-]. exists log_no_hotels. run_cbn. rewrite Hu.
      split; [done|]. split; [done|]. by left.
    + run_cbn. fatal_branch db e2.
  - run_cbn.
    destruct (scrape_multiple_hotels strftime env today completion
                (hotels_to_scrape session_number hotel_limit (h :: all_hotels))
                max_dates_per_hotel
                match j_plus with Some j => Some [j] | None => None end strategy)
      as [[stats snapshots]|e2] eqn:Hrun.
    + destruct snapshots as [|s0 snapshots].
      * run_cbn.
        destruct (update_scraper_log db (log_success [])) as [[]|e3] eqn:Hu.
        -- success_branch Hu Hrun.
        -- run_cbn. fatal_branch db e3.
      * run_cbn.
        destruct (create_rate_snapshots_batch db (s0 :: snapshots)) as [saved|e3] eqn:Hb.
        -- run_cbn.
           destruct (update_scraper_log db (log_success (s0 :: snapshots)))
             as [[]|e4] eqn:Hu.
           ++ success_branch Hu Hrun.
           ++ run_cbn. fatal_branch db e4.
        -- run_cbn. fatal_branch db e3.
    + run_cbn. fatal_branch db e2.
  - run_cbn. fatal_branch db e1.
Qed.


End ScheduledRunProperties.

Lemma scheduled_run_outcomes_witness :
  let r := run_price_scraping iso_strftime db_three_hotels env_session_fails TODAY []
             (Some 1) None None (Some 4) 1 in
  exists fields,
    last r.1 = Some (UpdateScraperLog fields)
    /\ log_status fields = py "success"
    /\ log_snapshotsCreated fields = Some 2%nat.
Proof.
  intros r.
  destruct (scheduled_run_outcomes iso_strftime db_three_hotels env_session_fails TODAY []
              (Some 1) None None (Some 4) 1) as (_ & _ & _ & Hret).
  destruct (Hret match r.2 with
                 | Ok report => report
                 | Raise e => {| success := false; message := e;
                                 report_stats := None; snapshots_count := None |}
                 end) as (fields & Hlast & _ & Hs); [vm_compute; reflexivity|].
  exists fields. split; [exact Hlast|].
  vm_compute in Hs. destruct Hs as (Hstatus & _ & _ & Hcount & _).
  split; [exact Hstatus | exact Hcount].
Defined.

(** ** The two window builders together *)

Lemma sorted_Z_Permutation (l l' : list Z) :
  l ≡ₚ l' -> sorted Z.leb l = sorted Z.leb l'.
Proof.
  intros Hperm. apply (Sorted_unique Z.le); try apply sorted_Z_Sorted.
  by rewrite !sorted_perm.
Qed.

(** X21. As long as the builders compute every date they are asked for: the
    offsets window depends only on which offsets are given and how often, not
    on their order (and the reordered offsets are computed as well); the
    default window is the offsets window of 1, 2, ... up to the cap; and
    moving today by k days moves every date of an offsets window by k days. *)
Theorem windows_by_offsets (today : date) :
  (forall offsets offsets' : list Z,
      offsets_in_range today offsets ->
      offsets ≡ₚ offsets' ->
      offsets_in_range today offsets'
      /\ get_dates_from_offsets today offsets = get_dates_from_offsets today offsets')
  /\ (forall max_dates : option Z,
        default_in_range today ->
        offsets_in_range today (range 1 (1 + Z.of_nat (requested_cap max_dates)))
        /\ get_next_30_days today max_dates
           = get_dates_from_offsets today
               (range 1 (1 + Z.of_nat (requested_cap max_dates))))
  /\ (forall (k : Z) (offsets : list Z),
        offsets_in_range today offsets ->
        offsets_in_range (today + k) offsets ->
        get_dates_from_offsets (today + k) offsets
        = map (fun d => d + k) (get_dates_from_offsets today offsets)).
Proof.
  split; [|split].
  - intros offsets offsets' [Htoday Hrange] Hperm. split.
    { split; [done|]. by rewrite <- Hperm. }
    unfold get_dates_from_offsets.
    by rewrite (sorted_Z_Permutation offsets offsets').
  - intros max_dates [Htoday Hlast]. split.
    { split; [done|]. apply Forall_forall. intros o Ho. unfold range in Ho.
      apply list_elem_of_In, in_map_iff in Ho as (i & <- & Hi). apply in_seq in Hi.
      pose proof (requested_cap_le max_dates).
      unfold is_date, MIN_ORDINAL, MAX_ORDINAL in *. lia. }
    rewrite get_next_30_days_eq. unfold get_dates_from_offsets.
    rewrite sorted_id.
    + unfold range. rewrite map_map.
      replace (Z.to_nat (1 + Z.of_nat (requested_cap max_dates) - 1))
        with (requested_cap max_dates) by lia.
      apply map_ext. intros i. lia.
    + apply Sorted_le_leb, StronglySorted_Sorted.
      unfold range.
      eapply StronglySorted_ind with (P := fun l' => StronglySorted Z.le l');
        [constructor | | apply (range_strictly_ascending 1 0)].
      intros a l' _ IH Hall. constructor; [done|].
      eapply Forall_impl; [exact Hall|]. intros x Hx. simpl in Hx. lia.
  - intros k offsets _ _. unfold get_dates_from_offsets. rewrite map_map.
    apply map_ext. intros o. lia.
Qed.

Lemma windows_by_offsets_witness :
  get_dates_from_offsets TODAY [30; 1; 7] = get_dates_from_offsets TODAY [1; 7; 30].
Proof.
  apply (proj1 (windows_by_offsets TODAY) [30; 1; 7] [1; 7; 30]).
  - unfold offsets_in_range, is_date, MIN_ORDINAL, MAX_ORDINAL, TODAY.
    split; [lia | repeat constructor; lia].
  - apply (bool_decide_unpack _). vm_compute. reflexivity.
Defined.

(** ** Hotel name clean-up *)

Lemma substring_refl s : substring_of s s.
Proof. exists [], []. by rewrite app_nil_r. Qed.

Lemma substring_trans r s t : substring_of r s -> substring_of s t -> substring_of r t.
Proof.
  intros (b1 & a1 & ->) (b2 & a2 & ->). exists (b2 ++ b1), (a1 ++ a2).
  by rewrite <- !app_assoc.
Qed.

Lemma lstrip_suffix s : exists before, s = before ++ lstrip s.
Proof.
  induction s as [|c s [before IH]]; [by exists []|]. simpl.
  destruct (is_space c).
  - exists (c :: before). simpl. by rewrite <- IH.
  - by exists [].
Qed.

Lemma strip_substring s : substring_of (strip s) s.
Proof.
  unfold strip, rstrip.
  destruct (lstrip_suffix s) as [before Hs].
  destruct (lstrip_suffix (rev (lstrip s))) as [after Hr].
  exists before, (rev after).
  rewrite <- rev_app_distr, <- Hr, rev_involutive. exact Hs.
Qed.

Lemma take_substring n (s : pystr) : substring_of (take n s) s.
Proof. exists [], (drop n s). simpl. by rewrite take_drop. Qed.

Lemma drop_substring n (s : pystr) : substring_of (drop n s) s.
Proof. exists (take n s), []. by rewrite app_nil_r, take_drop. Qed.

Lemma substring_length r s : substring_of r s -> (length r <= length s)%nat.
Proof. intros (b & a & ->). rewrite !length_app. lia. Qed.

Lemma startswith_length s prefix :
  startswith s prefix = true -> (length prefix <= length s)%nat.
Proof.
  revert s. induction prefix as [|p prefix IH]; intros [|c s]; simpl; try done; try lia.
  intros [_ H]%andb_true_iff. apply IH in H. lia.
Qed.

Lemma endswith_length s suffix :
  endswith s suffix = true -> (length suffix <= length s)%nat.
Proof.
  unfold endswith. intros H%startswith_length. by rewrite !length_rev in H.
Qed.

Lemma suffixes_nonempty suffix :
  In suffix NAME_SUFFIXES_TO_STRIP -> (0 < length suffix)%nat.
Proof.
  assert (H : forallb (fun x => (0 <? length x)%nat) NAME_SUFFIXES_TO_STRIP = true)
    by reflexivity.
  rewrite forallb_forall in H. intros Hin. apply H in Hin. by apply Nat.ltb_lt.
Qed.

(** A round that cuts a suffix leaves a strictly shorter text. *)
Lemma cut_round_shorter s suffix :
  List.find (endswith s) NAME_SUFFIXES_TO_STRIP = Some suffix ->
  (length (strip (take (length s - length suffix) s)) < length s)%nat.
Proof.
  intros [Hin Hends]%find_some.
  apply suffixes_nonempty in Hin. apply endswith_length in Hends.
  pose proof (substring_length _ _ (strip_substring (take (length s - length suffix) s))) as H.
  rewrite length_take in H. lia.
Qed.

Lemma cut_suffixes_substring fuel : forall s, substring_of (cut_suffixes fuel s) s.
Proof.
  induction fuel as [|fuel IH]; intros s; cbn [cut_suffixes]; [apply substring_refl|].
  destruct (List.find (endswith s) NAME_SUFFIXES_TO_STRIP) as [suffix|];
    [|apply substring_refl].
  eapply substring_trans; [apply IH|].
  eapply substring_trans; [apply strip_substring | apply take_substring].
Qed.

Lemma cut_suffixes_no_suffix fuel : forall s,
  (length s <= fuel)%nat ->
  List.find (endswith (cut_suffixes fuel s)) NAME_SUFFIXES_TO_STRIP = None.
Proof.
  induction fuel as [|fuel IH]; intros s Hlen.
  - destruct s; [reflexivity | simpl in Hlen; lia].
  - cbn [cut_suffixes].
    destruct (List.find (endswith s) NAME_SUFFIXES_TO_STRIP) as [suffix|] eqn:E;
      [|exact E].
    apply IH. apply cut_round_shorter in E. lia.
Qed.

Lemma cut_suffixes_fuel fuel : forall fuel' s,
  (length s <= fuel)%nat -> (length s <= fuel')%nat ->
  cut_suffixes fuel s = cut_suffixes fuel' s.
Proof.
  induction fuel as [|fuel IH]; intros fuel' s Hlen Hlen'.
  - destruct s; [by destruct fuel' | simpl in Hlen; lia].
  - destruct fuel' as [|fuel'].
    { destruct s; [reflexivity | simpl in Hlen'; lia]. }
    cbn [cut_suffixes].
    destruct (List.find (endswith s) NAME_SUFFIXES_TO_STRIP) as [suffix|] eqn:E; [|done].
    apply cut_round_shorter in E. apply IH; lia.
Qed.

(** More rounds than [len(s)] change nothing. *)
Lemma cut_suffixes_enough_fuel fuel s :
  (length s <= fuel)%nat -> cut_suffixes fuel s = cut_suffixes (length s) s.
Proof. intros Hlen. by apply cut_suffixes_fuel. Qed.

Lemma cut_suffixes_stripped fuel : forall s,
  strip s = s -> strip (cut_suffixes fuel s) = cut_suffixes fuel s.
Proof.
  induction fuel as [|fuel IH]; intros s Hs; cbn [cut_suffixes]; [done|].
  destruct (List.find (endswith s) NAME_SUFFIXES_TO_STRIP); [|done].
  apply IH, strip_idem.
Qed.

Lemma cut_prefix_stripped s : strip s = s -> strip (cut_prefix s) = cut_prefix s.
Proof.
  intros Hs. unfold cut_prefix.
  destruct (List.find (startswith s) NAME_PREFIXES_TO_STRIP); [apply strip_idem | done].
Qed.

Lemma cut_prefix_substring s : substring_of (cut_prefix s) s.
Proof.
  unfold cut_prefix.
  destruct (List.find (startswith s) NAME_PREFIXES_TO_STRIP); [|apply substring_refl].
  eapply substring_trans; [apply strip_substring | apply drop_substring].
Qed.

(** X22. The cleaned hotel name ends with none of the listed suffixes (the
    loop runs until none applies, and [len(s)] rounds are always enough), has
    no white space at either end, and is a run of consecutive characters of
    the raw name. A raw name that, once stripped, starts with none of the
    prefixes and ends with none of the suffixes is returned stripped. *)
Theorem clean_hotel_name_result (raw : pystr) :
  (forall suffix, In suffix NAME_SUFFIXES_TO_STRIP ->
                  endswith (_clean_hotel_name raw) suffix = false)
  /\ strip (_clean_hotel_name raw) = _clean_hotel_name raw
  /\ substring_of (_clean_hotel_name raw) raw
  /\ (forall fuel, (length (cut_prefix (strip raw)) <= fuel)%nat ->
        raw <> [] ->
        cut_suffixes fuel (cut_prefix (strip raw)) = _clean_hotel_name raw)
  /\ (List.find (startswith (strip raw)) NAME_PREFIXES_TO_STRIP = None ->
      List.find (endswith (strip raw)) NAME_SUFFIXES_TO_STRIP = None ->
      _clean_hotel_name raw = strip raw).
Proof.
  destruct raw as [|c raw].
  { split; [|split; [done|split; [apply substring_refl|split; done]]].
    intros suffix Hin. by eapply find_none in Hin. }
  cbn [_clean_hotel_name]. set (s := cut_prefix (strip (c :: raw))).
  split; [|split; [|split; [|split]]].
  - intros suffix Hin.
    eapply find_none in Hin; [exact Hin|]. by apply cut_suffixes_no_suffix.
  - apply cut_suffixes_stripped, cut_prefix_stripped, strip_idem.
  - eapply substring_trans; [apply cut_suffixes_substring|].
    eapply substring_trans; [apply cut_prefix_substring | apply strip_substring].
  - intros fuel Hfuel _. by apply cut_suffixes_enough_fuel.
  - intros Hp Hs. subst s. unfold cut_prefix. rewrite Hp.
    destruct (length (strip (c :: raw))); cbn [cut_suffixes]; [done|]. by rewrite Hs.
Qed.

Lemma clean_hotel_name_result_witness :
  _clean_hotel_name (py "Offre à l'établissement Le Mas des Oliviers (Hôtel), (France)")
  = py "Le Mas des Oliviers"
  /\ endswith (py "Le Mas des Oliviers") (py " (Hôtel)") = false.
Proof.
  split; [reflexivity|].
  assert (H : _clean_hotel_name
                (py "Offre à l'établissement Le Mas des Oliviers (Hôtel), (France)")
              = py "Le Mas des Oliviers") by reflexivity.
  rewrite <- H.
  apply (proj1 (clean_hotel_name_result
                  (py "Offre à l'établissement Le Mas des Oliviers (Hôtel), (France)"))).
  simpl. tauto.
Defined.

(** ** Address text clean-up *)

Lemma startswith_app s prefix :
  startswith s prefix = true <-> exists rest, s = prefix ++ rest.
Proof.
  revert s. induction prefix as [|p prefix IH]; intros s; simpl.
  - split; [by exists s | by destruct s].
  - destruct s as [|c s]; simpl.
    { split; [done|]. intros [rest H]. discriminate H. }
    rewrite andb_true_iff, IH, N.eqb_eq. split.
    + intros [-> [rest ->]]. by exists rest.
    + intros [rest [= -> ->]]. split; [done | by exists rest].
Qed.

Lemma contains_sub_substring sub s :
  contains_sub sub s = true <-> substring_of sub s.
Proof.
  induction s as [|c s IH]; cbn [contains_sub].
  - rewrite orb_false_r, startswith_app. split.
    + intros [rest H]. by exists [], rest.
    + intros ([|b before] & after & H); [by exists after | done].
  - rewrite orb_true_iff, IH, startswith_app. split.
    + intros [[rest H] | (before & after & ->)].
      * by exists [], rest.
      * by exists (c :: before), after.
    + intros ([|b before] & after & H).
      * left. by exists after.
      * right. injection H as -> ->. by exists before, after.
Qed.

Lemma contains_sub_false_substring sub r s :
  substring_of r s -> contains_sub sub s = false -> contains_sub sub r = false.
Proof.
  intros Hrs Hs. destruct (contains_sub sub r) eqn:E; [|done].
  apply contains_sub_substring in E.
  pose proof (substring_trans _ _ _ E Hrs) as H.
  apply contains_sub_substring in H. congruence.
Qed.

Lemma before_first_prefix sep s : exists rest, s = before_first sep s ++ rest.
Proof.
  induction s as [|c s [rest IH]]; [by exists []|]. cbn [before_first].
  destruct (startswith (c :: s) sep); [by exists (c :: s)|].
  exists rest. simpl. by rewrite <- IH.
Qed.

Lemma before_first_free sep s :
  sep <> [] -> contains_sub sep (before_first sep s) = false.
Proof.
  intros Hsep. induction s as [|c s IH]; cbn [before_first].
  - by destruct sep.
  - destruct (startswith (c :: s) sep) eqn:E; [by destruct sep|].
    cbn [contains_sub]. rewrite IH, orb_false_r.
    destruct (startswith (c :: before_first sep s) sep) eqn:E'; [|done].
    apply startswith_app in E' as [rest' H'].
    destruct (before_first_prefix sep s) as [rest H].
    assert (Hs : startswith (c :: s) sep = true).
    { apply startswith_app. exists (rest' ++ rest).
      rewrite app_assoc, <- H'. simpl. by rewrite <- H. }
    congruence.
Qed.

(** X23. The normalized address never contains the reservation note (what
    follows its first occurrence is cut, the note included), has no white
    space at either end, and is either empty or longer than eight
    characters. *)
Theorem norm_addr_result (t : option pystr) :
  contains_sub RESERVATION_NOTE (_norm_addr t) = false
  /\ strip (_norm_addr t) = _norm_addr t
  /\ (_norm_addr t = [] \/ (8 < length (_norm_addr t))%nat).
Proof.
  unfold _norm_addr.
  set (t0 := strip (strip_hyphens (strip _))).
  set (t1 := if contains_sub RESERVATION_NOTE t0
             then strip (before_first RESERVATION_NOTE t0) else t0).
  assert (Hstrip : strip t1 = t1).
  { subst t1. destruct (contains_sub RESERVATION_NOTE t0); apply strip_idem. }
  assert (Hfree : contains_sub RESERVATION_NOTE t1 = false).
  { subst t1. destruct (contains_sub RESERVATION_NOTE t0) eqn:E; [|done].
    eapply contains_sub_false_substring; [apply strip_substring|].
    by apply before_first_free. }
  clearbody t1. clear t0.
  assert (Hnil : contains_sub RESERVATION_NOTE [] = false
                 /\ strip [] = ([] : pystr)
                 /\ (([] : pystr) = [] \/ (8 < length ([] : pystr))%nat)).
  { split; [reflexivity|]. split; [reflexivity | by left]. }
  destruct t1 as [|c rest]; [exact Hnil|].
  destruct (8 <? length (c :: rest))%nat eqn:Hlen; [|exact Hnil].
  split; [done|]. split; [done|]. right. by apply Nat.ltb_lt.
Qed.

Lemma norm_addr_result_witness :
  _norm_addr (Some (py "12 rue des Lilas, 13210 Saint-Rémy - Voir la carte Une fois votre réservation effectuée"))
  = py "12 rue des Lilas, 13210 Saint-Rémy -"
  /\ contains_sub RESERVATION_NOTE (py "12 rue des Lilas, 13210 Saint-Rémy -") = false.
Proof.
  assert (H : _norm_addr (Some (py "12 rue des Lilas, 13210 Saint-Rémy - Voir la carte Une fois votre réservation effectuée"))
              = py "12 rue des Lilas, 13210 Saint-Rémy -") by reflexivity.
  split; [exact H|]. rewrite <- H.
  apply (norm_addr_result (Some (py "12 rue des Lilas, 13210 Saint-Rémy - Voir la carte Une fois votre réservation effectuée"))).
Defined.

(** ** Cookie banner *)

Ltac call_cases Hin :=
  repeat (apply elem_of_cons in Hin as [Hin|Hin]);
  try (by apply elem_of_nil in Hin).

Lemma accept_cookies_calls_selectors page selectors c :
  c ∈ accept_cookies_over page selectors ->
  exists selector, selector ∈ selectors /\ (c = IsVisible selector \/ c = Click selector).
Proof.
  induction selectors as [|s rest IH]; simpl; intros Hin.
  - by apply elem_of_nil in Hin.
  - assert (Hrest : c ∈ accept_cookies_over page rest ->
                    exists selector, selector ∈ s :: rest
                                     /\ (c = IsVisible selector \/ c = Click selector)).
    { intros H. destruct (IH H) as (x & Hx & Hc). exists x. split; [by right | done]. }
    assert (Hs : c = IsVisible s \/ c = Click s ->
                 exists selector, selector ∈ s :: rest
                                  /\ (c = IsVisible selector \/ c = Click selector)).
    { intros Hc. exists s. split; [by left | done]. }
    destruct (is_visible page s) as [[|]|e].
    + destruct (click page s) as [[]|e]; call_cases Hin; auto.
    + call_cases Hin; auto.
    + call_cases Hin; auto.
Qed.

Lemma accept_cookies_none page selectors :
  List.find (accepted_by page) selectors = None ->
  (forall selector, selector ∈ selectors ->
                    IsVisible selector ∈ accept_cookies_over page selectors)
  /\ (forall selector, Click selector ∈ accept_cookies_over page selectors ->
                       is_ok (click page selector) = false).
Proof.
  induction selectors as [|s rest IH]; simpl.
  - intros _. split; intros x Hx; by apply elem_of_nil in Hx.
  - unfold accepted_by at 1.
    destruct (is_visible page s) as [[|]|e] eqn:Hv.
    + destruct (click page s) as [[]|e] eqn:Hk; simpl; [done|].
      intros Hnone. destruct (IH Hnone) as [IH1 IH2]. split.
      * intros x [->|Hx]%elem_of_cons; [by left|]. right. right. by apply IH1.
      * intros x Hin. call_cases Hin; [done | | by apply IH2].
        injection Hin as ->. by rewrite Hk.
    + intros Hnone. destruct (IH Hnone) as [IH1 IH2]. split.
      * intros x [->|Hx]%elem_of_cons; [by left|]. right. by apply IH1.
      * intros x Hin. call_cases Hin; [done | by apply IH2].
    + intros Hnone. destruct (IH Hnone) as [IH1 IH2]. split.
      * intros x [->|Hx]%elem_of_cons; [by left|]. right. by apply IH1.
      * intros x Hin. call_cases Hin; [done | by apply IH2].
Qed.

Lemma accept_cookies_stops_at_first page selectors selector :
  NoDup selectors ->
  List.find (accepted_by page) selectors = Some selector ->
  exists before after,
    selectors = before ++ selector :: after
    /\ (forall x, x ∈ before -> accepted_by page x = false)
    /\ accepted_by page selector = true
    /\ last (accept_cookies_over page selectors) = Some (Click selector)
    /\ (forall x, x ∈ before -> IsVisible x ∈ accept_cookies_over page selectors)
    /\ (forall x, x ∈ after ->
          (IsVisible x ∉ accept_cookies_over page selectors)
          /\ (Click x ∉ accept_cookies_over page selectors)).
Proof.
  induction selectors as [|s rest IH]; simpl; [done|].
  intros [Hs Hnd]%NoDup_cons.
  destruct (accepted_by page s) eqn:Ha.
  - intros [= <-]. exists [], rest. split; [done|].
    split; [intros x Hx; by apply elem_of_nil in Hx|]. split; [done|].
    unfold accepted_by in Ha.
    destruct (is_visible page s) as [[|]|e]; try done.
    destruct (click page s) as [[]|e]; [|done].
    split; [done|]. split; [intros x Hx; by apply elem_of_nil in Hx|].
    intros x Hx. assert (x <> s) by (intros ->; done).
    split; intros Hin; call_cases Hin; congruence.
  - intros Hfind.
    destruct (IH Hnd Hfind) as (before & after & Heq & Hb & Hsel & Hlast & Hp & Hafter).
    exists (s :: before), after. split; [by rewrite Heq|].
    split; [intros x [->|Hx]%elem_of_cons; [done | by apply Hb]|]. split; [done|].
    assert (Hlast' : forall c, last (c :: accept_cookies_over page rest)
                               = Some (Click selector)).
    { intros c. destruct (accept_cookies_over page rest); [done | exact Hlast]. }
    assert (Hsafter : forall x, x ∈ after -> x <> s).
    { intros x Hx ->. apply Hs. rewrite Heq. apply elem_of_app. right. by right. }
    unfold accepted_by in Ha.
    destruct (is_visible page s) as [[|]|e].
    + destruct (click page s) as [[]|e]; [done|]. split; [|split].
      * change (last (IsVisible s :: Click s :: accept_cookies_over page rest))
          with (last (Click s :: accept_cookies_over page rest)). apply Hlast'.
      * intros x [->|Hx]%elem_of_cons; [by left|]. right. right. by apply Hp.
      * intros x Hx. destruct (Hafter x Hx) as [H1 H2]. pose proof (Hsafter x Hx).
        split; intros Hin; call_cases Hin; first [congruence | tauto].
    + split; [apply Hlast'|]. split.
      * intros x [->|Hx]%elem_of_cons; [by left|]. right. by apply Hp.
      * intros x Hx. destruct (Hafter x Hx) as [H1 H2]. pose proof (Hsafter x Hx).
        split; intros Hin; call_cases Hin; first [congruence | tauto].
    + split; [apply Hlast'|]. split.
      * intros x [->|Hx]%elem_of_cons; [by left|]. right. by apply Hp.
      * intros x Hx. destruct (Hafter x Hx) as [H1 H2]. pose proof (Hsafter x Hx).
        split; intros Hin; call_cases Hin; first [congruence | tauto].
Qed.

(** X24. The cookie banner is accepted through the first selector, in list
    order, that is visible and whose click goes through: the function stops
    on that click, has probed every selector before it, and touches none
    after it. When no selector qualifies, every selector is probed and no
    click goes through. Only the listed selectors are ever used. *)
Theorem accept_cookies_first_match (page : Locators) :
  match List.find (accepted_by page) COOKIE_ACCEPT_SELECTORS with
  | Some selector =>
      exists before after,
        COOKIE_ACCEPT_SELECTORS = before ++ selector :: after
        /\ (forall x, x ∈ before -> accepted_by page x = false)
        /\ accepted_by page selector = true
        /\ last (_accept_cookies_if_present page) = Some (Click selector)
        /\ (forall x, x ∈ before -> IsVisible x ∈ _accept_cookies_if_present page)
        /\ (forall x, x ∈ after ->
              (IsVisible x ∉ _accept_cookies_if_present page)
              /\ (Click x ∉ _accept_cookies_if_present page))
  | None =>
      (forall selector, selector ∈ COOKIE_ACCEPT_SELECTORS ->
                        IsVisible selector ∈ _accept_cookies_if_present page)
      /\ (forall selector, Click selector ∈ _accept_cookies_if_present page ->
                           is_ok (click page selector) = false)
  end
  /\ (forall c, c ∈ _accept_cookies_if_present page ->
        exists selector, selector ∈ COOKIE_ACCEPT_SELECTORS
                         /\ (c = IsVisible selector \/ c = Click selector)).
Proof.
  split; [|apply accept_cookies_calls_selectors].
  unfold _accept_cookies_if_present.
  destruct (List.find (accepted_by page) COOKIE_ACCEPT_SELECTORS) as [selector|] eqn:E.
  - apply accept_cookies_stops_at_first; [|exact E].
    apply (bool_decide_unpack _). vm_compute. reflexivity.
  - by apply accept_cookies_none.
Qed.

Lemma accept_cookies_first_match_witness :
  last (_accept_cookies_if_present banner_page)
  = Some (Click (py "button:has-text('OK')")).
Proof.
  pose proof (proj1 (accept_cookies_first_match banner_page)) as H.
  change (List.find (accepted_by banner_page) COOKIE_ACCEPT_SELECTORS)
    with (Some (py "button:has-text('OK')")) in H.
  destruct H as (before & after & _ & _ & _ & Hlast & _). exact Hlast.
Defined.
